(** * Cryptocurrency ETL backend: the ingestion core

    A shallow embedding of [ingestion/schemas.py], [ingestion/transformers.py],
    [ingestion/sources/coinpaprika.py], [ingestion/sources/coingecko.py] and
    [ingestion/etl.py], followed by the properties of the pipeline.

    Conventions of the embedding.
    - A Python [str] is a [string] whose characters are code points below 256.
    - A Python [float] is an IEEE 754 binary64 value, [spec_float] with
      precision 53 and maximal exponent 1024, rounded to nearest even.
    - A Python exception is a class tag with its message; code that can raise
      returns a [result].
    - Of a call of [print], the making of its text is modelled where it can
      raise: the id that the transformers print for an item they skip.  The
      stream takes every text. *)

From Stdlib Require Import ZArith List String Ascii Bool Lia PeanoNat.
From Stdlib Require Import Floats.SpecFloat.
Import ListNotations.

Local Open Scope string_scope.
Local Open Scope list_scope.
Local Open Scope nat_scope.

(** ** Python strings *)

Module PyStr.

Definition code (c : ascii) : nat := nat_of_ascii c.

(** [str.isspace] on one character below 256. *)
Definition isspace (c : ascii) : bool :=
  let n := code c in
  ((9 <=? n) && (n <=? 13)) || ((28 <=? n) && (n <=? 32))
  || (n =? 133) || (n =? 160).

(** [str.lower] on one character below 256: A-Z and the Latin-1 capitals. *)
Definition lower_char (c : ascii) : ascii :=
  let n := code c in
  if ((65 <=? n) && (n <=? 90))
     || ((192 <=? n) && (n <=? 222) && negb (n =? 215))
  then ascii_of_nat (n + 32) else c.

Fixpoint drop_while (p : ascii -> bool) (l : list ascii) : list ascii :=
  match l with
  | [] => []
  | c :: r => if p c then drop_while p r else l
  end.

Definition lstrip_with (p : ascii -> bool) (l : list ascii) := drop_while p l.
Definition rstrip_with (p : ascii -> bool) (l : list ascii) :=
  rev (drop_while p (rev l)).
Definition strip_with (p : ascii -> bool) (l : list ascii) :=
  rstrip_with p (lstrip_with p l).

(** [s.strip()] *)
Definition strip (s : string) : string :=
  string_of_list_ascii (strip_with isspace (list_ascii_of_string s)).

(** [s.lower()] *)
Definition lower (s : string) : string :=
  string_of_list_ascii (map lower_char (list_ascii_of_string s)).

(** [s.replace(c, '')] for a one-character [c]. *)
Definition remove_char (c : ascii) (s : string) : string :=
  string_of_list_ascii
    (filter (fun x => negb (Ascii.eqb x c)) (list_ascii_of_string s)).

(** [sep.join(l)] *)
Fixpoint join (sep : string) (l : list string) : string :=
  match l with
  | [] => ""
  | [s] => s
  | s :: r => (s ++ sep ++ join sep r)%string
  end.

(** [x in l] for a list of strings. *)
Definition mem (x : string) (l : list string) : bool :=
  existsb (String.eqb x) l.

(** [str(z)] for an integer. *)
Definition digit_char (d : Z) : ascii := ascii_of_nat (48 + Z.to_nat d).

Fixpoint digits_pos (fuel : nat) (z : Z) (acc : list ascii) : list ascii :=
  match fuel with
  | O => acc
  | S fuel' =>
      if (z <? 10)%Z then digit_char z :: acc
      else digits_pos fuel' (z / 10)%Z (digit_char (z mod 10)%Z :: acc)
  end.

Definition of_Z (z : Z) : string :=
  let body := digits_pos (S (Z.to_nat (Z.log2 (Z.abs z)))) (Z.abs z) [] in
  string_of_list_ascii (if (z <? 0)%Z then "-"%char :: body else body).

End PyStr.

(** ** Python floats *)

Module PyFloat.

Definition prec : Z := 53.
Definition emax : Z := 1024.

Definition float := spec_float.

Definition zero : float := S754_zero false.
Definition inf (neg : bool) : float := S754_infinity neg.
Definition nan : float := S754_nan.

(** Python's [<], [<=] and [==] on floats. *)
Definition ltb (x y : float) : bool := SFltb x y.
Definition leb (x y : float) : bool := SFleb x y.
Definition eqb (x y : float) : bool := SFeqb x y.

(** [bool(x)]: every float but the two zeros is true. *)
Definition truthy (x : float) : bool :=
  match x with S754_zero _ => false | _ => true end.

(** [float(z)] for an integer in range, correctly rounded; an integer of
    magnitude [2^1024] or more comes out as an infinity here. *)
Definition of_Z (z : Z) : float := binary_normalize prec emax z 0 false.

(** The binary64 value nearest to [m * 10^e], [m >= 0], with sign [neg]. *)
Definition of_decimal (neg : bool) (m e : Z) : float :=
  match m with
  | Z0 => S754_zero neg
  | Zpos p =>
      match e with
      | Zneg k =>
          let '(q, e', l) :=
            SFdiv_core_binary prec emax (Zpos p) 0 (Z.pow_pos 10 k) 0 in
          binary_round_aux prec emax neg q e' l
      | _ => binary_round prec emax neg (Z.to_pos (Zpos p * 10 ^ e)) 0
      end
  | Zneg _ => S754_nan
  end.

(** *** [float(s)] for a string

    The text is stripped of white space, then read as an optional sign
    followed by [inf], [infinity], [nan] (any case) or a decimal number:
    digits with single underscores between them, an optional fraction and an
    optional exponent.  [None] stands for [ValueError]. *)

Definition float_space (c : ascii) : bool :=
  let n := nat_of_ascii c in
  ((9 <=? n) && (n <=? 13)) || (n =? 32) || (n =? 133) || (n =? 160).

Definition digit_of (c : ascii) : option Z :=
  let n := nat_of_ascii c in
  if (48 <=? n) && (n <=? 57) then Some (Z.of_nat (n - 48)) else None.

(** The rest of a digit part after a digit: [(_? digit)*]. *)
Fixpoint digit_tail (l : list ascii) (acc : Z) (len : Z)
  : Z * Z * list ascii :=
  match l with
  | c :: r =>
      match digit_of c with
      | Some d => digit_tail r (acc * 10 + d) (len + 1)
      | None =>
          if Ascii.eqb c "_" then
            match r with
            | c' :: r' =>
                match digit_of c' with
                | Some d => digit_tail r' (acc * 10 + d) (len + 1)
                | None => (acc, len, l)
                end
            | [] => (acc, len, l)
            end
          else (acc, len, l)
      end
  | [] => (acc, len, l)
  end.

(** A digit part continuing the number [acc]: (value, digits read, rest). *)
Definition digit_part (l : list ascii) (acc : Z)
  : option (Z * Z * list ascii) :=
  match l with
  | c :: r =>
      match digit_of c with
      | Some d => Some (digit_tail r (acc * 10 + d) 1)
      | None => None
      end
  | [] => None
  end.

Definition is_e (c : ascii) : bool := Ascii.eqb c "e" || Ascii.eqb c "E".

(** The optional exponent, then the end of the text. *)
Definition exponent (l : list ascii) : option Z :=
  match l with
  | [] => Some 0%Z
  | c :: r =>
      if is_e c then
        let '(neg, r') :=
          match r with
          | "+"%char :: t => (false, t)
          | "-"%char :: t => (true, t)
          | _ => (false, r)
          end in
        match digit_part r' 0 with
        | Some (v, _, []) => Some (if neg then (- v)%Z else v)
        | _ => None
        end
      else None
  end.

Definition number (neg : bool) (l : list ascii) : option float :=
  match l with
  | "."%char :: r =>
      match digit_part r 0 with
      | Some (m, k, rest) =>
          match exponent rest with
          | Some e => Some (of_decimal neg m (e - k))
          | None => None
          end
      | None => None
      end
  | _ =>
      match digit_part l 0 with
      | Some (i, _, "."%char :: r) =>
          let '(m, k, rest) :=
            match digit_part r i with
            | Some t => t
            | None => (i, 0%Z, r)
            end in
          match exponent rest with
          | Some e => Some (of_decimal neg m (e - k))
          | None => None
          end
      | Some (i, _, rest) =>
          match exponent rest with
          | Some e => Some (of_decimal neg i e)
          | None => None
          end
      | None => None
      end
  end.

Definition of_string (s : string) : option float :=
  let t := PyStr.strip_with float_space (list_ascii_of_string s) in
  let '(neg, body) :=
    match t with
    | "+"%char :: r => (false, r)
    | "-"%char :: r => (true, r)
    | _ => (false, t)
    end in
  let word := string_of_list_ascii (map PyStr.lower_char body) in
  if String.eqb word "inf" || String.eqb word "infinity" then Some (inf neg)
  else if String.eqb word "nan" then Some nan
  else number neg body.

End PyFloat.

(** ** Python values

    The values a decoded JSON document or a row of the data file can hold.  A
    [dict] is an association list read from the front; its keys are strings. *)

#[warnings="-register-all"]
Inductive pyval : Type :=
| VNone
| VBool (b : bool)
| VInt (z : Z)
| VFloat (f : PyFloat.float)
| VStr (s : string)
| VList (l : list pyval)
| VDict (d : list (string * pyval)).

Definition pydict : Type := list (string * pyval).

Fixpoint lookup (d : pydict) (k : string) : option pyval :=
  match d with
  | [] => None
  | (k', v) :: r => if String.eqb k k' then Some v else lookup r k
  end.

(** [d.get(k, default)] *)
Definition dict_get (d : pydict) (k : string) (default : pyval) : pyval :=
  match lookup d k with
  | Some v => v
  | None => default
  end.

(** [bool(v)] *)
Definition truthy (v : pyval) : bool :=
  match v with
  | VNone => false
  | VBool b => b
  | VInt z => negb (z =? 0)%Z
  | VFloat f => PyFloat.truthy f
  | VStr s => negb (String.eqb s "")
  | VList l => match l with [] => false | _ => true end
  | VDict d => match d with [] => false | _ => true end
  end.

(** [a or b] *)
Definition py_or (a b : pyval) : pyval := if truthy a then a else b.

(** ** Exceptions and results *)

Inductive exn_class : Type :=
| ValidationError
| KeyError
| TypeError
| ValueError
| AttributeError
| RecursionError
| RequestException
| FileNotFoundError
| OtherError.

Record exn : Type := { cls : exn_class; msg : string }.

Inductive result (A : Type) : Type :=
| Ok (a : A)
| Raise (e : exn).

Arguments Ok {A} a.
Arguments Raise {A} e.

(** Code that reads and writes a state of type [S] and can raise. *)
Definition M (S A : Type) : Type := S -> result A * S.

Definition ret {S A} (a : A) : M S A := fun s => (Ok a, s).

Definition raise {S A} (e : exn) : M S A := fun s => (Raise e, s).

Definition bind {S A B} (c : M S A) (k : A -> M S B) : M S B :=
  fun s =>
    match c s with
    | (Ok a, s') => k a s'
    | (Raise e, s') => (Raise e, s')
    end.

(** [try: c  except Exception as e: h e] *)
Definition try_except {S A} (c : M S A) (h : exn -> M S A) : M S A :=
  fun s =>
    match c s with
    | (Ok a, s') => (Ok a, s')
    | (Raise e, s') => h e s'
    end.

Definition lift {S A} (r : result A) : M S A := fun s => (r, s).

Definition gets {S A} (f : S -> A) : M S A := fun s => (Ok (f s), s).

Definition modify {S} (f : S -> S) : M S unit := fun s => (Ok tt, f s).

Declare Scope py_scope.
Delimit Scope py_scope with py.
Notation "x <- c ;; k" := (bind c (fun x => k))
  (at level 100, c at next level, right associativity) : py_scope.
Notation "c ;;; k" := (bind c (fun _ => k))
  (at level 100, right associativity) : py_scope.

Definition attribute_error : exn :=
  {| cls := AttributeError; msg := "object has no attribute 'get'" |}.

(** [v.get(k, default)]: only a dict has the method. *)
Definition attr_get (v : pyval) (k : string) (default : pyval) : result pyval :=
  match v with
  | VDict d => Ok (dict_get d k default)
  | _ => Raise attribute_error
  end.

(** What the embedding takes from outside the repository: the text Python
    makes of a float, a list or a dict, or the exception it raises in making
    it (a [ValueError] for an integer above the limit on digits inside a list,
    a [RecursionError] for a nesting too deep); the float pydantic makes, in
    lax mode, of a value that is neither a float nor an integer in range
    ([None] stands for a validation error); and the interpreter's limit on the
    digits of an integer turned into text, [sys.get_int_max_str_digits()],
    where 0 stands for no limit (4300 as the interpreter starts). *)
Class PyLib : Type := {
  repr : pyval -> result string;
  lax_float : pyval -> option PyFloat.float;
  int_max_str_digits : nat
}.

Definition int_str_error : exn :=
  {| cls := ValueError;
     msg := "Exceeds the limit for integer string conversion" |}.

(** [str(z)] for an integer: a [ValueError] when there is a limit and [z] has
    more digits, its sign apart. *)
Definition int_str `{PyLib} (z : Z) : result string :=
  if (0 <? int_max_str_digits)
     && (int_max_str_digits <? String.length (PyStr.of_Z (Z.abs z)))
  then Raise int_str_error
  else Ok (PyStr.of_Z z).

(** [str(v)], which is also what an f-string makes of [{v}]. *)
Definition py_str `{PyLib} (v : pyval) : result string :=
  match v with
  | VStr s => Ok s
  | VInt z => int_str z
  | VBool true => Ok "True"
  | VBool false => Ok "False"
  | VNone => Ok "None"
  | _ => repr v
  end.

(** ** The unified schema ([ingestion/schemas.py]) *)

(** A time stamp is the reading of a clock that counts its readings. *)
Definition time : Type := nat.

Record CryptoData : Type := {
  crypto_id : string;
  crypto_name : string;
  price_usd : PyFloat.float;
  market_cap_usd : option PyFloat.float;
  volume_24h_usd : option PyFloat.float;
  change_24h_percent : option PyFloat.float;
  source : string;
  timestamp : time
}.

(** The validators return [None] where the source raises [ValueError], which
    pydantic reports as a validation error. *)

Definition validate_positive_numbers (v : option PyFloat.float)
  : option (option PyFloat.float) :=
  match v with
  | Some f => if PyFloat.ltb f PyFloat.zero then None else Some v
  | None => Some v
  end.

Definition validate_not_empty (v : string) : option string :=
  if String.eqb v "" || String.eqb (PyStr.strip v) "" then None
  else Some (PyStr.strip v).

(** A [str] field takes a string and nothing else among these values. *)
Definition coerce_str (v : pyval) : option string :=
  match v with
  | VStr s => Some s
  | _ => None
  end.

(** A [float] field takes a float as it is and an integer converted. *)
Definition coerce_float `{PyLib} (v : pyval) : option PyFloat.float :=
  match v with
  | VFloat f => Some f
  | VInt z =>
      match PyFloat.of_Z z with
      | S754_infinity _ => lax_float v
      | f => Some f
      end
  | VNone | VList _ | VDict _ => None
  | _ => lax_float v
  end.

Definition opt_bind {A B} (o : option A) (k : A -> option B) : option B :=
  match o with
  | Some a => k a
  | None => None
  end.

(** [str = Field(...)] with [validate_not_empty]. *)
Definition field_name (v : pyval) : option string :=
  opt_bind (coerce_str v) validate_not_empty.

(** [float = Field(..., gt=0)] with [validate_positive_numbers].  The bound
    is Python's [v > 0], which is false on a NaN. *)
Definition field_price `{PyLib} (v : pyval) : option PyFloat.float :=
  opt_bind (coerce_float v) (fun f =>
    if PyFloat.ltb PyFloat.zero f
    then opt_bind (validate_positive_numbers (Some f)) (fun _ => Some f)
    else None).

(** [Optional[float] = Field(None, ge=0)] with [validate_positive_numbers].
    The bound is Python's [v >= 0], which is false on a NaN. *)
Definition field_amount `{PyLib} (v : pyval) : option (option PyFloat.float) :=
  match v with
  | VNone => validate_positive_numbers None
  | _ =>
      opt_bind (coerce_float v) (fun f =>
        if PyFloat.leb PyFloat.zero f
        then validate_positive_numbers (Some f)
        else None)
  end.

(** [Optional[float] = None] *)
Definition field_change `{PyLib} (v : pyval) : option (option PyFloat.float) :=
  match v with
  | VNone => Some None
  | _ => opt_bind (coerce_float v) (fun f => Some (Some f))
  end.

(** [CryptoData(crypto_id=.., ..., source=.., timestamp=..)]; [None] stands
    for pydantic's validation error. *)
Definition new_CryptoData `{PyLib}
    (id name price market_cap volume change : pyval)
    (src : string) (ts : time) : option CryptoData :=
  opt_bind (field_name id) (fun i =>
  opt_bind (field_name name) (fun n =>
  opt_bind (field_price price) (fun p =>
  opt_bind (field_amount market_cap) (fun m =>
  opt_bind (field_amount volume) (fun v =>
  opt_bind (field_change change) (fun c =>
    Some {| crypto_id := i; crypto_name := n; price_usd := p;
            market_cap_usd := m; volume_24h_usd := v;
            change_24h_percent := c; source := src; timestamp := ts |})))))).

Definition validation_error : exn :=
  {| cls := ValidationError; msg := "validation error for CryptoData" |}.

(** [datetime.utcnow()] / [datetime.now(timezone.utc)] on a clock. *)
Definition utcnow : M time time := fun clock => (Ok clock, S clock).

(** The constructor call with [timestamp=datetime.utcnow()] as its last
    argument. *)
Definition construct `{PyLib}
    (id name price market_cap volume change : pyval) (src : string)
  : M time CryptoData :=
  (ts <- utcnow ;;
   match new_CryptoData id name price market_cap volume change src ts with
   | Some c => ret c
   | None => raise validation_error
   end)%py.

(** ** The transformers ([ingestion/transformers.py]) *)

(** [print(f"... {item.get('id', 'unknown')} - {e}")] in the [except]
    clauses.  The f-string makes the text of the id, which can raise; the text
    of [e] is its message; the stream takes every text. *)
Definition print_skipped `{PyLib} (item : pydict) : result unit :=
  match py_str (dict_get item "id" (VStr "unknown")) with
  | Ok _ => Ok tt
  | Raise e => Raise e
  end.

(** The loop the three transformers share: a record is appended; an
    exception of a class named in the [except] clause is counted, the item is
    reported by [print] and the loop goes on; any other exception, and one that
    [print] raises in the handler, leaves the loop.  The result is the list
    [transformed] and the counter [errors]. *)
Fixpoint transform_loop `{PyLib}
    (body : pydict -> M time CryptoData) (caught : exn_class -> bool)
    (raw_data : list pydict) (transformed : list CryptoData) (errors : nat)
  : M time (list CryptoData * nat) :=
  match raw_data with
  | [] => ret (transformed, errors)
  | item :: rest =>
      fun clock =>
        match body item clock with
        | (Ok crypto, clock') =>
            transform_loop body caught rest (transformed ++ [crypto]) errors clock'
        | (Raise e, clock') =>
            if caught (cls e)
            then
              match print_skipped item with
              | Ok _ => transform_loop body caught rest transformed (S errors) clock'
              | Raise e' => (Raise e', clock')
              end
            else (Raise e, clock')
        end
  end.

(** [except (ValidationError, KeyError, TypeError)] *)
Definition caught_api (c : exn_class) : bool :=
  match c with
  | ValidationError | KeyError | TypeError => true
  | _ => false
  end.

(** [except (ValidationError, KeyError, TypeError, ValueError)] *)
Definition caught_csv (c : exn_class) : bool :=
  match c with
  | ValidationError | KeyError | TypeError | ValueError => true
  | _ => false
  end.

Definition coinpaprika_item `{PyLib} (item : pydict) : M time CryptoData :=
  (quotes <- lift (attr_get (dict_get item "quotes" (VDict [])) "USD" (VDict [])) ;;
   let id := dict_get item "id" (VStr "") in
   let name := dict_get item "name" (VStr "") in
   price <- lift (attr_get quotes "price" (VInt 0)) ;;
   market_cap <- lift (attr_get quotes "market_cap" VNone) ;;
   volume <- lift (attr_get quotes "volume_24h" VNone) ;;
   change <- lift (attr_get quotes "percent_change_24h" VNone) ;;
   construct id name price market_cap volume change "coinpaprika")%py.

Definition transform_coinpaprika `{PyLib} (raw_data : list pydict)
  : M time (list CryptoData * nat) :=
  transform_loop coinpaprika_item caught_api raw_data [] 0.

Definition coingecko_item `{PyLib} (item : pydict) : M time CryptoData :=
  construct (dict_get item "id" (VStr "")) (dict_get item "name" (VStr ""))
            (dict_get item "current_price" (VInt 0))
            (dict_get item "market_cap" VNone)
            (dict_get item "total_volume" VNone)
            (dict_get item "price_change_percentage_24h" VNone)
            "coingecko".

Definition transform_coingecko `{PyLib} (raw_data : list pydict)
  : M time (list CryptoData * nat) :=
  transform_loop coingecko_item caught_api raw_data [] 0.

(** [float(str(v).replace(',', ''))] *)
Definition parse_number `{PyLib} (v : pyval) : result PyFloat.float :=
  match py_str v with
  | Raise e => Raise e
  | Ok s =>
      match PyFloat.of_string (PyStr.remove_char "," s) with
      | Some f => Ok f
      | None =>
          Raise {| cls := ValueError; msg := "could not convert string to float" |}
      end
  end.

Definition csv_item `{PyLib} (item : pydict) : M time CryptoData :=
  (let price_raw :=
     py_or (dict_get item "price_usd" VNone) (dict_get item "price" (VStr "0")) in
   let market_cap_raw :=
     py_or (dict_get item "market_cap_usd" VNone) (dict_get item "market_cap" VNone) in
   let volume_raw :=
     py_or (dict_get item "volume_24h_usd" VNone) (dict_get item "volume" VNone) in
   price_usd <-
     (if truthy price_raw then lift (parse_number price_raw)
      else ret PyFloat.zero) ;;
   market_cap_usd <-
     (if truthy market_cap_raw
      then f <- lift (parse_number market_cap_raw) ;; ret (VFloat f)
      else ret VNone) ;;
   volume_24h_usd <-
     (if truthy volume_raw
      then f <- lift (parse_number volume_raw) ;; ret (VFloat f)
      else ret VNone) ;;
   id <- lift (py_str (dict_get item "id" (VStr ""))) ;;
   name <- lift (py_str (dict_get item "name" (VStr ""))) ;;
   construct
     (VStr (PyStr.strip (PyStr.lower id))) (VStr (PyStr.strip name))
     (VFloat price_usd) market_cap_usd volume_24h_usd VNone "csv")%py.

Definition transform_csv `{PyLib} (raw_data : list pydict)
  : M time (list CryptoData * nat) :=
  transform_loop csv_item caught_csv raw_data [] 0.

(** ** The API clients ([ingestion/sources/coinpaprika.py], [coingecko.py]) *)

(** What one [requests.get] comes to: an exception of the transport (time
    out, connection error), or a response with its status code and the value
    its body decodes to ([None] when the body is not JSON). *)
Inductive http_outcome : Type :=
| Transport (e : exn)
| Response (status : Z) (body : option pyval).

Record request : Type := { url : string; limit_param : Z }.

(** The network as a client sees it: the requests sent and the seconds slept,
    latest last.  The server is a function from the number of requests sent
    before to the outcome of the next one. *)
Record Net : Type := { sent : list request; slept : list Z }.

Definition server : Type := nat -> http_outcome.

Definition requests_get (srv : server) (r : request) : M Net http_outcome :=
  fun n => (Ok (srv (List.length (sent n))),
            {| sent := sent n ++ [r]; slept := slept n |}).

Definition time_sleep (seconds : Z) : M Net unit :=
  modify (fun n => {| sent := sent n; slept := slept n ++ [seconds] |}).

(** [response.raise_for_status()] raises for a status from 400 to 599. *)
Definition raise_for_status (status : Z) : result unit :=
  if ((400 <=? status) && (status <? 600))%Z
  then Raise {| cls := RequestException; msg := "HTTPError" |}
  else Ok tt.

(** [response.json()] *)
Definition json (body : option pyval) : result pyval :=
  match body with
  | Some v => Ok v
  | None => Raise {| cls := RequestException; msg := "JSONDecodeError" |}
  end.

(** [len(data)], evaluated for the message printed before [return data]. *)
Definition py_len (v : pyval) : result Z :=
  match v with
  | VList l => Ok (Z.of_nat (List.length l))
  | VDict d => Ok (Z.of_nat (List.length d))
  | VStr s => Ok (Z.of_nat (String.length s))
  | _ => Raise {| cls := TypeError; msg := "object has no len()" |}
  end.

(** The end of both fetch methods once the response is not a handled 429. *)
Definition read_response (status : Z) (body : option pyval) : result pyval :=
  match raise_for_status status with
  | Raise e => Raise e
  | Ok _ =>
      match json body with
      | Raise e => Raise e
      | Ok data =>
          match py_len data with
          | Raise e => Raise e
          | Ok _ => Ok data
          end
      end
  end.

Definition recursion_error : exn :=
  {| cls := RecursionError; msg := "maximum recursion depth exceeded" |}.

(** [CoinPaprikaClient.get_tickers].  [depth] is the number of nested calls
    the interpreter still allows; the method calls itself after a 429.  The
    clause [except RequestException: ... raise] raises the exception again and
    is the identity here. *)
Fixpoint get_tickers (srv : server) (depth : nat) (limit : Z) : M Net pyval :=
  match depth with
  | O => raise recursion_error
  | S depth' =>
      (response <- requests_get srv {| url := "/tickers"; limit_param := limit |} ;;
       match response with
       | Transport e => raise e
       | Response status body =>
           if (status =? 429)%Z
           then time_sleep 60 ;;; get_tickers srv depth' limit
           else lift (read_response status body)
       end)%py
  end.

(** [CoinGeckoClient.get_coins_markets]: [per_page = min(limit, 250)]. *)
Definition get_coins_markets (srv : server) (limit : Z) : M Net pyval :=
  (response <- requests_get srv {| url := "/coins/markets";
                                   limit_param := Z.min limit 250 |} ;;
   match response with
   | Transport e => raise e
   | Response status body => lift (read_response status body)
   end)%py.

(** ** The store ([services/database.py]) *)

Record RawAPIData : Type := { api_source : string; api_raw_data : pydict }.

Record RawCSVData : Type := { csv_raw_data : pydict }.

Record CleanedData : Type := {
  data_source : string;
  cleaned_crypto_id : string;
  cleaned_crypto_name : string;
  cleaned_price_usd : PyFloat.float;
  cleaned_market_cap_usd : option PyFloat.float;
  cleaned_volume_24h_usd : option PyFloat.float;
  cleaned_change_24h_percent : option PyFloat.float;
  normalized_data : CryptoData
}.

(** [updated_at] is [None] until the code assigns it. *)
Record ETLCheckpoint : Type := {
  checkpoint_source : string;
  last_processed_id : Z;
  last_processed_timestamp : option time;
  updated_at : option time
}.

Record ETLRun : Type := {
  started_at : time;
  ended_at : option time;
  records_processed : Z;
  success : bool;
  error_message : option string;
  run_source : option string
}.

(** The five tables, rows in insertion order.  The [id] of a row of
    [etl_runs] is its position counted from 1. *)
Record Tables : Type := {
  raw_api_data : list RawAPIData;
  raw_csv_data : list RawCSVData;
  cleaned_data : list CleanedData;
  etl_checkpoints : list ETLCheckpoint;
  etl_runs : list ETLRun
}.

(** A session: what is committed, and the session's own view of the tables
    with the changes not yet committed. *)
Record Session : Type := { stored : Tables; view : Tables }.

(** The places of the pipeline that commit. *)
Inductive site : Type := AtStartRun | AtEndRun | AtRawStore | AtLoad | AtCheckpoint.

Inductive source_tag : Type := Coinpaprika | Coingecko | Csv.

(** What a pipeline runs against: the outcome of each call of a source's
    client or reader, by the number of such calls made before, and the
    exception, if any, of each commit, by its place and the number of commits
    tried before. *)
Record Env : Type := {
  extract : source_tag -> option Z -> nat -> result (list pydict);
  commit_fault : site -> nat -> option exn
}.

(** The pipeline object ([db], [run_id], [start_time]) with the clock, the
    number of commits tried and the sources whose extraction was called. *)
Record World : Type := {
  db : Session;
  run_id : option nat;
  start_time : option time;
  clock : time;
  commits : nat;
  attempts : list source_tag
}.

Definition set_db (f : Session -> Session) (w : World) : World :=
  {| db := f (db w); run_id := run_id w; start_time := start_time w;
     clock := clock w; commits := commits w; attempts := attempts w |}.

Definition set_view (f : Tables -> Tables) (w : World) : World :=
  set_db (fun s => {| stored := stored s; view := f (view s) |}) w.

Definition set_run_id (r : option nat) (w : World) : World :=
  {| db := db w; run_id := r; start_time := start_time w;
     clock := clock w; commits := commits w; attempts := attempts w |}.

Definition set_start_time (t : option time) (w : World) : World :=
  {| db := db w; run_id := run_id w; start_time := t;
     clock := clock w; commits := commits w; attempts := attempts w |}.

Definition set_clock (t : time) (w : World) : World :=
  {| db := db w; run_id := run_id w; start_time := start_time w;
     clock := t; commits := commits w; attempts := attempts w |}.

Definition set_commits (n : nat) (w : World) : World :=
  {| db := db w; run_id := run_id w; start_time := start_time w;
     clock := clock w; commits := n; attempts := attempts w |}.

Definition set_attempts (a : list source_tag) (w : World) : World :=
  {| db := db w; run_id := run_id w; start_time := start_time w;
     clock := clock w; commits := commits w; attempts := a |}.

(** Code on the clock, run inside the pipeline. *)
Definition on_clock {A} (c : M time A) : M World A :=
  fun w => let '(r, t) := c (clock w) in (r, set_clock t w).

Definition now : M World time := on_clock utcnow.

(** The session once a commit has gone through, and once rolled back. *)
Definition committed (s : Session) : Session :=
  {| stored := view s; view := view s |}.

Definition rolled_back (s : Session) : Session :=
  {| stored := stored s; view := stored s |}.

(** [self.db.commit()] at place [at_].  A commit that fails leaves the view
    as it is; the caller's [rollback] discards it. *)
Definition commit (env : Env) (at_ : site) : M World unit :=
  fun w =>
    let w' := set_commits (S (commits w)) w in
    match commit_fault env at_ (commits w) with
    | Some e => (Raise e, w')
    | None => (Ok tt, set_db committed w')
    end.

(** [self.db.rollback()] *)
Definition rollback : M World unit := modify (set_db rolled_back).

Definition add_raw_api (r : RawAPIData) (t : Tables) : Tables :=
  {| raw_api_data := raw_api_data t ++ [r]; raw_csv_data := raw_csv_data t;
     cleaned_data := cleaned_data t; etl_checkpoints := etl_checkpoints t;
     etl_runs := etl_runs t |}.

Definition add_raw_csv (r : RawCSVData) (t : Tables) : Tables :=
  {| raw_api_data := raw_api_data t; raw_csv_data := raw_csv_data t ++ [r];
     cleaned_data := cleaned_data t; etl_checkpoints := etl_checkpoints t;
     etl_runs := etl_runs t |}.

Definition add_cleaned (r : CleanedData) (t : Tables) : Tables :=
  {| raw_api_data := raw_api_data t; raw_csv_data := raw_csv_data t;
     cleaned_data := cleaned_data t ++ [r]; etl_checkpoints := etl_checkpoints t;
     etl_runs := etl_runs t |}.

Definition set_checkpoints (f : list ETLCheckpoint -> list ETLCheckpoint)
    (t : Tables) : Tables :=
  {| raw_api_data := raw_api_data t; raw_csv_data := raw_csv_data t;
     cleaned_data := cleaned_data t; etl_checkpoints := f (etl_checkpoints t);
     etl_runs := etl_runs t |}.

Definition set_runs (f : list ETLRun -> list ETLRun) (t : Tables) : Tables :=
  {| raw_api_data := raw_api_data t; raw_csv_data := raw_csv_data t;
     cleaned_data := cleaned_data t; etl_checkpoints := etl_checkpoints t;
     etl_runs := f (etl_runs t) |}.

(** ** The pipeline ([ingestion/etl.py]) *)

Definition source_is (source : string) (c : ETLCheckpoint) : bool :=
  String.eqb (checkpoint_source c) source.

(** [self.db.query(ETLCheckpoint).filter_by(source=source).first()] *)
Definition first_checkpoint (source : string) : M World (option ETLCheckpoint) :=
  gets (fun w => find (source_is source) (etl_checkpoints (view (db w)))).

Definition get_checkpoint (source : string) : M World Z :=
  (checkpoint <- first_checkpoint source ;;
   ret (match checkpoint with
        | Some c => last_processed_id c
        | None => 0%Z
        end))%py.

(** Assignment to the attributes of the first row that [p] selects. *)
Fixpoint update_first {A} (p : A -> bool) (f : A -> A) (l : list A) : list A :=
  match l with
  | [] => []
  | x :: r => if p x then f x :: r else x :: update_first p f r
  end.

Definition update_checkpoint (env : Env) (source : string) (last_id : Z)
  : M World unit :=
  (checkpoint <- first_checkpoint source ;;
   match checkpoint with
   | Some _ =>
       t1 <- now ;;
       t2 <- now ;;
       modify (set_view (set_checkpoints (update_first (source_is source)
         (fun c => {| checkpoint_source := checkpoint_source c;
                      last_processed_id := last_id;
                      last_processed_timestamp := Some t1;
                      updated_at := Some t2 |}))))
   | None =>
       t <- now ;;
       modify (set_view (set_checkpoints (fun l =>
         l ++ [{| checkpoint_source := source;
                  last_processed_id := last_id;
                  last_processed_timestamp := Some t;
                  updated_at := None |}])))
   end ;;;
   commit env AtCheckpoint)%py.

Definition start_run (env : Env) (source : string) : M World unit :=
  (t <- now ;;
   modify (set_start_time (Some t)) ;;;
   modify (set_view (set_runs (fun l =>
     l ++ [{| started_at := t; ended_at := None; records_processed := 0;
              success := false; error_message := None;
              run_source := Some source |}]))) ;;;
   commit env AtStartRun ;;;
   id <- gets (fun w => List.length (etl_runs (view (db w)))) ;;
   modify (set_run_id (Some id)))%py.

Fixpoint update_nth {A} (n : nat) (f : A -> A) (l : list A) : list A :=
  match l, n with
  | [], _ => []
  | x :: r, O => f x :: r
  | x :: r, S n' => x :: update_nth n' f r
  end.

(** [if not self.run_id: return] leaves on [None] and on 0. *)
Definition end_run (env : Env) (processed : Z) (succeeded : bool)
    (error : option string) : M World unit :=
  (rid <- gets run_id ;;
   match rid with
   | None | Some O => ret tt
   | Some (S k) =>
       run <- gets (fun w => nth_error (etl_runs (view (db w))) k) ;;
       match run with
       | None => ret tt
       | Some _ =>
           t <- now ;;
           modify (set_view (set_runs (update_nth k (fun r =>
             {| started_at := started_at r; ended_at := Some t;
                records_processed := processed; success := succeeded;
                error_message := error; run_source := run_source r |})))) ;;;
           commit env AtEndRun
       end
   end)%py.

(** The call of a source's client or reader. *)
Definition fetch (env : Env) (s : source_tag) (limit : option Z)
  : M World (list pydict) :=
  fun w =>
    (extract env s limit (List.length (attempts w)),
     set_attempts (attempts w ++ [s]) w).

(** [for item in raw_data: self.db.add(row item)] *)
Fixpoint store_raw (row : pydict -> Tables -> Tables) (raw_data : list pydict)
  : M World unit :=
  match raw_data with
  | [] => ret tt
  | item :: rest => (modify (set_view (row item)) ;;; store_raw row rest)%py
  end.

Definition cleaned_of (crypto : CryptoData) : CleanedData :=
  {| data_source := source crypto;
     cleaned_crypto_id := crypto_id crypto;
     cleaned_crypto_name := crypto_name crypto;
     cleaned_price_usd := price_usd crypto;
     cleaned_market_cap_usd := market_cap_usd crypto;
     cleaned_volume_24h_usd := volume_24h_usd crypto;
     cleaned_change_24h_percent := change_24h_percent crypto;
     normalized_data := crypto |}.

(** [for crypto in transformed: self.db.add(cleaned); loaded_count += 1] *)
Fixpoint load (transformed : list CryptoData) (loaded_count : Z) : M World Z :=
  match transformed with
  | [] => ret loaded_count
  | crypto :: rest =>
      (modify (set_view (add_cleaned (cleaned_of crypto))) ;;;
       load rest (loaded_count + 1)%Z)%py
  end.

(** The body the three ingestion methods share; they differ in the source
    called, the table of the raw rows, the transformer and the name of the
    checkpoint. *)
Definition ingest (env : Env) (s : source_tag) (limit : option Z)
    (row : pydict -> Tables -> Tables)
    (transform : list pydict -> M time (list CryptoData * nat))
    (name : string) : M World Z :=
  try_except
    (raw_data <- fetch env s limit ;;
     store_raw row raw_data ;;;
     commit env AtRawStore ;;;
     out <- on_clock (transform raw_data) ;;
     loaded_count <- load (fst out) 0 ;;
     commit env AtLoad ;;;
     update_checkpoint env name loaded_count ;;;
     ret loaded_count)%py
    (fun e => rollback ;;; raise e)%py.

Definition ingest_from_coinpaprika `{PyLib} (env : Env) (limit : Z) : M World Z :=
  ingest env Coinpaprika (Some limit)
    (fun item => add_raw_api {| api_source := "coinpaprika"; api_raw_data := item |})
    transform_coinpaprika "coinpaprika".

Definition ingest_from_coingecko `{PyLib} (env : Env) (limit : Z) : M World Z :=
  ingest env Coingecko (Some limit)
    (fun item => add_raw_api {| api_source := "coingecko"; api_raw_data := item |})
    transform_coingecko "coingecko".

Definition ingest_from_csv `{PyLib} (env : Env) : M World Z :=
  ingest env Csv None
    (fun item => add_raw_csv {| csv_raw_data := item |})
    transform_csv "csv".

(** The [except] clause of [run]. *)
Definition run_failed (env : Env) (total_records : Z) (e : exn) : M World bool :=
  (end_run env total_records false (Some (msg e)) ;;; ret false)%py.

(** [ETLPipeline.run].  [start_run] is called before the [try] statement;
    the three [if] statements and the successful [end_run] are inside it.  A
    source that the list does not name adds nothing to [total_records]. *)
Definition run `{PyLib} (env : Env) (sources : option (list string)) : M World bool :=
  fun w =>
    let sources :=
      match sources with
      | None => ["coinpaprika"; "coingecko"; "csv"]
      | Some l => l
      end in
    match start_run env (PyStr.join "," sources) w with
    | (Raise e, w0) => (Raise e, w0)
    | (Ok _, w0) =>
        let total_records := 0%Z in
        match (if PyStr.mem "coinpaprika" sources
               then ingest_from_coinpaprika env 10 else ret 0%Z) w0 with
        | (Raise e, w1) => run_failed env total_records e w1
        | (Ok count, w1) =>
            let total_records := (total_records + count)%Z in
            match (if PyStr.mem "coingecko" sources
                   then ingest_from_coingecko env 10 else ret 0%Z) w1 with
            | (Raise e, w2) => run_failed env total_records e w2
            | (Ok count, w2) =>
                let total_records := (total_records + count)%Z in
                match (if PyStr.mem "csv" sources
                       then ingest_from_csv env else ret 0%Z) w2 with
                | (Raise e, w3) => run_failed env total_records e w3
                | (Ok count, w3) =>
                    let total_records := (total_records + count)%Z in
                    match end_run env total_records true None w3 with
                    | (Raise e, w4) => run_failed env total_records e w4
                    | (Ok _, w4) => (Ok true, w4)
                    end
                end
            end
        end
    end.

(** ** Vocabulary of the properties *)

(** The validation rules of the schema, on a record and on a cleaned row. *)
Definition nonblank (s : string) : bool :=
  negb (String.eqb (PyStr.strip s) "").

Definition amount_ok (o : option PyFloat.float) : bool :=
  match o with
  | None => true
  | Some f => PyFloat.leb PyFloat.zero f
  end.

Definition valid_record (c : CryptoData) : bool :=
  PyFloat.ltb PyFloat.zero (price_usd c)
  && nonblank (crypto_id c) && nonblank (crypto_name c)
  && amount_ok (market_cap_usd c) && amount_ok (volume_24h_usd c).

Definition valid_cleaned (r : CleanedData) : bool :=
  PyFloat.ltb PyFloat.zero (cleaned_price_usd r)
  && nonblank (cleaned_crypto_id r) && nonblank (cleaned_crypto_name r)
  && amount_ok (cleaned_market_cap_usd r) && amount_ok (cleaned_volume_24h_usd r).

(** The name [run] looks for in its list, and the method it then calls. *)
Definition name_of (s : source_tag) : string :=
  match s with
  | Coinpaprika => "coinpaprika"
  | Coingecko => "coingecko"
  | Csv => "csv"
  end.

Definition ingest_source `{PyLib} (env : Env) (s : source_tag) : M World Z :=
  match s with
  | Coinpaprika => ingest_from_coinpaprika env 10
  | Coingecko => ingest_from_coingecko env 10
  | Csv => ingest_from_csv env
  end.

Definition default_sources : list string := ["coinpaprika"; "coingecko"; "csv"].

Definition requested (sources : option (list string)) : list string :=
  match sources with
  | None => default_sources
  | Some l => l
  end.

(** The sources a run attempts when none fails: the known ones that the list
    names, in the order of the three [if] statements. *)
Definition plan (sources : option (list string)) : list source_tag :=
  filter (fun s => PyStr.mem (name_of s) (requested sources))
         [Coinpaprika; Coingecko; Csv].

(** Ingestion of the sources of a list in turn, up to the first that raises:
    the running total, the exception if any, and the world reached. *)
Fixpoint ingest_each `{PyLib} (env : Env) (l : list source_tag) (total : Z)
    (w : World) : Z * option exn * World :=
  match l with
  | [] => (total, None, w)
  | s :: rest =>
      match ingest_source env s w with
      | (Ok count, w') => ingest_each env rest (total + count)%Z w'
      | (Raise e, w') => (total, Some e, w')
      end
  end.

(** The commits of the run tracker go through. *)
Definition tracker_commits (env : Env) : Prop :=
  forall n, commit_fault env AtStartRun n = None
            /\ commit_fault env AtEndRun n = None.

(** The rows of the checkpoint table for a source. *)
Definition rows_for (source : string) (t : Tables) : list ETLCheckpoint :=
  filter (source_is source) (etl_checkpoints t).

(** [update_checkpoint(source, c)] for each cursor of a list in turn. *)
Fixpoint update_checkpoints (env : Env) (source : string) (cursors : list Z)
  : M World unit :=
  match cursors with
  | [] => ret tt
  | c :: rest =>
      (update_checkpoint env source c ;;; update_checkpoints env source rest)%py
  end.

(** The state of the network before any request. *)
Definition quiet : Net := {| sent := []; slept := [] |}.

(** ** Vocabulary of the invariants *)

(** [c] keeps [I]: whatever [c] does from a world in [I], raising or not, it
    ends in a world in [I]. *)
Definition keeps {A} (I : World -> Prop) (c : M World A) : Prop :=
  forall w, I w -> I (snd (c w)).

(** [c] returns only values in [Q]. *)
Definition yields {S A} (c : M S A) (Q : A -> Prop) : Prop :=
  forall s a s', c s = (Ok a, s') -> Q a.

(** An invariant that the steps of an ingestion keep: it does not depend on
    the clock or on the count of commits, a commit and a rollback keep it, and
    so do the writes of an ingestion, provided the cleaned rows written come
    from valid records. *)
Record stable (I : World -> Prop) : Prop := {
  stable_clock : forall t w, I w -> I (set_clock t w);
  stable_commits : forall n w, I w -> I (set_commits n w);
  stable_commit : forall w, I w -> I (set_db committed w);
  stable_rollback : forall w, I w -> I (set_db rolled_back w);
  stable_raw_api : forall r w, I w -> I (set_view (add_raw_api r) w);
  stable_raw_csv : forall r w, I w -> I (set_view (add_raw_csv r) w);
  stable_cleaned : forall c w,
    valid_record c = true -> I w -> I (set_view (add_cleaned (cleaned_of c)) w);
  stable_checkpoints : forall f w, I w -> I (set_view (set_checkpoints f) w)
}.

(** A step of the run tracker: no source attempted, no cleaned row written. *)
Definition tracker_step (w w' : World) : Prop :=
  attempts w' = attempts w
  /\ cleaned_data (view (db w')) = cleaned_data (view (db w))
  /\ (cleaned_data (stored (db w')) = cleaned_data (stored (db w))
      \/ cleaned_data (stored (db w')) = cleaned_data (view (db w))).

Definition synced (w : World) : Prop := view (db w) = stored (db w).

Definition cleaned_extends (base : list CleanedData) (w : World) : Prop :=
  (exists more, cleaned_data (stored (db w)) = base ++ more)
  /\ (exists more, cleaned_data (view (db w)) = base ++ more).

Definition cleaned_valid (w : World) : Prop :=
  Forall (fun r => valid_cleaned r = true) (cleaned_data (stored (db w)))
  /\ Forall (fun r => valid_cleaned r = true) (cleaned_data (view (db w))).

Definition runs_are (R : list ETLRun) (w : World) : Prop :=
  etl_runs (stored (db w)) = R /\ etl_runs (view (db w)) = R.

Definition self_is (k : option nat) (w : World) : Prop := run_id w = k.

Definition attempts_are (a : list source_tag) (w : World) : Prop := attempts w = a.

(** The row [start_run] adds and the row [end_run] makes of it. *)
Definition started (label : string) (t : time) : ETLRun :=
  {| started_at := t; ended_at := None; records_processed := 0;
     success := false; error_message := None; run_source := Some label |}.

Definition finished (label : string) (t t' : time) (processed : Z)
    (succeeded : bool) (error : option string) : ETLRun :=
  {| started_at := t; ended_at := Some t'; records_processed := processed;
     success := succeeded; error_message := error; run_source := Some label |}.

Definition label_of (sources : option (list string)) : string :=
  PyStr.join "," (requested sources).

(** ** Vocabulary of the clients and of the file rows *)

(** A response with status 429. *)
Definition rate_limited (o : http_outcome) : bool :=
  match o with
  | Response status _ => (status =? 429)%Z
  | Transport _ => false
  end.

(** What a fetch method makes of an outcome that it does not retry. *)
Definition outcome_result (o : http_outcome) : result pyval :=
  match o with
  | Transport e => Raise e
  | Response status body => read_response status body
  end.

Definition tickers_request (limit : Z) : request :=
  {| url := "/tickers"; limit_param := limit |}.

Definition markets_request (limit : Z) : request :=
  {| url := "/coins/markets"; limit_param := Z.min limit 250 |}.

(** An item whose ["quotes"] is absent or a dict, and whose ["USD"] under it
    is absent or a dict. *)
Definition quoted (item : pydict) : Prop :=
  match lookup item "quotes" with
  | None => True
  | Some (VDict q) =>
      match lookup q "USD" with
      | None | Some (VDict _) => True
      | Some _ => False
      end
  | Some _ => False
  end.

(** The field a file row is read from: the one with the [_usd] name when it
    is there and true, the one with the old name otherwise. *)
Definition chosen (item : pydict) (usd legacy : string) (default : pyval) : pyval :=
  if truthy (dict_get item usd VNone) then dict_get item usd VNone
  else dict_get item legacy default.

(** The number in the text of a value once its commas are removed; none
    when the text cannot be made. *)
Definition number_of `{PyLib} (v : pyval) : option PyFloat.float :=
  match py_str v with
  | Ok s => PyFloat.of_string (PyStr.remove_char "," s)
  | Raise _ => None
  end.

(** [str(v)] returns. *)
Definition prints `{PyLib} (v : pyval) : bool :=
  match py_str v with
  | Ok _ => true
  | Raise _ => false
  end.

(** The handler of a transformer can report the item: the text of the id it
    prints can be made. *)
Definition id_prints `{PyLib} (item : pydict) : bool :=
  prints (dict_get item "id" (VStr "unknown")).



(** ** Vocabulary of the further properties *)

(** The three transformers by source. *)
Definition transform_of `{PyLib} (s : source_tag) (raw_data : list pydict)
  : M time (list CryptoData * nat) :=
  match s with
  | Coinpaprika => transform_coinpaprika raw_data
  | Coingecko => transform_coingecko raw_data
  | Csv => transform_csv raw_data
  end.

(** A result with records put before its output and errors added to its
    count. *)
Definition after_batch (acc : list CryptoData) (errs : nat)
    (r : result (list CryptoData * nat) * time)
  : result (list CryptoData * nat) * time :=
  match r with
  | (Ok (out, n), t) => (Ok (acc ++ out, errs + n), t)
  | (Raise e, t) => (Raise e, t)
  end.


(** An optional float as [model_dump] gives it. *)
Definition dump_float (o : option PyFloat.float) : pyval :=
  match o with
  | Some f => VFloat f
  | None => VNone
  end.

(** The raw items of a source in the tables: the rows of the file table, or
    the rows of the API table with the source's tag. *)
Definition raw_items (s : source_tag) (t : Tables) : list pydict :=
  match s with
  | Csv => map csv_raw_data (raw_csv_data t)
  | _ => map api_raw_data
             (filter (fun r => String.eqb (api_source r) (name_of s))
                     (raw_api_data t))
  end.

(** The row an ingestion adds for a raw item of a source. *)
Definition raw_row (s : source_tag) (item : pydict) : Tables -> Tables :=
  match s with
  | Csv => add_raw_csv {| csv_raw_data := item |}
  | _ => add_raw_api {| api_source := name_of s; api_raw_data := item |}
  end.

(** The limit that [run] passes to the client of a source. *)
Definition limit_of (s : source_tag) : option Z :=
  match s with
  | Csv => None
  | _ => Some 10%Z
  end.

(** ** Values used in the examples *)

(** A library that makes no lax conversion. *)
Definition strict_lib : PyLib :=
  {| repr := fun _ => Ok "<repr>"; lax_float := fun _ => None;
     int_max_str_digits := 4300 |}.

Definition no_tables : Tables :=
  {| raw_api_data := []; raw_csv_data := []; cleaned_data := [];
     etl_checkpoints := []; etl_runs := [] |}.

(** A new pipeline on an empty store. *)
Definition new_world : World :=
  {| db := {| stored := no_tables; view := no_tables |};
     run_id := None; start_time := None; clock := 0; commits := 0;
     attempts := [] |}.

Definition no_fault : site -> nat -> option exn := fun _ _ => None.

Definition bitcoin_row : pydict :=
  [("id", VStr "bitcoin"); ("name", VStr "Bitcoin"); ("price", VStr "42,000.50");
   ("market_cap", VStr "800000000000")].

(** The floats 42000.5 and 800000000000.0, as mantissa and binary exponent. *)
Definition f42000_50 : PyFloat.float := S754_finite false 5772504765300736 (-37).

Definition f8e11 : PyFloat.float := S754_finite false 6553600000000000 (-13).

Definition text_row (id name price : string) : pydict :=
  [("id", VStr id); ("name", VStr name); ("price", VStr price)].

(** A reader that returns two rows at its first call and one row after. *)
Definition shrinking_file : Env :=
  {| extract := fun _ _ calls =>
       match calls with
       | O => Ok [text_row "bitcoin" "Bitcoin" "42,000.50";
                  text_row "ethereum" "Ethereum" "2500.75"]
       | _ => Ok [text_row "bitcoin" "Bitcoin" "43,000"]
       end;
     commit_fault := no_fault |}.

Definition api_error : exn := {| cls := OtherError; msg := "API Error" |}.

(** A store that refuses the first commit. *)
Definition store_down : Env :=
  {| extract := fun _ _ _ => Ok [];
     commit_fault := fun _ n =>
       match n with
       | O => Some {| cls := OtherError; msg := "connection refused" |}
       | _ => None
       end |}.

Definition null_quotes : pydict :=
  [("id", VStr "btc-bitcoin"); ("name", VStr "Bitcoin"); ("quotes", VNone)].

Definition bitcoin_ticker : pydict :=
  [("id", VStr "btc-bitcoin"); ("name", VStr "Bitcoin");
   ("quotes", VDict [("USD", VDict [("price", VInt 50000)])])].

Definition bad_cap_row : pydict :=
  [("id", VStr "bitcoin"); ("name", VStr "Bitcoin"); ("price", VStr "100");
   ("market_cap", VStr "abc")].


Definition nameless_row : pydict :=
  [("id", VStr "bitcoin"); ("price", VStr "42,000.50");
   ("market_cap", VStr "800000000000")].

(** 429 twice, then an empty list of tickers. *)
Definition limited_twice : server :=
  fun n => if n <? 2 then Response 429 None else Response 200 (Some (VList [])).

(** Sources that return nothing and a store that takes every commit. *)
Definition idle : Env :=
  {| extract := fun _ _ _ => Ok []; commit_fault := no_fault |}.

(** One ticker and one row, with the second source failing. *)
Definition gecko_down : Env :=
  {| extract := fun s _ _ =>
       match s with
       | Coinpaprika => Ok [bitcoin_ticker]
       | Coingecko => Raise api_error
       | Csv => Ok [bitcoin_row]
       end;
     commit_fault := no_fault |}.

(** One row from every source and a store that refuses the commit of every
    checkpoint. *)
Definition checkpoint_down : Env :=
  {| extract := fun _ _ _ => Ok [bitcoin_row];
     commit_fault := fun s _ =>
       match s with
       | AtCheckpoint => Some {| cls := OtherError; msg := "connection lost" |}
       | _ => None
       end |}.

(** The record read from [bitcoin_row] at time [t]. *)
Definition bitcoin_record (t : time) : CryptoData :=
  {| crypto_id := "bitcoin"; crypto_name := "Bitcoin";
     price_usd := f42000_50; market_cap_usd := Some f8e11;
     volume_24h_usd := None; change_24h_percent := None;
     source := "csv"; timestamp := t |}.

(** The second source failing, and a store that refuses the commit that
    closes the run. *)
Definition gecko_and_tracker_down : Env :=
  {| extract := extract gecko_down;
     commit_fault := fun s _ =>
       match s with
       | AtEndRun => Some {| cls := OtherError; msg := "connection lost" |}
       | _ => None
       end |}.

(** An integer of 4301 digits and an item that has it for id. *)
Definition ten_to_4300 : Z := (10 ^ 4300)%Z.

Definition numbered_item : pydict := [("id", VInt ten_to_4300)].

(** * Properties *)

(** ** Trimming *)

Section Trimming.
Variable p : ascii -> bool.

Lemma drop_while_split (l : list ascii) :
  exists pre, l = pre ++ PyStr.drop_while p l /\ Forall (fun c => p c = true) pre.
Proof.
  induction l as [|c r IH]; simpl.
  - exists []. split; [reflexivity | constructor].
  - destruct (p c) eqn:E.
    + destruct IH as [pre [H1 H2]]. exists (c :: pre). split.
      * simpl. congruence.
      * constructor; assumption.
    + exists []. split; [reflexivity | constructor].
Qed.

Lemma drop_while_head (l : list ascii) c t :
  PyStr.drop_while p l = c :: t -> p c = false.
Proof.
  induction l as [|x r IH]; simpl; [discriminate|].
  destruct (p x) eqn:E; [assumption|].
  intros H. injection H as -> _. assumption.
Qed.

Lemma drop_while_fixed (l : list ascii) :
  match l with [] => True | c :: _ => p c = false end ->
  PyStr.drop_while p l = l.
Proof.
  destruct l as [|c r]; simpl; [reflexivity|]. intros ->. reflexivity.
Qed.

Lemma drop_while_idem (l : list ascii) :
  PyStr.drop_while p (PyStr.drop_while p l) = PyStr.drop_while p l.
Proof.
  apply drop_while_fixed.
  destruct (PyStr.drop_while p l) eqn:E; [exact I|].
  eapply drop_while_head; eassumption.
Qed.

Lemma strip_with_lstripped (l : list ascii) :
  PyStr.drop_while p (PyStr.strip_with p l) = PyStr.strip_with p l.
Proof.
  unfold PyStr.strip_with, PyStr.rstrip_with, PyStr.lstrip_with.
  set (l1 := PyStr.drop_while p l).
  destruct (drop_while_split (rev l1)) as [pre [H1 _]].
  set (m := PyStr.drop_while p (rev l1)) in *.
  apply drop_while_fixed.
  destruct (rev m) as [|c t] eqn:E; [exact I|].
  assert (H : l1 = (c :: t) ++ rev pre).
  { rewrite <- E, <- rev_app_distr, <- H1, rev_involutive. reflexivity. }
  simpl in H. subst l1. eapply drop_while_head; eassumption.
Qed.

Lemma strip_with_idem (l : list ascii) :
  PyStr.strip_with p (PyStr.strip_with p l) = PyStr.strip_with p l.
Proof.
  unfold PyStr.strip_with at 1. unfold PyStr.lstrip_with, PyStr.rstrip_with.
  rewrite strip_with_lstripped.
  unfold PyStr.strip_with, PyStr.rstrip_with, PyStr.lstrip_with.
  rewrite rev_involutive, drop_while_idem. reflexivity.
Qed.
End Trimming.

Lemma strip_idem (s : string) : PyStr.strip (PyStr.strip s) = PyStr.strip s.
Proof.
  unfold PyStr.strip.
  rewrite list_ascii_of_string_of_list_ascii, strip_with_idem. reflexivity.
Qed.

(** ** Validation at construction *)

Section Validation.
Context `{PyLib}.

Lemma field_name_valid v i : field_name v = Some i -> nonblank i = true.
Proof.
  unfold field_name, coerce_str, validate_not_empty, opt_bind, nonblank.
  destruct v; try discriminate.
  destruct (String.eqb s "" || String.eqb (PyStr.strip s) "") eqn:E;
    [discriminate|].
  intros [= <-]. rewrite strip_idem.
  apply orb_false_iff in E as [_ E]. rewrite E. reflexivity.
Qed.

Lemma field_price_valid v f :
  field_price v = Some f -> PyFloat.ltb PyFloat.zero f = true.
Proof.
  unfold field_price, opt_bind.
  destruct (coerce_float v) as [g|]; [|discriminate].
  destruct (PyFloat.ltb PyFloat.zero g) eqn:E; [|discriminate].
  destruct (validate_positive_numbers (Some g)); [|discriminate].
  intros [= <-]. assumption.
Qed.

Lemma positive_numbers_keeps v r : validate_positive_numbers v = Some r -> r = v.
Proof.
  unfold validate_positive_numbers. destruct v as [f|].
  - destruct (PyFloat.ltb f PyFloat.zero); [discriminate|]. intros [= <-]. reflexivity.
  - intros [= <-]. reflexivity.
Qed.

Lemma field_amount_valid v m : field_amount v = Some m -> amount_ok m = true.
Proof.
  unfold field_amount, opt_bind.
  assert (G : forall f, (if PyFloat.leb PyFloat.zero f
                         then validate_positive_numbers (Some f) else None) = Some m ->
                        amount_ok m = true).
  { intros f. destruct (PyFloat.leb PyFloat.zero f) eqn:E; [|discriminate].
    intros E'. apply positive_numbers_keeps in E'. subst m. exact E. }
  destruct v; try (destruct (coerce_float _); [apply G | discriminate]).
  intros E. apply positive_numbers_keeps in E. subst m. reflexivity.
Qed.

Lemma new_CryptoData_valid id name price mc vol chg src ts c :
  new_CryptoData id name price mc vol chg src ts = Some c ->
  valid_record c = true.
Proof.
  unfold new_CryptoData, opt_bind.
  destruct (field_name id) as [i|] eqn:Ei; [|discriminate].
  destruct (field_name name) as [n|] eqn:En; [|discriminate].
  destruct (field_price price) as [p|] eqn:Ep; [|discriminate].
  destruct (field_amount mc) as [m|] eqn:Em; [|discriminate].
  destruct (field_amount vol) as [v|] eqn:Ev; [|discriminate].
  destruct (field_change chg) as [g|]; [|discriminate].
  intros [= <-]. unfold valid_record. simpl.
  rewrite (field_price_valid _ _ Ep), (field_name_valid _ _ Ei),
    (field_name_valid _ _ En), (field_amount_valid _ _ Em),
    (field_amount_valid _ _ Ev).
  reflexivity.
Qed.

Lemma construct_ok id name price mc vol chg src t c t' :
  construct id name price mc vol chg src t = (Ok c, t') ->
  new_CryptoData id name price mc vol chg src t = Some c /\ t' = S t.
Proof.
  unfold construct, bind, utcnow, ret, raise.
  destruct (new_CryptoData id name price mc vol chg src t); intros [= <- <-];
    split; reflexivity.
Qed.

Lemma construct_raise id name price mc vol chg src t e t' :
  construct id name price mc vol chg src t = (Raise e, t') ->
  e = validation_error.
Proof.
  unfold construct, bind, utcnow, ret, raise.
  destruct (new_CryptoData id name price mc vol chg src t); intros [= <- <-].
  reflexivity.
Qed.

Lemma construct_valid id name price mc vol chg src t c t' :
  construct id name price mc vol chg src t = (Ok c, t') -> valid_record c = true.
Proof.
  intros E. apply construct_ok in E as [E _].
  eapply new_CryptoData_valid; eassumption.
Qed.

(** *** The bodies of the three loops *)

Lemma coinpaprika_item_valid item t c t' :
  coinpaprika_item item t = (Ok c, t') -> valid_record c = true.
Proof.
  unfold coinpaprika_item, bind, lift.
  destruct (attr_get _ "USD" _) as [q|]; [|discriminate].
  destruct (attr_get q "price" _); [|discriminate].
  destruct (attr_get q "market_cap" _); [|discriminate].
  destruct (attr_get q "volume_24h" _); [|discriminate].
  destruct (attr_get q "percent_change_24h" _); [|discriminate].
  apply construct_valid.
Qed.

Lemma coinpaprika_item_caught item t e t' :
  quoted item ->
  coinpaprika_item item t = (Raise e, t') -> caught_api (cls e) = true.
Proof.
  unfold quoted, coinpaprika_item, dict_get, bind, lift.
  destruct (lookup item "quotes") as [[| | | | | |q]|]; try contradiction;
    simpl; unfold dict_get.
  - destruct (lookup q "USD") as [[| | | | | |u]|]; try contradiction; simpl;
      intros _ E; apply construct_raise in E; subst e; reflexivity.
  - intros _ E. apply construct_raise in E. subst e. reflexivity.
Qed.

Lemma coinpaprika_item_unquoted item t :
  ~ quoted item -> coinpaprika_item item t = (Raise attribute_error, t).
Proof.
  unfold quoted, coinpaprika_item, dict_get, bind, lift. intros Hn.
  destruct (lookup item "quotes") as [[| | | | | |q]|];
    try (exfalso; apply Hn; exact I); try reflexivity.
  simpl. unfold dict_get.
  destruct (lookup q "USD") as [[| | | | | |u]|];
    try (exfalso; apply Hn; exact I); reflexivity.
Qed.

Lemma coingecko_item_valid item t c t' :
  coingecko_item item t = (Ok c, t') -> valid_record c = true.
Proof. apply construct_valid. Qed.



Lemma csv_item_valid item t c t' :
  csv_item item t = (Ok c, t') -> valid_record c = true.
Proof.
  unfold csv_item, bind, lift, ret.
  repeat match goal with
         | |- context [if truthy ?v then _ else _] => destruct (truthy v)
         | |- context [parse_number ?v] => destruct (parse_number v)
         | |- context [py_str ?v] => destruct (py_str v)
         end;
    try discriminate; apply construct_valid.
Qed.


Lemma id_prints_skipped item : id_prints item = true -> print_skipped item = Ok tt.
Proof.
  unfold id_prints, prints, print_skipped.
  destruct (py_str _); [reflexivity | discriminate].
Qed.
End Validation.

(** ** The loop of the transformers *)

Section Loop.
Context `{PyLib}.
Variable body : pydict -> M time CryptoData.
Variable caught : exn_class -> bool.

Lemma transform_loop_app raw1 raw2 acc errs t :
  transform_loop body caught (raw1 ++ raw2) acc errs t =
  match transform_loop body caught raw1 acc errs t with
  | (Ok (out, n), t') => transform_loop body caught raw2 out n t'
  | (Raise e, t') => (Raise e, t')
  end.
Proof.
  revert acc errs t. induction raw1 as [|item rest IH]; intros acc errs t; simpl.
  - reflexivity.
  - destruct (body item t) as [[c|e] t1].
    + apply IH.
    + destruct (caught (cls e)); [|reflexivity].
      destruct (print_skipped item); [apply IH | reflexivity].
Qed.

Lemma transform_loop_total raw :
  Forall (fun item => id_prints item = true
                      /\ forall t e t',
                           body item t = (Raise e, t') -> caught (cls e) = true) raw ->
  forall acc errs t,
  exists out n t',
    transform_loop body caught raw acc errs t = (Ok (out, n), t')
    /\ List.length out + n = List.length acc + errs + List.length raw.
Proof.
  induction 1 as [|item rest [Hp Hc] _ IH]; intros acc errs t; simpl.
  - exists acc, errs, t. split; [reflexivity | lia].
  - destruct (body item t) as [[c|e] t1] eqn:E.
    + destruct (IH (acc ++ [c]) errs t1) as (out & n & t' & E1 & E2).
      exists out, n, t'. split; [assumption|].
      rewrite E2, length_app. simpl. lia.
    + rewrite (Hc _ _ _ E), (id_prints_skipped _ Hp).
      destruct (IH acc (S errs) t1) as (out & n & t' & E1 & E2).
      exists out, n, t'. split; [assumption | lia].
Qed.

Lemma transform_loop_Forall (P : CryptoData -> Prop) :
  (forall item t c t', body item t = (Ok c, t') -> P c) ->
  forall raw acc errs t out n t',
    Forall P acc ->
    transform_loop body caught raw acc errs t = (Ok (out, n), t') ->
    Forall P out.
Proof.
  intros Hb raw. induction raw as [|item rest IH]; intros acc errs t out n t' Ha; simpl.
  - intros [= <- _ _]. assumption.
  - destruct (body item t) as [[c|e] t1] eqn:E.
    + apply IH. apply Forall_app. split; [assumption|].
      constructor; [|constructor]. eapply Hb; eassumption.
    + destruct (caught (cls e)); [|discriminate].
      destruct (print_skipped item); [|discriminate]. apply IH. assumption.
Qed.
End Loop.

(** ** Invariants of the pipeline's steps *)

Section Keeps.
Variable I : World -> Prop.

Lemma keeps_ret {A} (a : A) : keeps I (ret a).
Proof. intros w H. exact H. Qed.

Lemma keeps_raise {A} e : keeps I (@raise World A e).
Proof. intros w H. exact H. Qed.

Lemma keeps_gets {A} (f : World -> A) : keeps I (gets f).
Proof. intros w H. exact H. Qed.

Lemma keeps_modify f : (forall w, I w -> I (f w)) -> keeps I (modify f).
Proof. intros Hf w H. apply Hf, H. Qed.

Lemma keeps_bind_yields {A B} (c : M World A) (k : A -> M World B) Q :
  keeps I c -> yields c Q -> (forall a, Q a -> keeps I (k a)) ->
  keeps I (bind c k).
Proof.
  intros Hc Hq Hk w H. unfold bind.
  specialize (Hc w H). destruct (c w) as [[a|e] w1] eqn:E; simpl in *.
  - apply (Hk a (Hq _ _ _ E)), Hc.
  - exact Hc.
Qed.

Lemma keeps_bind {A B} (c : M World A) (k : A -> M World B) :
  keeps I c -> (forall a, keeps I (k a)) -> keeps I (bind c k).
Proof.
  intros Hc Hk. apply keeps_bind_yields with (Q := fun _ => True); auto.
  intros w a w' _. exact Logic.I.
Qed.

Lemma keeps_try {A} (c : M World A) h :
  keeps I c -> (forall e, keeps I (h e)) -> keeps I (try_except c h).
Proof.
  intros Hc Hh w H. unfold try_except.
  specialize (Hc w H). destruct (c w) as [[a|e] w1]; simpl in *.
  - exact Hc.
  - apply Hh, Hc.
Qed.
End Keeps.

Section Stable.
Variable I : World -> Prop.
Hypothesis HI : stable I.

Lemma keeps_on_clock {A} (c : M time A) : keeps I (on_clock c).
Proof.
  intros w H. unfold on_clock. destruct (c (clock w)) as [r t]. simpl.
  apply (stable_clock I HI), H.
Qed.

Lemma keeps_commit env at_ : keeps I (commit env at_).
Proof.
  intros w H. unfold commit.
  destruct (commit_fault env at_ (commits w)); simpl.
  - apply (stable_commits I HI), H.
  - apply (stable_commit I HI), (stable_commits I HI), H.
Qed.

Lemma keeps_rollback : keeps I rollback.
Proof. apply keeps_modify. apply (stable_rollback I HI). Qed.

Lemma keeps_store_raw row raw :
  (forall item w, I w -> I (set_view (row item) w)) ->
  keeps I (store_raw row raw).
Proof.
  intros Hrow. induction raw as [|item rest IH]; simpl.
  - apply keeps_ret.
  - apply keeps_bind; [apply keeps_modify, Hrow | intros _; exact IH].
Qed.

Lemma keeps_load l n :
  Forall (fun c => valid_record c = true) l -> keeps I (load l n).
Proof.
  intros Hl. revert n. induction Hl as [|c l Hc _ IH]; intros n; simpl.
  - apply keeps_ret.
  - apply keeps_bind; [|intros _; apply IH].
    apply keeps_modify. intros w. apply (stable_cleaned I HI), Hc.
Qed.

Lemma keeps_update_checkpoint env source last_id :
  keeps I (update_checkpoint env source last_id).
Proof.
  unfold update_checkpoint.
  apply keeps_bind; [apply keeps_gets|]. intros ck.
  apply keeps_bind; [|intros _; apply keeps_commit].
  destruct ck.
  - apply keeps_bind; [apply keeps_on_clock|]. intros t1.
    apply keeps_bind; [apply keeps_on_clock|]. intros t2.
    apply keeps_modify. intros w. apply (stable_checkpoints I HI).
  - apply keeps_bind; [apply keeps_on_clock|]. intros t.
    apply keeps_modify. intros w. apply (stable_checkpoints I HI).
Qed.

(** The rest of an ingestion once the source has been called. *)
Lemma keeps_ingest env s limit row transform name w :
  (forall item w, I w -> I (set_view (row item) w)) ->
  (forall raw, yields (transform raw)
                 (fun out => Forall (fun c => valid_record c = true) (fst out))) ->
  I (set_attempts (attempts w ++ [s]) w) ->
  I (snd (ingest env s limit row transform name w)).
Proof.
  intros Hrow Ht H. unfold ingest, try_except, bind at 1, fetch.
  set (w1 := set_attempts (attempts w ++ [s]) w) in *.
  destruct (extract env s limit (List.length (attempts w))) as [raw|e].
  - match goal with
    | |- I (snd (match ?c w1 with _ => _ end)) =>
        assert (K : keeps I (try_except c (fun e => bind rollback (fun _ => raise e))))
    end.
    { apply keeps_try.
      - apply keeps_bind; [apply keeps_store_raw, Hrow | intros _].
        apply keeps_bind; [apply keeps_commit | intros _].
        apply keeps_bind_yields
          with (Q := fun out => Forall (fun c => valid_record c = true) (fst out)).
        + apply keeps_on_clock.
        + intros w0 a w0'. unfold on_clock.
          destruct (transform raw (clock w0)) as [r t] eqn:E.
          intros [= -> _]. eapply Ht. exact E.
        + intros out Hout.
          apply keeps_bind; [apply keeps_load, Hout | intros n].
          apply keeps_bind; [apply keeps_commit | intros _].
          apply keeps_bind; [apply keeps_update_checkpoint | intros _].
          apply keeps_ret.
      - intros e. apply keeps_bind; [apply keeps_rollback | intros _; apply keeps_raise]. }
    apply (K w1 H).
  - simpl. apply (stable_rollback I HI), H.
Qed.
End Stable.

(** ** Rows selected and rewritten *)

Section Rows.
Context {A : Type}.
Variable p : A -> bool.

Lemma find_hd_filter (l : list A) : find p l = hd_error (filter p l).
Proof.
  induction l as [|x r IH]; simpl; [reflexivity|].
  destruct (p x); [reflexivity | exact IH].
Qed.

Lemma find_update_first (f : A -> A) (l : list A) x :
  find p l = Some x -> p (f x) = true ->
  find p (update_first p f l) = Some (f x).
Proof.
  induction l as [|y r IH]; simpl; [discriminate|].
  destruct (p y) eqn:E.
  - intros [= ->] Hf. simpl. rewrite Hf. reflexivity.
  - intros Hx Hf. simpl. rewrite E. apply IH; assumption.
Qed.

Lemma filter_update_first_length (f : A -> A) (l : list A) :
  (forall y, p (f y) = p y) ->
  List.length (filter p (update_first p f l)) = List.length (filter p l).
Proof.
  intros Hf. induction l as [|y r IH]; simpl; [reflexivity|].
  destruct (p y) eqn:E; simpl.
  - rewrite Hf, E. reflexivity.
  - rewrite E. exact IH.
Qed.

Lemma find_none_filter (l : list A) : find p l = None -> filter p l = [].
Proof.
  rewrite find_hd_filter. destruct (filter p l); [reflexivity | discriminate].
Qed.

Lemma find_app_new (l : list A) x :
  find p l = None -> p x = true -> find p (l ++ [x]) = Some x.
Proof.
  intros Hn Hx. rewrite find_hd_filter, filter_app, (find_none_filter _ Hn).
  simpl. rewrite Hx. reflexivity.
Qed.

Lemma filter_one (l : list A) x :
  find p l = Some x -> List.length (filter p l) = 1 -> filter p l = [x].
Proof.
  rewrite find_hd_filter.
  destruct (filter p l) as [|y [|z r]]; simpl; try discriminate.
  intros [= ->] _. reflexivity.
Qed.

Lemma update_nth_last (f : A -> A) (l : list A) x :
  update_nth (List.length l) f (l ++ [x]) = l ++ [f x].
Proof. induction l as [|y r IH]; simpl; [reflexivity | rewrite IH; reflexivity]. Qed.

Lemma nth_error_last (l : list A) x : nth_error (l ++ [x]) (List.length l) = Some x.
Proof. induction l as [|y r IH]; simpl; [reflexivity | exact IH]. Qed.
End Rows.

(** ** Steps that return *)

Lemma bind_ok {S A B} (c : M S A) (k : A -> M S B) s b s' :
  bind c k s = (Ok b, s') ->
  exists a s1, c s = (Ok a, s1) /\ k a s1 = (Ok b, s').
Proof.
  unfold bind. destruct (c s) as [[a|e] s1]; [|discriminate].
  intros E. exists a, s1. split; [reflexivity | exact E].
Qed.

Lemma commit_ok env at_ w w' :
  commit env at_ w = (Ok tt, w') ->
  commit_fault env at_ (commits w) = None
  /\ w' = set_db committed (set_commits (S (commits w)) w).
Proof.
  unfold commit. destruct (commit_fault env at_ (commits w)); [discriminate|].
  intros [= <-]. split; reflexivity.
Qed.

(** ** The checkpoint store *)

Section Checkpoints.
Variable env : Env.
Variable source : string.

Lemma source_is_kept last_id t1 t2 (c : ETLCheckpoint) :
  source_is source
    {| checkpoint_source := checkpoint_source c; last_processed_id := last_id;
       last_processed_timestamp := t1; updated_at := t2 |}
  = source_is source c.
Proof. reflexivity. Qed.

(** What a call that returns leaves: the session committed, one row more
    for the source if there was none and as many as before otherwise, the
    first of them with the cursor written, and the other tables as the view
    had them. *)
Lemma update_checkpoint_ok last_id w w' :
  update_checkpoint env source last_id w = (Ok tt, w') ->
  view (db w') = stored (db w')
  /\ (exists c, find (source_is source) (etl_checkpoints (stored (db w'))) = Some c
                /\ last_processed_id c = last_id)
  /\ List.length (rows_for source (stored (db w')))
     = Nat.max 1 (List.length (rows_for source (view (db w))))
  /\ cleaned_data (stored (db w')) = cleaned_data (view (db w))
  /\ etl_runs (stored (db w')) = etl_runs (view (db w))
  /\ run_id w' = run_id w /\ attempts w' = attempts w.
Proof.
  unfold update_checkpoint, first_checkpoint. intros E.
  apply bind_ok in E as (ck & w1 & E1 & E). injection E1 as <- <-.
  apply bind_ok in E as ([] & w2 & E2 & E).
  apply commit_ok in E as [_ ->].
  destruct (find (source_is source) (etl_checkpoints (view (db w)))) as [c|] eqn:F.
  - injection E2 as <-. simpl.
    repeat split; try reflexivity.
    + eexists. split.
      * apply find_update_first; [exact F | apply find_some in F; apply F].
      * reflexivity.
    + unfold rows_for. simpl. rewrite filter_update_first_length by reflexivity.
      rewrite find_hd_filter in F.
      destruct (filter (source_is source) (etl_checkpoints (view (db w))));
        [discriminate | simpl; lia].
  - injection E2 as <-. simpl.
    repeat split; try reflexivity.
    + eexists. split.
      * apply find_app_new; [exact F|]. unfold source_is. simpl. apply String.eqb_refl.
      * reflexivity.
    + unfold rows_for. simpl. rewrite filter_app, (find_none_filter _ _ F). simpl.
      unfold source_is at 1. simpl. rewrite String.eqb_refl. reflexivity.
Qed.

Lemma update_checkpoint_returns last_id w :
  commit_fault env AtCheckpoint (commits w) = None ->
  exists w', update_checkpoint env source last_id w = (Ok tt, w')
             /\ commits w' = S (commits w).
Proof.
  intros Hc. unfold update_checkpoint, first_checkpoint, bind, gets, now, on_clock,
    utcnow, modify, commit.
  destruct (find (source_is source) (etl_checkpoints (view (db w)))); simpl;
    rewrite Hc; eexists; split; reflexivity.
Qed.
End Checkpoints.

(** ** One ingestion *)

Lemma try_ok {S A} (c : M S A) (h : exn -> M S A) s a s' :
  (forall e s0, exists e' s1, h e s0 = (Raise e', s1)) ->
  try_except c h s = (Ok a, s') -> c s = (Ok a, s').
Proof.
  intros Hh. unfold try_except. destruct (c s) as [[b|e] s1]; [auto|].
  destruct (Hh e s1) as (e' & s2 & ->). discriminate.
Qed.

Section Ingest.
Variable env : Env.
Variable s : source_tag.
Variable limit : option Z.
Variable row : pydict -> Tables -> Tables.
Variable transform : list pydict -> M time (list CryptoData * nat).
Variable name : string.
Hypothesis row_cleaned : forall item t, cleaned_data (row item t) = cleaned_data t.

Lemma store_raw_ok raw w :
  exists w', store_raw row raw w = (Ok tt, w')
             /\ cleaned_data (view (db w')) = cleaned_data (view (db w))
             /\ clock w' = clock w.
Proof.
  revert w. induction raw as [|item rest IH]; intros w; simpl.
  - exists w. repeat split.
  - unfold bind, modify.
    destruct (IH (set_view (row item) w)) as (w' & E & Hc & Hk).
    exists w'. split; [exact E|]. split; [|exact Hk].
    rewrite Hc. simpl. apply row_cleaned.
Qed.

Lemma load_ok l n w :
  exists w', load l n w = (Ok (n + Z.of_nat (List.length l))%Z, w')
             /\ cleaned_data (view (db w'))
                = cleaned_data (view (db w)) ++ map cleaned_of l.
Proof.
  revert n w. induction l as [|c r IH]; intros n w; simpl load.
  - exists w. split.
    + unfold ret. simpl. rewrite Z.add_0_r. reflexivity.
    + simpl. rewrite app_nil_r. reflexivity.
  - unfold bind, modify.
    destruct (IH (n + 1)%Z (set_view (add_cleaned (cleaned_of c)) w)) as (w' & E & Hc).
    exists w'. split.
    + rewrite E. f_equal. f_equal. rewrite length_cons. lia.
    + rewrite Hc. simpl. rewrite <- app_assoc. reflexivity.
Qed.

(** An ingestion that returns: the source and the transformer returned,
    the count is the number of records transformed, their rows are
    committed after those of the view, and the first checkpoint row of the
    source holds the count. *)
Lemma ingest_ok w n w' :
  ingest env s limit row transform name w = (Ok n, w') ->
  exists raw out errs t,
    extract env s limit (List.length (attempts w)) = Ok raw
    /\ transform raw (clock w) = (Ok (out, errs), t)
    /\ n = Z.of_nat (List.length out)
    /\ cleaned_data (stored (db w'))
       = cleaned_data (view (db w)) ++ map cleaned_of out
    /\ view (db w') = stored (db w')
    /\ exists c, find (source_is name) (etl_checkpoints (stored (db w'))) = Some c
                 /\ last_processed_id c = n.
Proof.
  unfold ingest. intros E. apply try_ok in E.
  2:{ intros e s0. unfold bind, rollback, modify, raise. eexists _, _. reflexivity. }
  apply bind_ok in E as (raw & w1 & E1 & E).
  unfold fetch in E1. injection E1 as E1 <-.
  apply bind_ok in E as ([] & w2 & E2 & E).
  destruct (store_raw_ok raw (set_attempts (attempts w ++ [s]) w)) as (w2' & E2' & Hc2 & Hk2).
  rewrite E2' in E2. injection E2 as <-.
  apply bind_ok in E as ([] & w3 & E3 & E). apply commit_ok in E3 as [_ ->].
  apply bind_ok in E as ([out errs] & w4 & E4 & E).
  unfold on_clock in E4. simpl in E4. rewrite Hk2 in E4. simpl in E4.
  destruct (transform raw (clock w)) as [r t] eqn:Et.
  injection E4 as -> <-.
  apply bind_ok in E as (m & w5 & E5 & E). simpl in E5.
  match type of E5 with load ?l ?z ?w0 = _ =>
    destruct (load_ok l z w0) as (w5' & E5' & Hc5) end.
  rewrite E5' in E5. injection E5 as <- <-.
  apply bind_ok in E as ([] & w6 & E6 & E). apply commit_ok in E6 as [_ ->].
  apply bind_ok in E as ([] & w7 & E7 & E). injection E as <- <-.
  apply update_checkpoint_ok in E7 as (Hs & Hf & _ & Hcl & _).
  exists raw, out, errs, t. repeat split; try assumption; try reflexivity.
  rewrite Hcl. simpl. rewrite Hc5. simpl. rewrite Hc2. reflexivity.
Qed.

(** Returning or raising, an ingestion leaves nothing uncommitted. *)
Lemma ingest_synced w :
  let w' := snd (ingest env s limit row transform name w) in
  view (db w') = stored (db w').
Proof.
  simpl. destruct (ingest env s limit row transform name w) as [[n|e] w'] eqn:E.
  - apply ingest_ok in E as (_ & _ & _ & _ & _ & _ & _ & _ & H & _). exact H.
  - revert E. unfold ingest, try_except.
    match goal with |- context [match ?c w with _ => _ end] => destruct (c w) as [[a|e0] w1] end.
    + discriminate.
    + unfold bind, rollback, modify, raise. simpl. intros [= _ <-]. reflexivity.
Qed.
End Ingest.

(** ** The invariants *)

Lemma stable_cleaned_extends base : stable (cleaned_extends base).
Proof.
  split; unfold cleaned_extends; simpl; try (intros; assumption).
  - intros w [_ H]. split; exact H.
  - intros w [H _]. split; exact H.
  - intros c w _ [H [m Hm]]. split; [exact H|].
    exists (m ++ [cleaned_of c]). rewrite Hm, app_assoc. reflexivity.
Qed.

Lemma stable_cleaned_valid : stable cleaned_valid.
Proof.
  split; unfold cleaned_valid; simpl; try (intros; assumption).
  - intros w [_ H]. split; exact H.
  - intros w [H _]. split; exact H.
  - intros c w Hc [H Hv]. split; [exact H|].
    apply Forall_app. split; [exact Hv|]. constructor; [exact Hc | constructor].
Qed.

Lemma stable_runs_are R : stable (runs_are R).
Proof.
  split; unfold runs_are; simpl; try (intros; assumption).
  - intros w [_ H]. split; exact H.
  - intros w [H _]. split; exact H.
Qed.

Lemma stable_self_is k : stable (self_is k).
Proof. split; unfold self_is; simpl; intros; assumption. Qed.

Lemma stable_attempts_are a : stable (attempts_are a).
Proof. split; unfold attempts_are; simpl; intros; assumption. Qed.

(** ** The three sources *)

Section Sources.
Context `{PyLib}.
Variable env : Env.

Lemma transformers_valid (s : source_tag) raw :
  yields (match s with
          | Coinpaprika => transform_coinpaprika raw
          | Coingecko => transform_coingecko raw
          | Csv => transform_csv raw
          end)
         (fun out => Forall (fun c => valid_record c = true) (fst out)).
Proof.
  intros t [out n] t' E. simpl.
  destruct s; (eapply transform_loop_Forall; [| |exact E]; [|constructor]).
  - apply coinpaprika_item_valid.
  - apply coingecko_item_valid.
  - apply csv_item_valid.
Qed.

Lemma ingest_source_keeps I s w :
  stable I -> I (set_attempts (attempts w ++ [s]) w) ->
  I (snd (ingest_source env s w)).
Proof.
  intros HI Hw.
  destruct s; unfold ingest_source, ingest_from_coinpaprika,
    ingest_from_coingecko, ingest_from_csv; apply keeps_ingest; try assumption.
  - intros item w0. apply (stable_raw_api I HI).
  - intros raw. apply (transformers_valid Coinpaprika).
  - intros item w0. apply (stable_raw_api I HI).
  - intros raw. apply (transformers_valid Coingecko).
  - intros item w0. apply (stable_raw_csv I HI).
  - intros raw. apply (transformers_valid Csv).
Qed.

Lemma ingest_source_attempts s w :
  attempts (snd (ingest_source env s w)) = attempts w ++ [s].
Proof.
  apply (ingest_source_keeps (attempts_are (attempts w ++ [s]))).
  - apply stable_attempts_are.
  - reflexivity.
Qed.

Lemma ingest_source_synced s w : synced (snd (ingest_source env s w)).
Proof.
  destruct s; unfold ingest_source, ingest_from_coinpaprika,
    ingest_from_coingecko, ingest_from_csv; apply ingest_synced; reflexivity.
Qed.

Lemma ingest_source_ok s w n w' :
  ingest_source env s w = (Ok n, w') ->
  (exists out, n = Z.of_nat (List.length out)
               /\ Forall (fun c => valid_record c = true) out
               /\ cleaned_data (stored (db w'))
                  = cleaned_data (view (db w)) ++ map cleaned_of out)
  /\ exists c, find (source_is (name_of s)) (etl_checkpoints (stored (db w'))) = Some c
               /\ last_processed_id c = n.
Proof.
  intros E.
  assert (G : exists raw out errs t,
             (match s with
              | Coinpaprika => transform_coinpaprika raw
              | Coingecko => transform_coingecko raw
              | Csv => transform_csv raw
              end) (clock w) = (Ok (out, errs), t)
             /\ n = Z.of_nat (List.length out)
             /\ cleaned_data (stored (db w'))
                = cleaned_data (view (db w)) ++ map cleaned_of out
             /\ exists c, find (source_is (name_of s))
                               (etl_checkpoints (stored (db w'))) = Some c
                          /\ last_processed_id c = n).
  { destruct s; unfold ingest_source, ingest_from_coinpaprika,
      ingest_from_coingecko, ingest_from_csv in E;
      apply ingest_ok in E; try reflexivity;
      destruct E as (raw & out & errs & t & _ & Et & En & Ec & _ & Ef);
      exists raw, out, errs, t; repeat split; assumption. }
  destruct G as (raw & out & errs & t & Et & En & Ec & Ef).
  split; [|exact Ef].
  exists out. repeat split; try assumption.
  exact (transformers_valid s raw _ _ _ Et).
Qed.

(** *** The sources of a list in turn *)

Lemma ingest_each_app l1 l2 total w :
  ingest_each env (l1 ++ l2) total w =
  match ingest_each env l1 total w with
  | (t, None, w1) => ingest_each env l2 t w1
  | r => r
  end.
Proof.
  revert total w. induction l1 as [|s r IH]; intros total w; simpl.
  - reflexivity.
  - destruct (ingest_source env s w) as [[n|e] w1]; [apply IH | reflexivity].
Qed.

Lemma ingest_each_keeps I l total w :
  stable I -> (forall a w0, I w0 -> I (set_attempts a w0)) ->
  I w -> I (snd (ingest_each env l total w)).
Proof.
  intros HI Ha. revert total w. induction l as [|s r IH]; intros total w Hw; simpl.
  - exact Hw.
  - pose proof (ingest_source_keeps I s w HI (Ha _ _ Hw)) as K.
    destruct (ingest_source env s w) as [[n|e] w1]; simpl in *.
    + apply IH, K.
    + exact K.
Qed.

Lemma ingest_each_synced l total w :
  synced w -> synced (snd (ingest_each env l total w)).
Proof.
  revert total w. induction l as [|s r IH]; intros total w Hw; simpl.
  - exact Hw.
  - pose proof (ingest_source_synced s w) as K.
    destruct (ingest_source env s w) as [[n|e] w1]; simpl in *.
    + apply IH, K.
    + exact K.
Qed.

(** The sources attempted are those of the list up to the first that
    raises; all of them when none raises. *)
Lemma ingest_each_attempts l total w :
  let '(_, err, w') := ingest_each env l total w in
  exists done rest,
    l = done ++ rest /\ attempts w' = attempts w ++ done
    /\ (err = None -> rest = []).
Proof.
  revert total w. induction l as [|s r IH]; intros total w; simpl.
  - exists [], []. repeat split. symmetry. apply app_nil_r.
  - pose proof (ingest_source_attempts s w) as K.
    destruct (ingest_source env s w) as [[n|e] w1]; simpl in K.
    + specialize (IH (total + n)%Z w1).
      destruct (ingest_each env r (total + n)%Z w1) as [[t err] w'].
      destruct IH as (done & rest & -> & Ha & He).
      exists (s :: done), rest. repeat split; [|exact He].
      rewrite Ha, K, <- app_assoc. reflexivity.
    + exists [s], r. repeat split; [exact K | discriminate].
Qed.
(** What a source that completes leaves in the store: the records its
    transformer made of the items fetched, after the cleaned rows of before. *)
Lemma ingest_source_rows s w k w' :
  synced w ->
  ingest_source env s w = (Ok k, w') ->
  exists raw out errs t,
    extract env s (limit_of s) (List.length (attempts w)) = Ok raw
    /\ transform_of s raw (clock w) = (Ok (out, errs), t)
    /\ k = Z.of_nat (List.length out)
    /\ cleaned_data (stored (db w'))
       = cleaned_data (stored (db w)) ++ map cleaned_of out.
Proof.
  intros Hs E. unfold synced in Hs. rewrite <- Hs.
  destruct s; unfold ingest_source, ingest_from_coinpaprika,
    ingest_from_coingecko, ingest_from_csv in E;
    apply ingest_ok in E; try reflexivity;
    destruct E as (raw & out & errs & t & Ex & Et & En & Ec & _);
    exists raw, out, errs, t; repeat split; assumption.
Qed.

(** The rows that the sources of a list leave when all complete, as many as
    the total says. *)
Lemma ingest_each_cleaned l total w total' w1 :
  synced w ->
  ingest_each env l total w = (total', None, w1) ->
  exists rows,
    cleaned_data (stored (db w1)) = cleaned_data (stored (db w)) ++ rows
    /\ total' = (total + Z.of_nat (List.length rows))%Z.
Proof.
  revert total w. induction l as [|s r IH]; intros total w Hs; simpl.
  - intros [= <- <-]. exists []. rewrite app_nil_r. split; [reflexivity | simpl; lia].
  - pose proof (ingest_source_synced s w) as K.
    destruct (ingest_source env s w) as [[n|e] w2] eqn:E; [|discriminate].
    intros Ei. destruct (IH _ _ K Ei) as (rows & Hr & Ht).
    destruct (ingest_source_ok s w n w2 E) as [(out & Hn & _ & Hc) _].
    exists (map cleaned_of out ++ rows). split.
    + simpl in Hr. rewrite Hr, Hc, Hs, app_assoc. reflexivity.
    + rewrite length_app, length_map. lia.
Qed.
End Sources.

(** ** The run tracker *)

Section Tracker.
Variable env : Env.

Lemma start_run_ok label w :
  commit_fault env AtStartRun (commits w) = None ->
  exists w0,
    start_run env label w = (Ok tt, w0)
    /\ synced w0
    /\ stored (db w0)
       = set_runs (fun l => l ++ [started label (clock w)]) (view (db w))
    /\ run_id w0 = Some (S (List.length (etl_runs (view (db w)))))
    /\ attempts w0 = attempts w.
Proof.
  intros Hc. unfold start_run, bind, now, on_clock, utcnow, modify, commit, gets.
  simpl. rewrite Hc. eexists. split; [reflexivity|]. simpl.
  repeat split. rewrite length_app, Nat.add_1_r. reflexivity.
Qed.

Lemma start_run_returned label w w0 :
  start_run env label w = (Ok tt, w0) ->
  commit_fault env AtStartRun (commits w) = None.
Proof.
  unfold start_run, bind, now, on_clock, utcnow, modify, commit, gets. simpl.
  destruct (commit_fault env AtStartRun (commits w)); [discriminate | reflexivity].
Qed.

Lemma end_run_ok processed succeeded error w k r :
  run_id w = Some (S k) ->
  nth_error (etl_runs (view (db w))) k = Some r ->
  commit_fault env AtEndRun (commits w) = None ->
  exists w',
    end_run env processed succeeded error w = (Ok tt, w')
    /\ stored (db w')
       = set_runs (update_nth k (fun r =>
           {| started_at := started_at r; ended_at := Some (clock w);
              records_processed := processed; success := succeeded;
              error_message := error; run_source := run_source r |}))
           (view (db w))
    /\ attempts w' = attempts w.
Proof.
  intros Hk Hr Hc. unfold end_run, bind, now, on_clock, utcnow, modify, commit, gets.
  rewrite Hk, Hr. simpl. rewrite Hc. eexists. split; [reflexivity|].
  split; reflexivity.
Qed.

Lemma end_run_fails processed succeeded error w k r e :
  run_id w = Some (S k) ->
  nth_error (etl_runs (view (db w))) k = Some r ->
  commit_fault env AtEndRun (commits w) = Some e ->
  exists w',
    end_run env processed succeeded error w = (Raise e, w')
    /\ stored (db w') = stored (db w)
    /\ attempts w' = attempts w.
Proof.
  intros Hk Hr Hc. unfold end_run, bind, now, on_clock, utcnow, modify, commit, gets.
  rewrite Hk, Hr. simpl. rewrite Hc. eexists. split; [reflexivity|].
  split; reflexivity.
Qed.

(** Whatever they come to, the calls of the tracker attempt no source and
    write no cleaned row. *)
Lemma start_run_step label w : tracker_step w (snd (start_run env label w)).
Proof.
  unfold start_run, bind, now, on_clock, utcnow, modify, commit, gets. simpl.
  destruct (commit_fault env AtStartRun (commits w)); simpl;
    repeat split; auto.
Qed.

Lemma end_run_step processed succeeded error w :
  tracker_step w (snd (end_run env processed succeeded error w)).
Proof.
  unfold end_run, bind, now, on_clock, utcnow, modify, commit, gets, ret. simpl.
  destruct (run_id w) as [[|k]|]; simpl; try (repeat split; auto; fail).
  destruct (nth_error (etl_runs (view (db w))) k); simpl;
    try (repeat split; auto; fail).
  destruct (commit_fault env AtEndRun (commits w)); simpl; repeat split; auto.
Qed.

Lemma run_failed_step total e w : tracker_step w (snd (run_failed env total e w)).
Proof.
  unfold run_failed, bind, ret.
  pose proof (end_run_step total false (Some (msg e)) w) as K.
  destruct (end_run env total false (Some (msg e)) w) as [[[]|e'] w']; exact K.
Qed.

Lemma tracker_step_valid w w' :
  tracker_step w w' -> cleaned_valid w -> cleaned_valid w'.
Proof.
  intros (_ & Hv & Hs) [H1 H2]. unfold cleaned_valid. rewrite Hv.
  split; [|exact H2]. destruct Hs as [-> | ->]; assumption.
Qed.
End Tracker.

(** ** The run as a whole *)

Lemma mem_In x l : PyStr.mem x l = true <-> In x l.
Proof.
  unfold PyStr.mem. rewrite existsb_exists. split.
  - intros (y & Hy & E). apply String.eqb_eq in E. subst. exact Hy.
  - intros Hx. exists x. split; [exact Hx | apply String.eqb_refl].
Qed.

Section Run.
Context `{PyLib}.
Variable env : Env.

(** [run] is [start_run], the ingestion of the planned sources in turn, and
    the [end_run] of the outcome. *)
Lemma run_eq sources w :
  run env sources w =
  match start_run env (label_of sources) w with
  | (Raise e, w0) => (Raise e, w0)
  | (Ok _, w0) =>
      match ingest_each env (plan sources) 0 w0 with
      | (total, Some e, w1) => run_failed env total e w1
      | (total, None, w1) =>
          match end_run env total true None w1 with
          | (Raise e, w2) => run_failed env total e w2
          | (Ok _, w2) => (Ok true, w2)
          end
      end
  end.
Proof.
  unfold run, label_of, plan, requested.
  set (l := match sources with Some l => l | None => _ end).
  destruct (start_run env (PyStr.join "," l) w) as [[[]|e] w0]; [|reflexivity].
  simpl filter. unfold name_of.
  destruct (PyStr.mem "coinpaprika" l), (PyStr.mem "coingecko" l),
    (PyStr.mem "csv" l); simpl; unfold ret;
    repeat match goal with
           | |- context [ingest_from_coinpaprika env 10 ?w] =>
               destruct (ingest_from_coinpaprika env 10 w) as [[?n|?e] ?w]
           | |- context [ingest_from_coingecko env 10 ?w] =>
               destruct (ingest_from_coingecko env 10 w) as [[?n|?e] ?w]
           | |- context [ingest_from_csv env ?w] =>
               destruct (ingest_from_csv env w) as [[?n|?e] ?w]
           end;
    rewrite ?Z.add_0_r; reflexivity.
Qed.
End Run.

Section RunFacts.
Context `{PyLib}.
Variable env : Env.

(** The state in which the tracker closes a run that it opened, when the
    commit of [end_run] goes through. *)
Lemma run_closes sources w w0 total err w1 processed succeeded error :
  start_run env (label_of sources) w = (Ok tt, w0) ->
  ingest_each env (plan sources) 0 w0 = (total, err, w1) ->
  commit_fault env AtEndRun (commits w1) = None ->
  exists w',
    end_run env processed succeeded error w1 = (Ok tt, w')
    /\ stored (db w')
       = set_runs (fun _ => etl_runs (view (db w))
                            ++ [finished (label_of sources) (clock w) (clock w1)
                                         processed succeeded error])
                  (stored (db w1))
    /\ attempts w' = attempts w1.
Proof.
  intros Es Ei Hc.
  destruct (start_run_ok env (label_of sources) w (start_run_returned env _ _ _ Es))
    as (w0' & Es' & Hsync & Hst & Hid & Hat).
  rewrite Es in Es'. injection Es' as <-.
  set (R := etl_runs (view (db w))) in *.
  assert (Hr : runs_are (R ++ [started (label_of sources) (clock w)]) w1
               /\ self_is (Some (S (List.length R))) w1 /\ synced w1).
  { replace w1 with (snd (ingest_each env (plan sources) 0 w0))
      by (rewrite Ei; reflexivity).
    split; [|split].
    - apply ingest_each_keeps; [apply stable_runs_are | auto |].
      unfold runs_are. rewrite Hsync, Hst. split; reflexivity.
    - apply ingest_each_keeps; [apply stable_self_is | auto | exact Hid].
    - apply ingest_each_synced, Hsync. }
  destruct Hr as ([_ Hrv] & Hrid & Hs1).
  destruct (end_run_ok env processed succeeded error w1 (List.length R)
              (started (label_of sources) (clock w)) Hrid)
    as (w' & Ee & Hst' & Hat').
  - rewrite Hrv. apply nth_error_last.
  - exact Hc.
  - exists w'. split; [exact Ee|]. split; [|exact Hat']. rewrite Hst'.
    unfold set_runs. rewrite Hrv, update_nth_last, Hs1. reflexivity.
Qed.

(** The state in which the tracker leaves a run that it opened, when the
    commit of [end_run] fails: [end_run] raises and the run is still open. *)
Lemma run_stays_open sources w w0 total err w1 processed succeeded error e :
  start_run env (label_of sources) w = (Ok tt, w0) ->
  ingest_each env (plan sources) 0 w0 = (total, err, w1) ->
  commit_fault env AtEndRun (commits w1) = Some e ->
  exists w',
    end_run env processed succeeded error w1 = (Raise e, w')
    /\ stored (db w') = stored (db w1)
    /\ etl_runs (stored (db w'))
       = etl_runs (view (db w)) ++ [started (label_of sources) (clock w)].
Proof.
  intros Es Ei Hc.
  destruct (start_run_ok env (label_of sources) w (start_run_returned env _ _ _ Es))
    as (w0' & Es' & Hsync & Hst & Hid & Hat).
  rewrite Es in Es'. injection Es' as <-.
  set (R := etl_runs (view (db w))) in *.
  assert (Hr : runs_are (R ++ [started (label_of sources) (clock w)]) w1
               /\ self_is (Some (S (List.length R))) w1).
  { replace w1 with (snd (ingest_each env (plan sources) 0 w0))
      by (rewrite Ei; reflexivity).
    split.
    - apply ingest_each_keeps; [apply stable_runs_are | auto |].
      unfold runs_are. rewrite Hsync, Hst. split; reflexivity.
    - apply ingest_each_keeps; [apply stable_self_is | auto | exact Hid]. }
  destruct Hr as ([Hrs Hrv] & Hrid).
  destruct (end_run_fails env processed succeeded error w1 (List.length R)
              (started (label_of sources) (clock w)) e Hrid)
    as (w' & Ee & Hst' & _).
  - rewrite Hrv. apply nth_error_last.
  - exact Hc.
  - exists w'. split; [exact Ee|]. split; [exact Hst'|]. rewrite Hst'. exact Hrs.
Qed.

Lemma plan_In sources s :
  In s (plan sources) <-> In (name_of s) (requested sources).
Proof.
  unfold plan. rewrite filter_In, mem_In. split; [intros [_ G]; exact G|].
  intros G. split; [|exact G]. destruct s; simpl; auto.
Qed.
End RunFacts.

(** C7 (as amended). For every list of sources and everything the sources and
    the commits of the ingestion steps can do, provided the commits of the run
    tracker itself go through, [run] returns a boolean: [true] exactly when
    the ingestion of every planned source returned.  In both cases the run
    record that [start_run] created is the one new row of the run table, with
    its end time, the total of the sources that completed, the flag, and the
    message of the exception if there was one. *)
Theorem run_returns_boolean `{PyLib} (env : Env) sources w :
  tracker_commits env ->
  exists b w' w0 total err w1,
    run env sources w = (Ok b, w')
    /\ start_run env (label_of sources) w = (Ok tt, w0)
    /\ ingest_each env (plan sources) 0 w0 = (total, err, w1)
    /\ b = (match err with None => true | Some _ => false end)
    /\ etl_runs (stored (db w'))
       = etl_runs (view (db w))
         ++ [finished (label_of sources) (clock w) (clock w1) total b
                      (option_map msg err)].
Proof.
  intros Ht.
  destruct (start_run_ok env (label_of sources) w (proj1 (Ht _)))
    as (w0 & Es & _).
  destruct (ingest_each env (plan sources) 0 w0) as [[total err] w1] eqn:Ei.
  set (b := match err with None => true | Some _ => false end).
  destruct (run_closes env sources w w0 total err w1 total b (option_map msg err)
              Es Ei (proj2 (Ht _))) as (w' & Ee & Hst & _).
  exists b, w', w0, total, err, w1.
  split; [|repeat split; try assumption; rewrite Hst; reflexivity].
  rewrite run_eq, Es, Ei. subst b. destruct err as [e|]; simpl in Ee.
  - unfold run_failed, bind. rewrite Ee. reflexivity.
  - rewrite Ee. reflexivity.
Qed.

(** C1 (as amended). When the ingestion of a planned source raises, after
    the sources planned before it returned, [run] stops there: the sources
    attempted are those up to the one that raised and no later one, and [run]
    does not return [true].  The rows of every earlier source are in the
    store, and stay there: the store held them, as many as the source counted
    and made of the items it fetched, after the cleaned rows of before, when
    the source completed, and they are at the same place when [run] ends; the
    rows of all earlier sources together are as many as the total.  When the
    commit of the [end_run] that records the failure goes through, [run]
    returns [false] and the run table has one new row, finished with
    [success = false], the total of the earlier sources and the message of
    the exception.  When that commit fails, [run] raises its exception and
    the row of the run is left as [start_run] made it, not finished. *)
Theorem run_aborts_at_first_failure `{PyLib} (env : Env) sources w w0
    done s rest total wd e wf :
  start_run env (label_of sources) w = (Ok tt, w0) ->
  plan sources = done ++ s :: rest ->
  ingest_each env done 0 w0 = (total, None, wd) ->
  ingest_source env s wd = (Raise e, wf) ->
  let w' := snd (run env sources w) in
  attempts w' = attempts w ++ done ++ [s]
  /\ fst (run env sources w) <> Ok true
  /\ (forall d1 d2 t1 w1,
        done = d1 ++ d2 -> ingest_each env d1 0 w0 = (t1, None, w1) ->
        exists more,
          cleaned_data (stored (db w')) = cleaned_data (stored (db w1)) ++ more)
  /\ (forall d1 s1 d2 t1 w1 k w2,
        done = d1 ++ s1 :: d2 ->
        ingest_each env d1 0 w0 = (t1, None, w1) ->
        ingest_source env s1 w1 = (Ok k, w2) ->
        exists raw out errs t more,
          extract env s1 (limit_of s1) (List.length (attempts w1)) = Ok raw
          /\ transform_of s1 raw (clock w1) = (Ok (out, errs), t)
          /\ k = Z.of_nat (List.length out)
          /\ cleaned_data (stored (db w2))
             = cleaned_data (stored (db w1)) ++ map cleaned_of out
          /\ cleaned_data (stored (db w'))
             = cleaned_data (stored (db w1)) ++ map cleaned_of out ++ more)
  /\ (exists rows more,
        Z.of_nat (List.length rows) = total
        /\ cleaned_data (stored (db wd)) = cleaned_data (view (db w)) ++ rows
        /\ cleaned_data (stored (db w'))
           = cleaned_data (view (db w)) ++ rows ++ more)
  /\ (commit_fault env AtEndRun (commits wf) = None ->
      run env sources w = (Ok false, w')
      /\ etl_runs (stored (db w'))
         = etl_runs (view (db w))
           ++ [finished (label_of sources) (clock w) (clock wf) total false
                        (Some (msg e))])
  /\ (forall e',
        commit_fault env AtEndRun (commits wf) = Some e' ->
        run env sources w = (Raise e', w')
        /\ etl_runs (stored (db w'))
           = etl_runs (view (db w)) ++ [started (label_of sources) (clock w)]).
Proof.
  intros Es Hp Ed Ef.
  assert (Ei : ingest_each env (plan sources) 0 w0 = (total, Some e, wf)).
  { rewrite Hp, ingest_each_app, Ed. simpl. rewrite Ef. reflexivity. }
  assert (Er : run env sources w = run_failed env total e wf).
  { rewrite run_eq, Es, Ei. reflexivity. }
  rewrite Er. intros w'.
  destruct (start_run_ok env (label_of sources) w (start_run_returned env _ _ _ Es))
    as (w0' & Es' & Hsync & Hst0 & _ & Hat0).
  rewrite Es in Es'. injection Es' as <-.
  pose proof (run_failed_step env total e wf) as (Ka & _ & Kc). fold w' in Ka, Kc.
  assert (Sf : synced wf).
  { replace wf with (snd (ingest_source env s wd)) by (rewrite Ef; reflexivity).
    apply ingest_source_synced. }
  assert (Kept : forall d1 d2 t1 w1,
             done = d1 ++ d2 -> ingest_each env d1 0 w0 = (t1, None, w1) ->
             exists more,
               cleaned_data (stored (db w')) = cleaned_data (stored (db w1)) ++ more).
  { intros d1 d2 t1 w1 Hd E1.
    assert (S1 : synced w1).
    { replace w1 with (snd (ingest_each env d1 0 w0)) by (rewrite E1; reflexivity).
      apply ingest_each_synced, Hsync. }
    assert (X : cleaned_extends (cleaned_data (stored (db w1))) wf).
    { replace wf with (snd (ingest_source env s wd)) by (rewrite Ef; reflexivity).
      apply ingest_source_keeps; [apply stable_cleaned_extends|].
      replace wd with (snd (ingest_each env d2 t1 w1)).
      2:{ rewrite Hd, ingest_each_app, E1 in Ed. rewrite Ed. reflexivity. }
      assert (Y : cleaned_extends (cleaned_data (stored (db w1)))
                    (snd (ingest_each env d2 t1 w1))).
      { apply ingest_each_keeps; [apply stable_cleaned_extends | auto |].
        unfold cleaned_extends. rewrite S1.
        split; exists []; symmetry; apply app_nil_r. }
      exact Y. }
    destruct X as [[more Hm] _]. exists more.
    destruct Kc as [-> | ->]; [|rewrite Sf]; exact Hm. }
  split; [|split; [|split; [exact Kept|split; [|split; [|split]]]]].
  - rewrite Ka.
    pose proof (ingest_source_attempts env s wd) as Ks. rewrite Ef in Ks. simpl in Ks.
    pose proof (ingest_each_attempts env done 0 w0) as Kd. rewrite Ed in Kd.
    destruct Kd as (d & r & Hd & Hatt & Hr). rewrite (Hr eq_refl), app_nil_r in Hd.
    subst d. rewrite Ks, Hatt, Hat0, <- app_assoc. reflexivity.
  - unfold run_failed, bind, ret.
    destruct (end_run env total false (Some (msg e)) wf) as [[[]|e'] w2];
      discriminate.
  - intros d1 s1 d2 t1 w1 k w2 Hd E1 E2.
    assert (S1 : synced w1).
    { replace w1 with (snd (ingest_each env d1 0 w0)) by (rewrite E1; reflexivity).
      apply ingest_each_synced, Hsync. }
    destruct (ingest_source_rows env s1 w1 k w2 S1 E2)
      as (raw & out & errs & t & Ex & Et & Ek & Ec).
    assert (E12 : ingest_each env (d1 ++ [s1]) 0 w0 = ((t1 + k)%Z, None, w2)).
    { rewrite ingest_each_app, E1. simpl. rewrite E2. reflexivity. }
    assert (Hd' : done = (d1 ++ [s1]) ++ d2)
      by (rewrite <- app_assoc; exact Hd).
    destruct (Kept _ _ _ _ Hd' E12) as (more & Hm).
    exists raw, out, errs, t, more.
    split; [exact Ex|]. split; [exact Et|]. split; [exact Ek|].
    split; [exact Ec|]. rewrite Hm, Ec, <- app_assoc. reflexivity.
  - destruct (ingest_each_cleaned env done 0 w0 total wd Hsync Ed)
      as (rows & Hrows & Ht).
    assert (Hd' : done = done ++ []) by (symmetry; apply app_nil_r).
    destruct (Kept _ _ _ _ Hd' Ed) as (more & Hm).
    assert (Hc0 : cleaned_data (stored (db w0)) = cleaned_data (view (db w)))
      by (rewrite Hst0; reflexivity).
    exists rows, more. split; [lia|].
    rewrite <- Hc0. split; [exact Hrows|].
    rewrite Hm, Hrows, <- app_assoc. reflexivity.
  - intros Hc.
    destruct (run_closes env sources w w0 total (Some e) wf total false
                (Some (msg e)) Es Ei Hc) as (w2 & Ee & Hst & _).
    assert (Ew : run_failed env total e wf = (Ok false, w2)).
    { unfold run_failed, bind. rewrite Ee. reflexivity. }
    subst w'. rewrite Ew. simpl. split; [reflexivity|]. rewrite Hst. reflexivity.
  - intros e' Hc.
    destruct (run_stays_open env sources w w0 total (Some e) wf total false
                (Some (msg e)) e' Es Ei Hc) as (w2 & Ee & _ & Hr).
    assert (Ew : run_failed env total e wf = (Raise e', w2)).
    { unfold run_failed, bind. rewrite Ee. reflexivity. }
    subst w'. rewrite Ew. simpl. split; [reflexivity | exact Hr].
Qed.

(** C10 (as amended). [run] attempts known sources only, in the order coinpaprika,
    coingecko, csv whatever the order of the list: the sources attempted are a
    front part of the plan, all of it when [run] returns [true], and the plan
    holds a source exactly when the list holds its name.  When the list holds
    no known name, and the commits of the run tracker go through, [run]
    attempts nothing and returns [true], and the store is then the view before
    the run with one run record more, finished with [success = true] and
    [records_processed = 0]. *)
Theorem run_attempts_known_sources `{PyLib} (env : Env) sources w :
  (forall s, In s (plan sources) <-> In (name_of s) (requested sources))
  /\ (exists b1 b2 b3 : bool,
        plan sources = (if b1 then [Coinpaprika] else [])
                       ++ (if b2 then [Coingecko] else [])
                       ++ (if b3 then [Csv] else []))
  /\ (exists done rest,
        plan sources = done ++ rest
        /\ attempts (snd (run env sources w)) = attempts w ++ done
        /\ (fst (run env sources w) = Ok true -> rest = []))
  /\ (tracker_commits env ->
      (forall s, ~ In (name_of s) (requested sources)) ->
      exists w',
        run env sources w = (Ok true, w')
        /\ attempts w' = attempts w
        /\ stored (db w')
           = set_runs (fun _ => etl_runs (view (db w))
                                ++ [finished (label_of sources) (clock w)
                                             (S (clock w)) 0 true None])
                      (view (db w))).
Proof.
  split; [|split; [|split]].
  - intros s. apply plan_In.
  - unfold plan. simpl.
    exists (PyStr.mem "coinpaprika" (requested sources)),
           (PyStr.mem "coingecko" (requested sources)),
           (PyStr.mem "csv" (requested sources)).
    destruct (PyStr.mem "coinpaprika" _), (PyStr.mem "coingecko" _),
      (PyStr.mem "csv" _); reflexivity.
  - rewrite run_eq.
    pose proof (start_run_step env (label_of sources) w) as (Ks & _).
    destruct (start_run env (label_of sources) w) as [[[]|e0] w0]; simpl in Ks.
    2:{ exists [], (plan sources). simpl. rewrite app_nil_r.
        repeat split; [exact Ks | discriminate]. }
    pose proof (ingest_each_attempts env (plan sources) 0 w0) as Ki.
    destruct (ingest_each env (plan sources) 0 w0) as [[total err] w1].
    destruct Ki as (done & rest & Hp & Ha & Hr).
    exists done, rest. split; [exact Hp|].
    destruct err as [e|].
    + pose proof (run_failed_step env total e w1) as (Kf & _).
      split; [rewrite Kf, Ha, Ks; reflexivity|].
      unfold run_failed, bind, ret.
      destruct (end_run env total false (Some (msg e)) w1) as [[[]|e'] w2];
        discriminate.
    + pose proof (end_run_step env total true None w1) as (Ke & _).
      destruct (end_run env total true None w1) as [[[]|e'] w2]; simpl in Ke.
      * split; [simpl; rewrite Ke, Ha, Ks; reflexivity
               | intros _; apply Hr; reflexivity].
      * pose proof (run_failed_step env total e' w2) as (Kf & _).
        split; [rewrite Kf, Ke, Ha, Ks; reflexivity|].
        unfold run_failed, bind, ret.
        destruct (end_run env total false (Some (msg e')) w2) as [[[]|e''] w3];
          discriminate.
  - intros Ht Hn.
    assert (Hp : plan sources = []).
    { destruct (plan sources) as [|s r] eqn:E; [reflexivity|].
      exfalso. apply (Hn s), plan_In. rewrite E. left. reflexivity. }
    destruct (start_run_ok env (label_of sources) w (proj1 (Ht _)))
      as (w0 & Es & Hsync & Hst0 & _ & Hat0).
    assert (Ei : ingest_each env (plan sources) 0 w0 = (0%Z, None, w0))
      by (rewrite Hp; reflexivity).
    destruct (run_closes env sources w w0 0%Z None w0 0%Z true None Es Ei
                (proj2 (Ht _))) as (w' & Ee & Hst & Hat).
    exists w'. split; [|split].
    + rewrite run_eq, Es, Ei, Ee. reflexivity.
    + rewrite Hat, Hat0. reflexivity.
    + rewrite Hst, Hst0. unfold set_runs. simpl.
      assert (Hc : clock w0 = S (clock w)).
      { revert Es. unfold start_run, bind, now, on_clock, utcnow, modify, commit, gets.
        simpl. destruct (commit_fault env AtStartRun (commits w)); [discriminate|].
        intros [= <-]. reflexivity. }
      rewrite Hc. reflexivity.
Qed.

(** ** The validation invariant *)

Lemma valid_record_spec c :
  valid_record c = true <->
  PyFloat.ltb PyFloat.zero (price_usd c) = true
  /\ PyStr.strip (crypto_id c) <> "" /\ PyStr.strip (crypto_name c) <> ""
  /\ amount_ok (market_cap_usd c) = true /\ amount_ok (volume_24h_usd c) = true.
Proof.
  unfold valid_record, nonblank. rewrite !andb_true_iff, !negb_true_iff.
  rewrite !String.eqb_neq. tauto.
Qed.

(** C3. Every record a transformer puts out has a price above zero, an
    identifier and a name that are not blank, and a market cap and a volume
    that are absent or not below zero; and if every cleaned row, committed or
    pending, obeys these rules before an ingestion or a run, every one does
    after it, however it ends. *)
Theorem cleaned_records_are_valid `{PyLib} :
  (forall s raw t out n t',
      (match s with
       | Coinpaprika => transform_coinpaprika raw
       | Coingecko => transform_coingecko raw
       | Csv => transform_csv raw
       end) t = (Ok (out, n), t') ->
      Forall (fun c =>
                PyFloat.ltb PyFloat.zero (price_usd c) = true
                /\ PyStr.strip (crypto_id c) <> ""
                /\ PyStr.strip (crypto_name c) <> ""
                /\ amount_ok (market_cap_usd c) = true
                /\ amount_ok (volume_24h_usd c) = true) out)
  /\ (forall env s w, cleaned_valid w -> cleaned_valid (snd (ingest_source env s w)))
  /\ (forall env sources w, cleaned_valid w -> cleaned_valid (snd (run env sources w))).
Proof.
  split; [|split].
  - intros s raw t out n t' E.
    pose proof (transformers_valid s raw t (out, n) t' E) as K. simpl in K.
    eapply Forall_impl; [|exact K]. intros c. apply valid_record_spec.
  - intros env s w Hw. apply ingest_source_keeps; [apply stable_cleaned_valid | exact Hw].
  - intros env sources w Hw. rewrite run_eq.
    pose proof (tracker_step_valid _ _ (start_run_step env (label_of sources) w) Hw) as K0.
    destruct (start_run env (label_of sources) w) as [[[]|e0] w0]; simpl in K0;
      [|exact K0].
    pose proof (ingest_each_keeps env cleaned_valid (plan sources) 0 w0
                  stable_cleaned_valid (fun _ _ h => h) K0) as K1.
    destruct (ingest_each env (plan sources) 0 w0) as [[total err] w1]. simpl in K1.
    destruct err as [e|].
    + exact (tracker_step_valid _ _ (run_failed_step env total e w1) K1).
    + pose proof (tracker_step_valid _ _ (end_run_step env total true None w1) K1) as K2.
      destruct (end_run env total true None w1) as [[[]|e'] w2]; simpl in K2;
        [exact K2|].
      exact (tracker_step_valid _ _ (run_failed_step env total e' w2) K2).
Qed.

(** ** The checkpoint store: reading and writing *)

(** C8. [get_checkpoint] returns the cursor of the source's checkpoint row
    when there is one (the schema allows one row for a source), and 0 when
    there is none, as for ["unknown-source"] on an empty store. *)
Theorem get_checkpoint_reads_cursor source w :
  (forall c,
      In c (etl_checkpoints (view (db w))) ->
      checkpoint_source c = source ->
      (forall c', In c' (etl_checkpoints (view (db w))) ->
                  checkpoint_source c' = source -> c' = c) ->
      get_checkpoint source w = (Ok (last_processed_id c), w))
  /\ ((forall c, In c (etl_checkpoints (view (db w))) -> checkpoint_source c <> source) ->
      get_checkpoint source w = (Ok 0%Z, w))
  /\ get_checkpoint "unknown-source" new_world = (Ok 0%Z, new_world).
Proof.
  unfold get_checkpoint, first_checkpoint, bind, gets, ret.
  split; [|split]; [| |reflexivity].
  - intros c Hin Hs Hu.
    destruct (find (source_is source) (etl_checkpoints (view (db w)))) as [c'|] eqn:F.
    + apply find_some in F as [Hin' Hs']. apply String.eqb_eq in Hs'.
      rewrite (Hu c' Hin' Hs'). reflexivity.
    + exfalso. apply (find_none _ _ F) in Hin. unfold source_is in Hin.
      rewrite Hs, String.eqb_refl in Hin. discriminate.
  - intros Hn.
    destruct (find (source_is source) (etl_checkpoints (view (db w)))) as [c'|] eqn:F;
      [|reflexivity].
    apply find_some in F as [Hin' Hs']. apply String.eqb_eq in Hs'.
    exfalso. exact (Hn c' Hin' Hs').
Qed.

(** C4. [update_checkpoint] is an upsert by source name: after one or more
    calls for a source, from a state with at most one row for it, the store
    holds one row for the source, with the cursor written last.  The commits
    of the calls are taken to go through. *)
Theorem update_checkpoint_upserts env source cursors last w :
  (forall n, commit_fault env AtCheckpoint n = None) ->
  List.length (rows_for source (view (db w))) <= 1 ->
  exists w' c,
    update_checkpoints env source (cursors ++ [last]) w = (Ok tt, w')
    /\ rows_for source (stored (db w')) = [c]
    /\ checkpoint_source c = source
    /\ last_processed_id c = last.
Proof.
  intros Hc. revert w.
  assert (Step : forall id w,
             List.length (rows_for source (view (db w))) <= 1 ->
             exists w1 c,
               update_checkpoint env source id w = (Ok tt, w1)
               /\ view (db w1) = stored (db w1)
               /\ rows_for source (stored (db w1)) = [c]
               /\ checkpoint_source c = source
               /\ last_processed_id c = id).
  { intros id w Hw.
    destruct (update_checkpoint_returns env source id w (Hc _)) as (w1 & E & _).
    destruct (update_checkpoint_ok env source id w w1 E)
      as (Hs & (c & Hf & Hid) & Hl & _).
    exists w1, c. split; [exact E|]. split; [exact Hs|].
    split; [|split; [|exact Hid]].
    - unfold rows_for in *. apply filter_one; [exact Hf|]. rewrite Hl. lia.
    - apply find_some in Hf as [_ Hf]. apply String.eqb_eq in Hf. exact Hf. }
  induction cursors as [|id rest IH]; intros w Hw; simpl.
  - destruct (Step last w Hw) as (w1 & c & E & _ & Hr & Hs & Hid).
    exists w1, c. unfold bind, ret. rewrite E. repeat split; assumption.
  - destruct (Step id w Hw) as (w1 & c & E & Hv & Hr & _).
    destruct (IH w1) as (w' & c' & E' & K).
    { rewrite Hv, Hr. simpl. lia. }
    exists w', c'. unfold bind. rewrite E. split; [exact E' | exact K].
Qed.

(** C9 (as amended). An ingestion that returns leaves the source's cursor
    equal to the number of records it loaded in that call, whatever the
    cursor was before: the cursor is overwritten, not advanced. *)
Theorem ingest_sets_cursor_to_count `{PyLib} env s w n w' :
  ingest_source env s w = (Ok n, w') ->
  get_checkpoint (name_of s) w' = (Ok n, w')
  /\ exists out,
       n = Z.of_nat (List.length out)
       /\ cleaned_data (stored (db w'))
          = cleaned_data (view (db w)) ++ map cleaned_of out.
Proof.
  intros E.
  pose proof (ingest_source_synced env s w) as Hs. rewrite E in Hs. simpl in Hs.
  apply ingest_source_ok in E as ((out & Hn & _ & Hc) & (c & Hf & Hid)).
  split.
  - unfold get_checkpoint, first_checkpoint, bind, gets, ret.
    rewrite Hs, Hf, Hid. reflexivity.
  - exists out. split; assumption.
Qed.


(** C2: [transform_coinpaprika] raises whenever the ["quotes"] of an item, or
    ["USD"] under it, is there and is not a dict: the items after it are not
    reached and no record is returned.  The exception is the [AttributeError]
    of that item when the items before it have quotes that are dicts and ids
    that the handler can print. *)
Theorem transform_coinpaprika_raises_on_quotes `{PyLib} before item rest t :
  ~ quoted item ->
  (exists e t', transform_coinpaprika (before ++ item :: rest) t = (Raise e, t'))
  /\ (Forall quoted before ->
      Forall (fun x => id_prints x = true) before ->
      exists t', transform_coinpaprika (before ++ item :: rest) t
                 = (Raise attribute_error, t')).
Proof.
  intros Hi. unfold transform_coinpaprika. rewrite transform_loop_app. split.
  - destruct (transform_loop coinpaprika_item caught_api before [] 0 t)
      as [[[out n]|e] t'].
    + exists attribute_error, t'. simpl.
      rewrite (coinpaprika_item_unquoted item t' Hi). reflexivity.
    + exists e, t'. reflexivity.
  - intros Hb Hp. rewrite Forall_forall in Hb, Hp.
    destruct (transform_loop_total coinpaprika_item caught_api before) with
      (acc := @nil CryptoData) (errs := 0) (t := t) as (out & n & t' & E & _).
    { apply Forall_forall. intros x Hin. split; [exact (Hp _ Hin)|].
      intros t0 e t1. apply coinpaprika_item_caught, Hb, Hin. }
    rewrite E. exists t'. simpl.
    rewrite (coinpaprika_item_unquoted item t' Hi). reflexivity.
Qed.

(** ** The API clients and a rate limit *)

(** C5 (as amended). [get_tickers] answers each 429 by sleeping 60 seconds
    and sending the same request again from a nested call: after [k] such
    responses in a row it has slept [k] times and sent [k + 1] requests, and
    what it returns or raises is decided by the first response that is not a
    429; when the server answers 429 for as long as calls can nest, it ends
    in a [RecursionError].  [get_coins_markets] sends one request and never
    sleeps.  For both, an exception of the transport and a status from 400 to
    599 that is not retried are raised to the caller. *)
Theorem rate_limit_retries_until_answered :
  (forall srv limit k depth n0,
      (forall i, i < k -> rate_limited (srv (List.length (sent n0) + i)) = true) ->
      rate_limited (srv (List.length (sent n0) + k)) = false ->
      k < depth ->
      get_tickers srv depth limit n0
      = (outcome_result (srv (List.length (sent n0) + k)),
         {| sent := sent n0 ++ repeat (tickers_request limit) (S k);
            slept := slept n0 ++ repeat 60%Z k |}))
  /\ (forall srv limit depth n0,
         (forall i, i < depth ->
                    rate_limited (srv (List.length (sent n0) + i)) = true) ->
         get_tickers srv depth limit n0
         = (Raise recursion_error,
            {| sent := sent n0 ++ repeat (tickers_request limit) depth;
               slept := slept n0 ++ repeat 60%Z depth |}))
  /\ (forall srv limit n0,
         get_coins_markets srv limit n0
         = (outcome_result (srv (List.length (sent n0))),
            {| sent := sent n0 ++ [markets_request limit]; slept := slept n0 |}))
  /\ (forall e, outcome_result (Transport e) = Raise e)
  /\ (forall status body,
         (400 <= status < 600)%Z ->
         outcome_result (Response status body)
         = Raise {| cls := RequestException; msg := "HTTPError" |}).
Proof.
  split; [|split; [|split; [|split]]].
  - intros srv limit k. induction k as [|k IH]; intros depth n0 Hk Hn Hd.
    + destruct depth as [|d]; [lia|]. simpl.
      unfold bind, requests_get. rewrite Nat.add_0_r in Hn |- *.
      destruct (srv (List.length (sent n0))) as [e|status body]; simpl in *.
      * unfold raise. rewrite app_nil_r. reflexivity.
      * rewrite Hn. unfold lift. rewrite app_nil_r. reflexivity.
    + destruct depth as [|d]; [lia|]. simpl get_tickers.
      unfold bind at 1, requests_get.
      pose proof (Hk 0 (Nat.lt_0_succ _)) as H0. rewrite Nat.add_0_r in H0.
      destruct (srv (List.length (sent n0))) as [e|status body]; simpl in H0;
        [discriminate|].
      rewrite H0. unfold bind, time_sleep, modify. simpl.
      rewrite IH; simpl; rewrite ?length_app; simpl.
      * rewrite <- Nat.add_assoc. simpl. rewrite <- !app_assoc. reflexivity.
      * intros i Hi. rewrite <- Nat.add_assoc. apply (Hk (S i)). lia.
      * rewrite <- Nat.add_assoc. exact Hn.
      * lia.
  - intros srv limit depth. induction depth as [|d IH]; intros n0 Hk.
    + simpl. unfold raise. rewrite !app_nil_r. destruct n0; reflexivity.
    + simpl get_tickers. unfold bind at 1, requests_get.
      pose proof (Hk 0 (Nat.lt_0_succ _)) as H0. rewrite Nat.add_0_r in H0.
      destruct (srv (List.length (sent n0))) as [e|status body]; simpl in H0;
        [discriminate|].
      rewrite H0. unfold bind, time_sleep, modify. simpl.
      rewrite IH; simpl; rewrite ?length_app; simpl.
      * rewrite <- !app_assoc. reflexivity.
      * intros i Hi. rewrite <- Nat.add_assoc. apply (Hk (S i)). lia.
  - intros srv limit n0. unfold get_coins_markets, bind, requests_get.
    destruct (srv (List.length (sent n0))); reflexivity.
  - reflexivity.
  - intros status body Hs. simpl. unfold read_response, raise_for_status.
    replace ((400 <=? status)%Z && (status <? 600)%Z) with true; [reflexivity|].
    symmetry. apply andb_true_iff. split; [apply Z.leb_le | apply Z.ltb_lt]; lia.
Qed.

(** ** Rows of the file *)

Section FileRows.
Context `{PyLib}.


Lemma field_name_text s i : field_name (VStr s) = Some i -> i = PyStr.strip s.
Proof.
  unfold field_name, coerce_str, validate_not_empty, opt_bind.
  destruct (_ || _); [discriminate|]. intros [= <-]. reflexivity.
Qed.

Lemma field_amount_float f m : field_amount (VFloat f) = Some m -> m = Some f.
Proof.
  unfold field_amount, coerce_float, opt_bind.
  destruct (PyFloat.leb PyFloat.zero f); [|discriminate].
  apply positive_numbers_keeps.
Qed.

Lemma field_amount_none m : field_amount VNone = Some m -> m = None.
Proof. intros [= <-]. reflexivity. Qed.

Lemma field_price_float f p : field_price (VFloat f) = Some p -> p = f.
Proof.
  unfold field_price, coerce_float, opt_bind.
  destruct (PyFloat.ltb PyFloat.zero f); [|discriminate].
  destruct (validate_positive_numbers (Some f)); [|discriminate].
  intros [= <-]. reflexivity.
Qed.


Lemma number_of_parse v f : number_of v = Some f <-> parse_number v = Ok f.
Proof.
  unfold number_of, parse_number. destruct (py_str v) as [s|e].
  - destruct (PyFloat.of_string _) as [g|]; split; intros E;
      try discriminate E; injection E as <-; reflexivity.
  - split; discriminate.
Qed.

(** The record made of a row that [csv_item] accepts. *)
Lemma csv_item_ok item t c t' :
  csv_item item t = (Ok c, t') ->
  let price := chosen item "price_usd" "price" (VStr "0") in
  let cap := chosen item "market_cap_usd" "market_cap" VNone in
  let vol := chosen item "volume_24h_usd" "volume" VNone in
  truthy price = true /\ number_of price = Some (price_usd c)
  /\ (if truthy cap then
        number_of cap = market_cap_usd c /\ market_cap_usd c <> None
      else market_cap_usd c = None)
  /\ (if truthy vol then
        number_of vol = volume_24h_usd c /\ volume_24h_usd c <> None
      else volume_24h_usd c = None)
  /\ (exists i, py_str (dict_get item "id" (VStr "")) = Ok i
                /\ crypto_id c = PyStr.strip (PyStr.lower i))
  /\ (exists n, py_str (dict_get item "name" (VStr "")) = Ok n
                /\ crypto_name c = PyStr.strip n).
Proof.
  unfold csv_item, chosen, py_or, bind, lift, ret.
  set (price := if truthy (dict_get item "price_usd" VNone) then _ else _).
  set (cap := if truthy (dict_get item "market_cap_usd" VNone) then _ else _).
  set (vol := if truthy (dict_get item "volume_24h_usd" VNone) then _ else _).
  intros E. simpl.
  assert (G : forall pf capv volv i n t0,
             construct (VStr (PyStr.strip (PyStr.lower i))) (VStr (PyStr.strip n))
               (VFloat pf) capv volv VNone "csv" t0 = (Ok c, t') ->
             price_usd c = pf
             /\ PyFloat.ltb PyFloat.zero pf = true
             /\ field_amount capv = Some (market_cap_usd c)
             /\ field_amount volv = Some (volume_24h_usd c)
             /\ crypto_id c = PyStr.strip (PyStr.lower i)
             /\ crypto_name c = PyStr.strip n).
  { intros pf capv volv i n t0 K. apply construct_ok in K as [K _].
    unfold new_CryptoData, opt_bind in K.
    destruct (field_name (VStr (PyStr.strip (PyStr.lower i)))) as [i'|] eqn:Ei;
      [|discriminate].
    destruct (field_name (VStr (PyStr.strip n))) as [n'|] eqn:En; [|discriminate].
    destruct (field_price (VFloat pf)) as [p|] eqn:Ep; [|discriminate].
    destruct (field_amount capv) as [m|]; [|discriminate].
    destruct (field_amount volv) as [v|]; [|discriminate].
    simpl in K. injection K as <-. simpl.
    apply field_name_text in Ei, En. rewrite strip_idem in Ei, En.
    pose proof (field_price_valid _ _ Ep) as Hp.
    apply field_price_float in Ep. subst p. repeat split; assumption. }
  destruct (truthy price) eqn:Tp.
  2:{ exfalso.
      destruct (truthy cap); destruct (truthy vol); cbv beta iota zeta in E;
        repeat match type of E with
               | context [parse_number ?v] =>
                   destruct (parse_number v);
                   cbv beta iota zeta in E; [|discriminate E]
               | context [py_str ?v] =>
                   destruct (py_str v);
                   cbv beta iota zeta in E; [|discriminate E]
               end;
        apply G in E; destruct E as (_ & E & _); discriminate. }
  destruct (truthy cap) eqn:Tc; destruct (truthy vol) eqn:Tv;
    cbv beta iota zeta in E;
    repeat match type of E with
           | context [parse_number ?v] =>
               let N := fresh "N" in
               destruct (parse_number v) eqn:N;
               cbv beta iota zeta in E;
               [apply number_of_parse in N | discriminate E]
           | context [py_str ?v] =>
               destruct (py_str v);
               cbv beta iota zeta in E; [|discriminate E]
           end;
    apply G in E; destruct E as (Ep & _ & Ec & Ev & Ei & En);
    repeat match goal with
           | K : field_amount (VFloat _) = Some _ |- _ => apply field_amount_float in K
           | K : field_amount VNone = Some _ |- _ => apply field_amount_none in K
           end;
    rewrite ?Ec, ?Ev; subst;
    (split; [reflexivity|]); (split; [assumption|]);
    (split; [first [split; [assumption | discriminate] | reflexivity]|]);
    (split; [first [split; [assumption | discriminate] | reflexivity]|]);
    (split; eexists; (split; [reflexivity | assumption])).
Qed.

End FileRows.


(** ** Batches *)

Section Batches.
Context `{PyLib}.
Variable body : pydict -> M time CryptoData.
Variable caught : exn_class -> bool.

Lemma transform_loop_from raw acc errs t :
  transform_loop body caught raw acc errs t
  = after_batch acc errs (transform_loop body caught raw [] 0 t).
Proof.
  revert acc errs t. induction raw as [|item rest IH]; intros acc errs t; simpl.
  - unfold ret. simpl. rewrite app_nil_r, Nat.add_0_r. reflexivity.
  - destruct (body item t) as [[c|e] t1].
    + rewrite (IH (acc ++ [c])), (IH [c]).
      destruct (transform_loop body caught rest [] 0 t1) as [[[out n]|e] t2];
        simpl; [|reflexivity].
      rewrite <- app_assoc. reflexivity.
    + destruct (caught (cls e)); [|reflexivity].
      destruct (print_skipped item); [|reflexivity].
      rewrite (IH acc (S errs)), (IH [] 1).
      destruct (transform_loop body caught rest [] 0 t1) as [[[out n]|e'] t2];
        simpl; [|reflexivity].
      rewrite Nat.add_succ_r. reflexivity.
Qed.

Lemma transform_loop_concat a b t :
  transform_loop body caught (a ++ b) [] 0 t
  = match transform_loop body caught a [] 0 t with
    | (Ok (out, n), t1) => after_batch out n (transform_loop body caught b [] 0 t1)
    | (Raise e, t1) => (Raise e, t1)
    end.
Proof.
  rewrite transform_loop_app.
  destruct (transform_loop body caught a [] 0 t) as [[[out n]|e] t1];
    [|reflexivity].
  apply transform_loop_from.
Qed.
End Batches.

(** X1. A batch can be split: transforming [a ++ b] gives what transforming
    [a] and then [b] gives, the records of [a] before those of [b] and the
    error counts added; an exception that stops [a] or [b] stops the whole
    the same way. *)
Theorem transform_splits_over_batches `{PyLib} (s : source_tag) a b t :
  transform_of s (a ++ b) t
  = match transform_of s a t with
    | (Ok (out, n), t1) => after_batch out n (transform_of s b t1)
    | (Raise e, t1) => (Raise e, t1)
    end.
Proof. destruct s; apply transform_loop_concat. Qed.


(** ** Records and their fields *)

Section Fields.
Context `{PyLib}.

Lemma construct_source id name price mc vol chg src t c t' :
  construct id name price mc vol chg src t = (Ok c, t') -> source c = src.
Proof.
  intros E. apply construct_ok in E as [E _]. revert E.
  unfold new_CryptoData, opt_bind.
  destruct (field_name id); [|discriminate].
  destruct (field_name name); [|discriminate].
  destruct (field_price price); [|discriminate].
  destruct (field_amount mc); [|discriminate].
  destruct (field_amount vol); [|discriminate].
  destruct (field_change chg); [|discriminate].
  intros [= <-]. reflexivity.
Qed.

Lemma item_source s item t c t' :
  (match s with
   | Coinpaprika => coinpaprika_item item
   | Coingecko => coingecko_item item
   | Csv => csv_item item
   end) t = (Ok c, t') ->
  source c = name_of s.
Proof.
  destruct s; simpl.
  - unfold coinpaprika_item, bind, lift.
    destruct (attr_get _ "USD" _) as [q|]; [|discriminate].
    destruct (attr_get q "price" _); [|discriminate].
    destruct (attr_get q "market_cap" _); [|discriminate].
    destruct (attr_get q "volume_24h" _); [|discriminate].
    destruct (attr_get q "percent_change_24h" _); [|discriminate].
    apply construct_source.
  - apply construct_source.
  - unfold csv_item, bind, lift, ret.
    repeat match goal with
           | |- context [if truthy ?v then _ else _] => destruct (truthy v)
           | |- context [parse_number ?v] => destruct (parse_number v)
           | |- context [py_str ?v] => destruct (py_str v)
           end;
      try discriminate; apply construct_source.
Qed.



End Fields.

(** X3. Every record of a transformer's output carries the transformer's
    own source tag, the name under which [run] knows the source; so does
    every cleaned row that an ingestion commits. *)
Theorem records_carry_their_source `{PyLib} (s : source_tag) :
  (forall raw t out n t',
      transform_of s raw t = (Ok (out, n), t') ->
      Forall (fun c => source c = name_of s) out)
  /\ (forall env w k w',
         ingest_source env s w = (Ok k, w') ->
         exists rows,
           cleaned_data (stored (db w')) = cleaned_data (view (db w)) ++ rows
           /\ Z.of_nat (List.length rows) = k
           /\ Forall (fun r => data_source r = name_of s) rows).
Proof.
  assert (T : forall raw t out n t',
             transform_of s raw t = (Ok (out, n), t') ->
             Forall (fun c => source c = name_of s) out).
  { intros raw t out n t' E.
    destruct s; simpl in E;
      (eapply transform_loop_Forall; [| |exact E]; [|constructor]);
      intros item t0 c t1.
    - apply (item_source Coinpaprika).
    - apply (item_source Coingecko).
    - apply (item_source Csv). }
  split; [exact T|].
  intros env w k w' E.
  assert (G : exists raw out errs t,
             transform_of s raw (clock w) = (Ok (out, errs), t)
             /\ k = Z.of_nat (List.length out)
             /\ cleaned_data (stored (db w'))
                = cleaned_data (view (db w)) ++ map cleaned_of out).
  { destruct s; unfold ingest_source, ingest_from_coinpaprika,
      ingest_from_coingecko, ingest_from_csv in E;
      apply ingest_ok in E; try reflexivity;
      destruct E as (raw & out & errs & t & _ & Et & En & Ec & _);
      exists raw, out, errs, t; repeat split; assumption. }
  destruct G as (raw & out & errs & t & Et & -> & Ec).
  exists (map cleaned_of out). split; [exact Ec|].
  split; [rewrite length_map; reflexivity|].
  apply Forall_map. eapply Forall_impl; [|exact (T _ _ _ _ _ Et)].
  intros c Hc. exact Hc.
Qed.


(** ** An id above the limit on digits *)

(** An integer not below [10 ^ k] has more than [k] digits. *)
Lemma digits_pos_length fuel :
  forall z acc k,
    (10 ^ Z.of_nat k <= z)%Z ->
    (Z.log2 z < Z.of_nat fuel)%Z ->
    k + 1 + List.length acc <= List.length (PyStr.digits_pos fuel z acc).
Proof.
  induction fuel as [|f IH]; intros z acc k Hk Hf.
  - pose proof (Z.log2_nonneg z). lia.
  - assert (Hz : (0 < z)%Z).
    { pose proof (Z.pow_pos_nonneg 10 (Z.of_nat k)). lia. }
    simpl PyStr.digits_pos. destruct (z <? 10)%Z eqn:E.
    + apply Z.ltb_lt in E. destruct k as [|k]; [simpl; lia|].
      exfalso. rewrite Nat2Z.inj_succ, Z.pow_succ_r in Hk by lia.
      pose proof (Z.pow_pos_nonneg 10 (Z.of_nat k)). lia.
    + apply Z.ltb_ge in E.
      assert (Hq : (1 <= z / 10)%Z)
        by (apply Z.div_le_lower_bound; lia).
      assert (Hl : (Z.log2 (z / 10) < Z.of_nat f)%Z).
      { assert (H2 : (Z.log2 (2 * (z / 10)) <= Z.log2 z)%Z).
        { apply Z.log2_le_mono.
          pose proof (Z.mul_div_le z 10). lia. }
        rewrite Z.log2_double in H2 by lia. lia. }
      destruct k as [|k].
      * specialize (IH (z / 10)%Z (PyStr.digit_char (z mod 10) :: acc) 0).
        simpl in IH |- *. apply Nat.le_trans with (2 := IH ltac:(lia) Hl). lia.
      * specialize (IH (z / 10)%Z (PyStr.digit_char (z mod 10) :: acc) k).
        assert (Hk' : (10 ^ Z.of_nat k <= z / 10)%Z).
        { apply Z.div_le_lower_bound; [lia|].
          rewrite Nat2Z.inj_succ, Z.pow_succ_r in Hk by lia. exact Hk. }
        simpl in IH |- *. apply Nat.le_trans with (2 := IH Hk' Hl). lia.
Qed.

Lemma string_of_list_length l :
  String.length (string_of_list_ascii l) = List.length l.
Proof. induction l as [|c r IH]; simpl; [reflexivity | rewrite IH; reflexivity]. Qed.

Lemma of_Z_length z k :
  (10 ^ Z.of_nat k <= z)%Z -> k < String.length (PyStr.of_Z z).
Proof.
  intros Hk.
  assert (Hz : (0 < z)%Z).
  { pose proof (Z.pow_pos_nonneg 10 (Z.of_nat k)). lia. }
  unfold PyStr.of_Z. replace (z <? 0)%Z with false by (symmetry; apply Z.ltb_ge; lia).
  rewrite Z.abs_eq by lia. rewrite string_of_list_length.
  pose proof (digits_pos_length (S (Z.to_nat (Z.log2 z))) z [] k Hk) as G.
  assert (Hf : (Z.log2 z < Z.of_nat (S (Z.to_nat (Z.log2 z))))%Z).
  { pose proof (Z.log2_nonneg z). lia. }
  specialize (G Hf). change (List.length (@nil ascii)) with 0 in G. lia.
Qed.

Lemma int_str_above_limit `{PyLib} z :
  0 < int_max_str_digits ->
  int_max_str_digits < String.length (PyStr.of_Z (Z.abs z)) ->
  int_str z = Raise int_str_error.
Proof.
  intros H0 H1. unfold int_str.
  apply Nat.ltb_lt in H0, H1. rewrite H0, H1. reflexivity.
Qed.

Lemma construct_int_id `{PyLib} z name price mc vol chg src t :
  construct (VInt z) name price mc vol chg src t = (Raise validation_error, S t).
Proof. reflexivity. Qed.

(** X16. An item whose id is an integer above the interpreter's limit on
    digits stops every transformer, wherever it is in the batch: no
    transformer makes a record of it, and the handler that skips it raises in
    turn when it prints the id. *)
Theorem unprintable_id_stops_the_batch `{PyLib} (s : source_tag)
    before item rest t z :
  lookup item "id" = Some (VInt z) ->
  0 < int_max_str_digits ->
  int_max_str_digits < String.length (PyStr.of_Z (Z.abs z)) ->
  (exists e t', transform_of s (before ++ item :: rest) t = (Raise e, t'))
  /\ (s = Coingecko ->
      exists t', transform_of s (item :: rest) t = (Raise int_str_error, t')).
Proof.
  intros Hid H0 H1.
  pose proof (int_str_above_limit z H0 H1) as Hz.
  assert (Hp : print_skipped item = Raise int_str_error).
  { unfold print_skipped, dict_get. rewrite Hid. simpl. rewrite Hz. reflexivity. }
  assert (G : forall body caught,
             (forall t0 c t1, body item t0 <> (Ok c, t1)) ->
             exists e t',
               transform_loop body caught (before ++ item :: rest) [] 0 t
               = (Raise e, t')).
  { intros body caught Hb. rewrite transform_loop_app.
    destruct (transform_loop body caught before [] 0 t) as [[[out n]|e] t1].
    - simpl. destruct (body item t1) as [[c|e] t2] eqn:E.
      + exfalso. exact (Hb _ _ _ E).
      + destruct (caught (cls e)).
        * rewrite Hp. exists int_str_error, t2. reflexivity.
        * exists e, t2. reflexivity.
    - exists e, t1. reflexivity. }
  split.
  - destruct s; simpl; apply G; intros t0 c t1 E.
    + unfold coinpaprika_item, bind, lift, dict_get in E. rewrite Hid in E.
      destruct (attr_get _ "USD" _) as [q|]; [|discriminate].
      destruct (attr_get q "price" _); [|discriminate].
      destruct (attr_get q "market_cap" _); [|discriminate].
      destruct (attr_get q "volume_24h" _); [|discriminate].
      destruct (attr_get q "percent_change_24h" _); [|discriminate].
      rewrite construct_int_id in E. discriminate.
    + unfold coingecko_item, dict_get in E. rewrite Hid in E.
      rewrite construct_int_id in E. discriminate.
    + apply csv_item_ok in E as (_ & _ & _ & _ & (i & Hi & _) & _).
      unfold dict_get in Hi. rewrite Hid in Hi. simpl in Hi.
      rewrite Hz in Hi. discriminate.
  - intros ->. unfold transform_of, transform_coingecko. simpl transform_loop.
    unfold coingecko_item, dict_get. rewrite Hid.
    rewrite construct_int_id. simpl. rewrite Hp. exists (S t). reflexivity.
Qed.

(** ** Normal forms of the text fields *)

Lemma lower_char_idem c : PyStr.lower_char (PyStr.lower_char c) = PyStr.lower_char c.
Proof.
  destruct c as [b0 b1 b2 b3 b4 b5 b6 b7].
  destruct b0, b1, b2, b3, b4, b5, b6, b7; reflexivity.
Qed.

Lemma drop_while_Forall (P : ascii -> Prop) p l :
  Forall P l -> Forall P (PyStr.drop_while p l).
Proof.
  induction 1 as [|c r Hc Hr IH]; simpl; [constructor|].
  destruct (p c); [exact IH | constructor; assumption].
Qed.

Lemma strip_with_Forall (P : ascii -> Prop) p l :
  Forall P l -> Forall P (PyStr.strip_with p l).
Proof.
  intros Hl. unfold PyStr.strip_with, PyStr.rstrip_with, PyStr.lstrip_with.
  apply Forall_rev, drop_while_Forall, Forall_rev, drop_while_Forall, Hl.
Qed.

Lemma map_fixed {A} (f : A -> A) l : Forall (fun x => f x = x) l -> map f l = l.
Proof. induction 1 as [|x r Hx _ IH]; simpl; [reflexivity | rewrite Hx, IH; reflexivity]. Qed.

Lemma lower_strip_lower s :
  PyStr.lower (PyStr.strip (PyStr.lower s)) = PyStr.strip (PyStr.lower s).
Proof.
  unfold PyStr.lower, PyStr.strip.
  rewrite !list_ascii_of_string_of_list_ascii. f_equal.
  apply map_fixed, strip_with_Forall.
  apply Forall_map, Forall_forall. intros c _. apply lower_char_idem.
Qed.

(** X5. The identifier of every record that [transform_csv] puts out is in
    lower case and has no white space at either end, and its name has none
    either: lowering or trimming them again changes nothing. *)
Theorem csv_identifiers_are_normalised `{PyLib} raw t out n t' :
  transform_csv raw t = (Ok (out, n), t') ->
  Forall (fun c => PyStr.lower (crypto_id c) = crypto_id c
                   /\ PyStr.strip (crypto_id c) = crypto_id c
                   /\ PyStr.strip (crypto_name c) = crypto_name c) out.
Proof.
  intros E. eapply transform_loop_Forall; [| |exact E]; [|constructor].
  intros item t0 c t1 Ei.
  apply csv_item_ok in Ei as (_ & _ & _ & _ & (i & _ & ->) & (m & _ & ->)).
  rewrite lower_strip_lower, !strip_idem. repeat split.
Qed.

(** ** Validation once more *)

Lemma above_zero_not_below p :
  PyFloat.ltb PyFloat.zero p = true -> PyFloat.ltb p PyFloat.zero = false.
Proof. destruct p as [s|s| |s m e]; try destruct s; simpl; intros E; try discriminate E; reflexivity. Qed.

Section Again.
Context `{PyLib}.

Lemma field_name_again v i : field_name v = Some i -> field_name (VStr i) = Some i.
Proof.
  unfold field_name, coerce_str, validate_not_empty, opt_bind.
  destruct v; try discriminate.
  destruct (String.eqb s "" || String.eqb (PyStr.strip s) "") eqn:E; [discriminate|].
  intros [= <-]. rewrite strip_idem.
  apply orb_false_iff in E as [_ E]. rewrite E. reflexivity.
Qed.

Lemma field_price_again v p : field_price v = Some p -> field_price (VFloat p) = Some p.
Proof.
  intros E. pose proof (field_price_valid _ _ E) as V.
  unfold field_price, coerce_float, opt_bind, validate_positive_numbers.
  rewrite V, (above_zero_not_below _ V). reflexivity.
Qed.

Lemma field_amount_again v m :
  field_amount v = Some m -> field_amount (dump_float m) = Some m.
Proof.
  assert (G : forall f, (if PyFloat.leb PyFloat.zero f
                         then validate_positive_numbers (Some f) else None) = Some m ->
                        field_amount (dump_float m) = Some m).
  { intros f. destruct (PyFloat.leb PyFloat.zero f) eqn:L; [|discriminate].
    intros E. pose proof (positive_numbers_keeps _ _ E) as ->.
    simpl. unfold opt_bind, coerce_float. rewrite L. exact E. }
  unfold field_amount at 1, opt_bind.
  destruct v; try (destruct (coerce_float _); [apply G | discriminate]).
  intros E. apply positive_numbers_keeps in E. subst m. reflexivity.
Qed.

Lemma field_change_again v g :
  field_change v = Some g -> field_change (dump_float g) = Some g.
Proof.
  unfold field_change at 1, opt_bind.
  destruct v; try (destruct (coerce_float _); [|discriminate]);
    intros [= <-]; reflexivity.
Qed.
End Again.

(** X6. Validation is idempotent: a record that the constructor of
    [CryptoData] returned, given back to the constructor field by field, is
    accepted and comes back unchanged.  The validators trim once and for
    all. *)
Theorem validated_record_validates_again `{PyLib}
    id name price market_cap volume change src ts c :
  new_CryptoData id name price market_cap volume change src ts = Some c ->
  new_CryptoData (VStr (crypto_id c)) (VStr (crypto_name c))
                 (VFloat (price_usd c)) (dump_float (market_cap_usd c))
                 (dump_float (volume_24h_usd c))
                 (dump_float (change_24h_percent c))
                 (source c) (timestamp c)
  = Some c.
Proof.
  unfold new_CryptoData at 1. unfold opt_bind.
  destruct (field_name id) as [i|] eqn:Ei; [|discriminate].
  destruct (field_name name) as [n|] eqn:En; [|discriminate].
  destruct (field_price price) as [p|] eqn:Ep; [|discriminate].
  destruct (field_amount market_cap) as [m|] eqn:Em; [|discriminate].
  destruct (field_amount volume) as [v|] eqn:Ev; [|discriminate].
  destruct (field_change change) as [g|] eqn:Eg; [|discriminate].
  intros [= <-]. simpl. unfold new_CryptoData, opt_bind.
  rewrite (field_name_again _ _ Ei), (field_name_again _ _ En),
    (field_price_again _ _ Ep), (field_amount_again _ _ Em),
    (field_amount_again _ _ Ev), (field_change_again _ _ Eg).
  reflexivity.
Qed.

(** ** Checkpoints of other sources *)

Section OtherRows.
Context {A : Type}.
Variables p q : A -> bool.
Variable f : A -> A.
Hypothesis apart : forall x, p x = true -> q x = false.
Hypothesis kept : forall x, q (f x) = q x.

Lemma filter_update_first_other l : filter q (update_first p f l) = filter q l.
Proof.
  induction l as [|x r IH]; simpl; [reflexivity|].
  destruct (p x) eqn:E; simpl.
  - rewrite kept, (apart x E). reflexivity.
  - rewrite IH. reflexivity.
Qed.
End OtherRows.

Lemma update_nth_length {A} (f : A -> A) n l :
  List.length (update_nth n f l) = List.length l.
Proof.
  revert n. induction l as [|x r IH]; intros n; destruct n; simpl;
    try reflexivity.
  rewrite IH. reflexivity.
Qed.

(** X7. Writing a checkpoint and reading it back gives the cursor written;
    the rows and the cursors of every other source stay as they were; and a
    write whose commit fails leaves the committed tables untouched. *)
Theorem checkpoint_write_then_read env source last_id w :
  (forall w',
      update_checkpoint env source last_id w = (Ok tt, w') ->
      get_checkpoint source w' = (Ok last_id, w')
      /\ forall other,
           other <> source ->
           rows_for other (stored (db w')) = rows_for other (view (db w))
           /\ fst (get_checkpoint other w') = fst (get_checkpoint other w))
  /\ (forall e w',
         update_checkpoint env source last_id w = (Raise e, w') ->
         stored (db w') = stored (db w)).
Proof.
  split.
  - intros w' E.
    pose proof (update_checkpoint_ok env source last_id w w' E)
      as (Hs & (c & Hf & Hid) & _).
    split.
    { unfold get_checkpoint, first_checkpoint, bind, gets, ret.
      rewrite Hs, Hf, Hid. reflexivity. }
    intros other Ho.
    assert (R : rows_for other (stored (db w')) = rows_for other (view (db w))).
    { revert E. unfold update_checkpoint, first_checkpoint. intros E.
      apply bind_ok in E as (ck & w1 & E1 & E). injection E1 as <- <-.
      apply bind_ok in E as ([] & w2 & E2 & E).
      apply commit_ok in E as [_ ->].
      assert (Ha : forall x, source_is source x = true -> source_is other x = false).
      { intros x Hx. unfold source_is in *. apply String.eqb_eq in Hx.
        rewrite Hx. apply String.eqb_neq. congruence. }
      destruct (find (source_is source) (etl_checkpoints (view (db w)))).
      - injection E2 as <-. unfold rows_for. simpl.
        apply filter_update_first_other; [exact Ha | reflexivity].
      - injection E2 as <-. unfold rows_for. simpl.
        rewrite filter_app. simpl. unfold source_is at 2. simpl.
        replace (String.eqb source other) with false
          by (symmetry; apply String.eqb_neq; congruence).
        apply app_nil_r. }
    split; [exact R|].
    unfold get_checkpoint, first_checkpoint, bind, gets, ret. simpl.
    rewrite Hs, !find_hd_filter. unfold rows_for in R. rewrite R. reflexivity.
  - intros e w'. unfold update_checkpoint, first_checkpoint, bind, gets, now,
      on_clock, utcnow, modify, commit.
    destruct (find (source_is source) (etl_checkpoints (view (db w)))); simpl;
      destruct (commit_fault env AtCheckpoint (commits w)); simpl;
      intros [= _ <-]; reflexivity.
Qed.

(** X8. [end_run] after [start_run] closes the run that [start_run] opened:
    the committed run table is the one before with a single new row, which
    holds the label, the two times, the count, the flag and the message; the
    other tables are as the session had them.  [end_run] before any
    [start_run] does nothing, and [end_run] never adds or removes a run. *)
Theorem end_run_closes_started_run env label processed succeeded error w :
  (commit_fault env AtStartRun (commits w) = None ->
   commit_fault env AtEndRun (S (commits w)) = None ->
   exists w1 w2,
     start_run env label w = (Ok tt, w1)
     /\ end_run env processed succeeded error w1 = (Ok tt, w2)
     /\ run_id w2 = Some (S (List.length (etl_runs (view (db w)))))
     /\ stored (db w2)
        = set_runs (fun _ => etl_runs (view (db w))
                             ++ [finished label (clock w) (S (clock w))
                                          processed succeeded error])
                   (view (db w)))
  /\ (run_id w = None -> end_run env processed succeeded error w = (Ok tt, w))
  /\ List.length (etl_runs (view (db (snd (end_run env processed succeeded error w)))))
     = List.length (etl_runs (view (db w))).
Proof.
  split; [|split].
  - intros H1 H2.
    destruct (start_run_ok env label w H1) as (w1 & E1 & Hs & Hst & Hid & _).
    assert (Hc : commits w1 = S (commits w) /\ clock w1 = S (clock w)).
    { revert E1. unfold start_run, bind, now, on_clock, utcnow, modify, commit, gets.
      simpl. rewrite H1. intros [= <-]. split; reflexivity. }
    destruct Hc as [Hc Hk].
    destruct (end_run_ok env processed succeeded error w1
                (List.length (etl_runs (view (db w)))) (started label (clock w)) Hid)
      as (w2 & E2 & Hst2 & _).
    + rewrite Hs, Hst. simpl. apply nth_error_last.
    + rewrite Hc. exact H2.
    + exists w1, w2. split; [exact E1|]. split; [exact E2|]. split.
      * revert E2. unfold end_run, bind, gets. rewrite Hid.
        destruct (nth_error _ _); unfold ret, now, on_clock, utcnow, modify, commit;
          simpl; [|intros [= <-]; exact Hid].
        destruct (commit_fault env AtEndRun (commits w1)); intros [= <-]; exact Hid.
      * rewrite Hst2, Hs, Hst, Hk. unfold set_runs. simpl.
        rewrite update_nth_last. reflexivity.
  - intros Hn. unfold end_run, bind, gets. rewrite Hn. reflexivity.
  - unfold end_run, bind, gets, ret, now, on_clock, utcnow, modify, commit.
    destruct (run_id w) as [[|k]|]; simpl; try reflexivity.
    destruct (nth_error (etl_runs (view (db w))) k); simpl; try reflexivity.
    destruct (commit_fault env AtEndRun (commits w)); simpl;
      apply update_nth_length.
Qed.

(** ** The paths of an ingestion *)

Lemma store_raw_eq row raw w :
  store_raw row raw w
  = (Ok tt, set_view (fun t => fold_left (fun t item => row item t) raw t) w).
Proof.
  revert w. induction raw as [|item rest IH]; intros w; simpl.
  - destruct w as [[st vw] rid stt clk cm att]. reflexivity.
  - unfold bind, modify. rewrite IH. reflexivity.
Qed.

Lemma load_eq l n w :
  load l n w
  = (Ok (n + Z.of_nat (List.length l))%Z,
     set_view (fun t => fold_left (fun t c => add_cleaned (cleaned_of c) t) l t) w).
Proof.
  revert n w. induction l as [|c r IH]; intros n w; simpl load.
  - unfold ret. simpl. rewrite Z.add_0_r.
    destruct w as [[st vw] rid stt clk cm att]. reflexivity.
  - unfold bind, modify. rewrite IH. f_equal. f_equal.
    rewrite length_cons. lia.
Qed.

(** What a call of [update_checkpoint] comes to, by the fault of its
    commit. *)
Lemma update_checkpoint_cases env source last_id w :
  let '(r, w') := update_checkpoint env source last_id w in
  commits w' = S (commits w)
  /\ run_id w' = run_id w /\ attempts w' = attempts w
  /\ (exists f, view (db w') = set_checkpoints f (view (db w)))
  /\ match commit_fault env AtCheckpoint (commits w) with
     | None => r = Ok tt /\ stored (db w') = view (db w')
     | Some e => r = Raise e /\ stored (db w') = stored (db w)
     end.
Proof.
  unfold update_checkpoint, first_checkpoint, bind, gets, now, on_clock, utcnow,
    modify, commit.
  destruct (find (source_is source) (etl_checkpoints (view (db w)))); simpl;
    destruct (commit_fault env AtCheckpoint (commits w)); simpl;
    repeat split; eexists; reflexivity.
Qed.

Section Paths.
Variable env : Env.
Variable s : source_tag.
Variable limit : option Z.
Variable row : pydict -> Tables -> Tables.
Variable transform : list pydict -> M time (list CryptoData * nat).
Variable name : string.

(** The six ways an ingestion can go. *)
Lemma ingest_paths w :
  ingest env s limit row transform name w
  = let c := commits w in
    let w1 := set_attempts (attempts w ++ [s]) w in
    match extract env s limit (List.length (attempts w)) with
    | Raise e => (Raise e, set_db rolled_back w1)
    | Ok raw =>
        let w2 := set_commits (S c)
                    (set_view (fun t => fold_left (fun t item => row item t) raw t) w1) in
        match commit_fault env AtRawStore c with
        | Some e => (Raise e, set_db rolled_back w2)
        | None =>
            match transform raw (clock w) with
            | (Raise e, t) => (Raise e, set_db rolled_back (set_clock t (set_db committed w2)))
            | (Ok out, t) =>
                let w3 :=
                  set_commits (S (S c))
                    (set_view (fun tb => fold_left
                                 (fun tb x => add_cleaned (cleaned_of x) tb) (fst out) tb)
                              (set_clock t (set_db committed w2))) in
                match commit_fault env AtLoad (S c) with
                | Some e => (Raise e, set_db rolled_back w3)
                | None =>
                    match update_checkpoint env name
                            (Z.of_nat (List.length (fst out))) (set_db committed w3) with
                    | (Ok _, w4) => (Ok (Z.of_nat (List.length (fst out))), w4)
                    | (Raise e, w4) => (Raise e, set_db rolled_back w4)
                    end
                end
            end
        end
    end.
Proof.
  unfold ingest, try_except, bind, fetch, rollback, modify, raise, ret.
  destruct (extract env s limit (List.length (attempts w))) as [raw|e]; [|reflexivity].
  rewrite store_raw_eq. unfold commit at 1. simpl.
  destruct (commit_fault env AtRawStore (commits w)); [reflexivity|].
  unfold on_clock at 1. simpl.
  destruct (transform raw (clock w)) as [[out|e] t]; [|reflexivity].
  rewrite load_eq. unfold commit at 1. simpl.
  destruct (commit_fault env AtLoad (S (commits w))); [reflexivity|].
  match goal with
  | |- context [update_checkpoint env name ?n ?w0] =>
      destruct (update_checkpoint env name n w0) as [[[]|e] w4]
  end; reflexivity.
Qed.
End Paths.

(** ** What an ingestion leaves in the tables *)

Lemma ingest_source_eq `{PyLib} env s :
  ingest_source env s
  = ingest env s (limit_of s)
      (raw_row s) (transform_of s) (name_of s).
Proof. destruct s; reflexivity. Qed.

Lemma fold_cleaned l t :
  fold_left (fun t c => add_cleaned (cleaned_of c) t) l t
  = {| raw_api_data := raw_api_data t; raw_csv_data := raw_csv_data t;
       cleaned_data := cleaned_data t ++ map cleaned_of l;
       etl_checkpoints := etl_checkpoints t; etl_runs := etl_runs t |}.
Proof.
  revert t. induction l as [|c l IH]; intros t; simpl.
  - rewrite app_nil_r. destruct t; reflexivity.
  - rewrite IH. unfold add_cleaned. simpl. rewrite <- app_assoc. reflexivity.
Qed.

Lemma fold_raw_api tag l t :
  fold_left (fun t item => add_raw_api {| api_source := tag; api_raw_data := item |} t) l t
  = {| raw_api_data := raw_api_data t
                       ++ map (fun item => {| api_source := tag; api_raw_data := item |}) l;
       raw_csv_data := raw_csv_data t;
       cleaned_data := cleaned_data t;
       etl_checkpoints := etl_checkpoints t; etl_runs := etl_runs t |}.
Proof.
  revert t. induction l as [|c l IH]; intros t; simpl.
  - rewrite app_nil_r. destruct t; reflexivity.
  - rewrite IH. unfold add_raw_api. simpl. rewrite <- app_assoc. reflexivity.
Qed.

Lemma fold_raw_csv l t :
  fold_left (fun t item => add_raw_csv {| csv_raw_data := item |} t) l t
  = {| raw_api_data := raw_api_data t;
       raw_csv_data := raw_csv_data t
                       ++ map (fun item => {| csv_raw_data := item |}) l;
       cleaned_data := cleaned_data t;
       etl_checkpoints := etl_checkpoints t; etl_runs := etl_runs t |}.
Proof.
  revert t. induction l as [|c l IH]; intros t; simpl.
  - rewrite app_nil_r. destruct t; reflexivity.
  - rewrite IH. unfold add_raw_csv. simpl. rewrite <- app_assoc. reflexivity.
Qed.

(** The tables after the raw rows of a source were added. *)
Lemma fold_raw s l t :
  let t' := fold_left (fun t item => raw_row s item t) l t in
  raw_items s t' = raw_items s t ++ l
  /\ (forall s', s' <> s -> raw_items s' t' = raw_items s' t)
  /\ cleaned_data t' = cleaned_data t
  /\ etl_checkpoints t' = etl_checkpoints t
  /\ etl_runs t' = etl_runs t.
Proof.
  assert (Hid : forall (A : Type) (l : list A), map (fun x => x) l = l)
    by (intros A l0; apply map_id).
  assert (Hno : forall tag tag' (l0 : list pydict), String.eqb tag tag' = false ->
            filter (fun r => String.eqb (api_source r) tag')
                   (map (fun item => {| api_source := tag; api_raw_data := item |}) l0) = []).
  { intros tag tag' l0 Hne. induction l0 as [|x l0 IH]; simpl; [reflexivity|].
    rewrite Hne. exact IH. }
  assert (Hyes : forall tag (l0 : list pydict),
            map api_raw_data
              (filter (fun r => String.eqb (api_source r) tag)
                 (map (fun item => {| api_source := tag; api_raw_data := item |}) l0)) = l0).
  { intros tag l0. induction l0 as [|x l0 IH]; simpl; [reflexivity|].
    rewrite String.eqb_refl. simpl. rewrite IH. reflexivity. }
  destruct s; unfold raw_row; simpl.
  - rewrite fold_raw_api. simpl. rewrite filter_app, map_app.
    rewrite (Hyes "coinpaprika"). split; [reflexivity|].
    split; [|repeat split].
    intros s' Hs'. destruct s'; simpl; try congruence.
    rewrite filter_app, (Hno "coinpaprika" "coingecko"), app_nil_r; reflexivity.
  - rewrite fold_raw_api. simpl. rewrite filter_app, map_app.
    rewrite (Hyes "coingecko"). split; [reflexivity|].
    split; [|repeat split].
    intros s' Hs'. destruct s'; simpl; try congruence.
    rewrite filter_app, (Hno "coingecko" "coinpaprika"), app_nil_r; reflexivity.
  - rewrite fold_raw_csv. simpl. rewrite map_app, map_map. simpl.
    rewrite Hid. split; [reflexivity|].
    split; [|repeat split].
    intros s' Hs'. destruct s'; simpl; congruence.
Qed.

Lemma raw_items_cleaned s l t :
  raw_items s (fold_left (fun t c => add_cleaned (cleaned_of c) t) l t) = raw_items s t.
Proof. rewrite fold_cleaned. destruct s; reflexivity. Qed.

Lemma raw_items_checkpoints s f t :
  raw_items s (set_checkpoints f t) = raw_items s t.
Proof. destruct s; reflexivity. Qed.

(** X9. An ingestion that raises moves no checkpoint: in a session with
    nothing pending, the committed checkpoints and run records after the
    failure are those of before, and the session is left with nothing
    pending.  When it is the source that raised, the exception raised is the
    source's, and nothing at all was committed or tried to be. *)
Theorem failed_ingestion_keeps_the_checkpoints `{PyLib} env s w e w' :
  synced w ->
  ingest_source env s w = (Raise e, w') ->
  etl_checkpoints (stored (db w')) = etl_checkpoints (stored (db w))
  /\ etl_runs (stored (db w')) = etl_runs (stored (db w))
  /\ synced w'
  /\ (forall e0, extract env s (limit_of s) (List.length (attempts w)) = Raise e0 ->
        e = e0 /\ stored (db w') = stored (db w) /\ commits w' = commits w).
Proof.
  unfold synced. intros Hs E. rewrite ingest_source_eq, ingest_paths in E.
  cbv zeta in E.
  destruct (extract env s (limit_of s) (List.length (attempts w))) as [raw|e1].
  2:{ injection E as <- <-. simpl. repeat split; simpl; congruence. }
  destruct (fold_raw s raw (view (db w))) as (_ & _ & Hcl & Hck & Hru).
  destruct (commit_fault env AtRawStore (commits w)).
  { injection E as <- <-. simpl. repeat split; simpl; congruence. }
  destruct (transform_of s raw (clock w)) as [[out|e1] t].
  2:{ injection E as <- <-. simpl. rewrite Hck, Hru, Hs.
      repeat split; simpl; congruence. }
  destruct (commit_fault env AtLoad (S (commits w))).
  { injection E as <- <-. simpl. rewrite Hck, Hru, Hs.
    repeat split; simpl; congruence. }
  match type of E with
  | context [update_checkpoint env ?n ?k ?w0] =>
      pose proof (update_checkpoint_cases env n k w0) as U;
      destruct (update_checkpoint env n k w0) as [[[]|e1] w4]
  end; [discriminate|].
  injection E as <- <-.
  destruct U as (_ & _ & _ & _ & U). simpl in U.
  destruct (commit_fault env AtCheckpoint (S (S (commits w)))) as [e2|].
  2:{ destruct U; discriminate. }
  destruct U as [_ U]. simpl. rewrite U, fold_cleaned. simpl.
  rewrite Hck, Hru, Hs. repeat split; simpl; congruence.
Qed.

(** X10. The raw rows are committed before anything else is tried.  Once
    the source has answered and the first commit has gone through, the raw
    rows of the source in the store are those the session had followed by the
    items fetched, whether the ingestion then returns or raises; the raw rows
    of the other sources are not touched. *)
Theorem raw_rows_outlive_a_failure `{PyLib} env s w raw r w' :
  extract env s (limit_of s) (List.length (attempts w)) = Ok raw ->
  commit_fault env AtRawStore (commits w) = None ->
  ingest_source env s w = (r, w') ->
  raw_items s (stored (db w')) = raw_items s (view (db w)) ++ raw
  /\ forall s', s' <> s -> raw_items s' (stored (db w')) = raw_items s' (view (db w)).
Proof.
  intros Hx Hc E. rewrite ingest_source_eq, ingest_paths in E.
  cbv zeta in E. rewrite Hx, Hc in E.
  destruct (fold_raw s raw (view (db w))) as (Hown & Hoth & _).
  assert (G : forall s0,
             raw_items s0 (stored (db w'))
             = raw_items s0 (fold_left (fun t item => raw_row s item t) raw
                                       (view (db w)))).
  { intros s0.
    destruct (transform_of s raw (clock w)) as [[out|e1] t].
    2:{ injection E as <- <-. reflexivity. }
    destruct (commit_fault env AtLoad (S (commits w))).
    { injection E as <- <-. reflexivity. }
    match type of E with
    | context [update_checkpoint env ?n ?k ?w0] =>
        pose proof (update_checkpoint_cases env n k w0) as U;
        destruct (update_checkpoint env n k w0) as [[[]|e1] w4]
    end; injection E as <- <-; destruct U as (_ & _ & _ & [f Hf] & U); simpl in U, Hf;
    destruct (commit_fault env AtCheckpoint (S (S (commits w)))) as [e2|];
      destruct U as [U1 U2]; try discriminate; simpl.
    - rewrite U2, Hf, raw_items_checkpoints. apply raw_items_cleaned.
    - rewrite U2. apply raw_items_cleaned. }
  split.
  - rewrite G. exact Hown.
  - intros s' Hs'. rewrite G. apply Hoth. exact Hs'.
Qed.

(** X11. When the commit of the checkpoint fails after the load was
    committed, the ingestion raises that exception, the cleaned rows of the
    batch stay in the store and the checkpoints are those of before: the
    batch is loaded but not recorded. *)
Theorem checkpoint_failure_keeps_the_load `{PyLib} env s w raw out errs t e :
  extract env s (limit_of s) (List.length (attempts w)) = Ok raw ->
  transform_of s raw (clock w) = (Ok (out, errs), t) ->
  commit_fault env AtRawStore (commits w) = None ->
  commit_fault env AtLoad (S (commits w)) = None ->
  commit_fault env AtCheckpoint (S (S (commits w))) = Some e ->
  exists w',
    ingest_source env s w = (Raise e, w')
    /\ cleaned_data (stored (db w')) = cleaned_data (view (db w)) ++ map cleaned_of out
    /\ etl_checkpoints (stored (db w')) = etl_checkpoints (view (db w)).
Proof.
  intros Hx Ht H1 H2 H3. rewrite ingest_source_eq, ingest_paths.
  cbv zeta. rewrite Hx, H1, Ht, H2.
  destruct (fold_raw s raw (view (db w))) as (_ & _ & Hcl & Hck & _).
  match goal with
  | |- context [update_checkpoint env ?n ?k ?w0] =>
      pose proof (update_checkpoint_cases env n k w0) as U;
      destruct (update_checkpoint env n k w0) as [r w4]
  end.
  destruct U as (_ & _ & _ & _ & U). simpl in U. rewrite H3 in U.
  destruct U as [-> U]. eexists. split; [reflexivity|]. simpl.
  rewrite U, fold_cleaned. simpl. rewrite Hcl, Hck. split; reflexivity.
Qed.

Lemma transform_loop_counts `{PyLib} body caught raw :
  forall acc errs t out n t',
    transform_loop body caught raw acc errs t = (Ok (out, n), t') ->
    List.length out + n = List.length acc + errs + List.length raw.
Proof.
  induction raw as [|item rest IH]; intros acc errs t out n t'; simpl.
  - intros [= <- <- _]. lia.
  - destruct (body item t) as [[c|e] t1].
    + intros E. rewrite (IH _ _ _ _ _ _ E), length_app. simpl. lia.
    + destruct (caught (cls e)); [|discriminate].
      destruct (print_skipped item); [|discriminate].
      intros E. rewrite (IH _ _ _ _ _ _ E). lia.
Qed.

Lemma transform_counts `{PyLib} s raw t out n t' :
  transform_of s raw t = (Ok (out, n), t') ->
  List.length out + n = List.length raw.
Proof.
  destruct s; simpl; intros E; apply transform_loop_counts in E; simpl in E; lia.
Qed.

(** X12. An ingestion returns a count exactly when the source answers, the
    transformer returns and the three commits (raw rows, cleaned rows,
    checkpoint) go through; the count is the number of records transformed,
    which with the items counted as errors make up the items fetched. *)
Theorem ingestion_succeeds_exactly_when `{PyLib} env s w n :
  (exists w', ingest_source env s w = (Ok n, w'))
  <-> exists raw out errs t,
        extract env s (limit_of s) (List.length (attempts w)) = Ok raw
        /\ transform_of s raw (clock w) = (Ok (out, errs), t)
        /\ commit_fault env AtRawStore (commits w) = None
        /\ commit_fault env AtLoad (S (commits w)) = None
        /\ commit_fault env AtCheckpoint (S (S (commits w))) = None
        /\ n = Z.of_nat (List.length out)
        /\ List.length out + errs = List.length raw.
Proof.
  rewrite ingest_source_eq, ingest_paths. cbv zeta. split.
  - intros [w' E].
    destruct (extract env s (limit_of s) (List.length (attempts w))) as [raw|e1];
      [|discriminate].
    destruct (commit_fault env AtRawStore (commits w)); [discriminate|].
    destruct (transform_of s raw (clock w)) as [[[out errs]|e1] t] eqn:Ht; [|discriminate].
    destruct (commit_fault env AtLoad (S (commits w))); [discriminate|].
    match type of E with
    | context [update_checkpoint env ?n ?k ?w0] =>
        pose proof (update_checkpoint_cases env n k w0) as U;
        destruct (update_checkpoint env n k w0) as [[[]|e1] w4]
    end; [|discriminate].
    destruct U as (_ & _ & _ & _ & U). simpl in U.
    destruct (commit_fault env AtCheckpoint (S (S (commits w)))).
    { destruct U; discriminate. }
    injection E as <- <-. exists raw, out, errs, t. simpl.
    repeat split; try reflexivity; [exact Ht|].
    apply (transform_counts _ _ _ _ _ _ Ht).
  - intros (raw & out & errs & t & Hx & Ht & H1 & H2 & H3 & -> & _).
    rewrite Hx, H1, Ht, H2. simpl fst.
    match goal with
    | |- context [update_checkpoint env ?n ?k ?w0] =>
        pose proof (update_checkpoint_cases env n k w0) as U;
        destruct (update_checkpoint env n k w0) as [r w4]
    end.
    destruct U as (_ & _ & _ & _ & U). simpl in U. rewrite H3 in U.
    destruct U as [-> _]. eexists. reflexivity.
Qed.

(** ** The total of a run *)

Lemma end_run_returned env processed succeeded error w k r w' :
  run_id w = Some (S k) ->
  nth_error (etl_runs (view (db w))) k = Some r ->
  end_run env processed succeeded error w = (Ok tt, w') ->
  commit_fault env AtEndRun (commits w) = None.
Proof.
  intros Hk Hr. unfold end_run, bind, now, on_clock, utcnow, modify, commit, gets.
  rewrite Hk, Hr. simpl.
  destruct (commit_fault env AtEndRun (commits w)); [discriminate | reflexivity].
Qed.

(** X13. A run that returns [True] has committed what it counted: the
    cleaned table of the store is the one the session had followed by as many
    rows as the [records_processed] of the run record it added, and that
    record is closed, marked successful and without error message. *)
Theorem successful_run_counts_its_rows `{PyLib} env sources w w' :
  run env sources w = (Ok true, w') ->
  exists rows t',
    cleaned_data (stored (db w')) = cleaned_data (view (db w)) ++ rows
    /\ etl_runs (stored (db w'))
       = etl_runs (view (db w))
         ++ [finished (label_of sources) (clock w) t'
                      (Z.of_nat (List.length rows)) true None].
Proof.
  intros E. rewrite run_eq in E.
  destruct (start_run env (label_of sources) w) as [[[]|e] w0] eqn:Es; [|discriminate].
  destruct (ingest_each env (plan sources) 0 w0) as [[total [e|]] w1] eqn:Ei.
  { unfold run_failed, bind, ret in E.
    destruct (end_run env total false (Some (msg e)) w1) as [[[]|e'] w2]; discriminate. }
  destruct (end_run env total true None w1) as [[[]|e] w2] eqn:Ee.
  2:{ unfold run_failed, bind, ret in E.
      destruct (end_run env total false (Some (msg e)) w2) as [[[]|e'] w3]; discriminate. }
  injection E as <-.
  destruct (start_run_ok env (label_of sources) w (start_run_returned env _ _ _ Es))
    as (w0' & Es' & Hsync & Hst & Hid & _).
  rewrite Es in Es'. injection Es' as <-.
  set (R := etl_runs (view (db w))) in *.
  assert (Hr : runs_are (R ++ [started (label_of sources) (clock w)]) w1
               /\ self_is (Some (S (List.length R))) w1).
  { replace w1 with (snd (ingest_each env (plan sources) 0 w0))
      by (rewrite Ei; reflexivity).
    split.
    - apply ingest_each_keeps; [apply stable_runs_are | auto |].
      unfold runs_are. rewrite Hsync, Hst. split; reflexivity.
    - apply ingest_each_keeps; [apply stable_self_is | auto | exact Hid]. }
  destruct Hr as [[_ Hv] Hself]. unfold self_is in Hself.
  assert (Hc : commit_fault env AtEndRun (commits w1) = None).
  { eapply end_run_returned; [exact Hself | | exact Ee].
    rewrite Hv. apply nth_error_last. }
  destruct (run_closes env sources w w0 total None w1 total true None Es Ei Hc)
    as (w2' & Ee' & Hst' & _).
  rewrite Ee in Ee'. injection Ee' as <-.
  destruct (ingest_each_cleaned env _ _ _ _ _ Hsync Ei) as (rows & Hrows & Ht).
  exists rows, (clock w1). rewrite Hst'. simpl. split.
  - rewrite Hrows, Hst. reflexivity.
  - rewrite Ht. reflexivity.
Qed.

(** ** What the clients return *)

Lemma read_response_ok status body data :
  read_response status body = Ok data
  <-> body = Some data
      /\ (status < 400 \/ 600 <= status)%Z
      /\ exists n, py_len data = Ok n.
Proof.
  unfold read_response, raise_for_status, json. split.
  - destruct ((400 <=? status)%Z && (status <? 600)%Z) eqn:Hs; [discriminate|].
    destruct body as [v|]; [|discriminate].
    destruct (py_len v) as [n|e] eqn:Hl; [|discriminate].
    intros [= <-]. split; [reflexivity|]. split; [|exists n; exact Hl].
    apply andb_false_iff in Hs. destruct Hs as [Hs|Hs].
    + apply Z.leb_gt in Hs. left. exact Hs.
    + apply Z.ltb_ge in Hs. right. exact Hs.
  - intros (-> & Hs & n & Hl).
    replace ((400 <=? status)%Z && (status <? 600)%Z) with false.
    + rewrite Hl. reflexivity.
    + symmetry. apply andb_false_iff. destruct Hs as [Hs|Hs].
      * left. apply Z.leb_gt. exact Hs.
      * right. apply Z.ltb_ge. exact Hs.
Qed.

Lemma get_tickers_step srv d limit n0 :
  get_tickers srv (S d) limit n0
  = match srv (List.length (sent n0)) with
    | Transport e =>
        (Raise e, {| sent := sent n0 ++ [tickers_request limit]; slept := slept n0 |})
    | Response status body =>
        if (status =? 429)%Z
        then get_tickers srv d limit
               {| sent := sent n0 ++ [tickers_request limit];
                  slept := slept n0 ++ [60%Z] |}
        else (read_response status body,
              {| sent := sent n0 ++ [tickers_request limit]; slept := slept n0 |})
    end.
Proof.
  simpl. unfold bind, requests_get, raise, lift, time_sleep, modify.
  destruct (srv (List.length (sent n0))) as [e|status body]; [reflexivity|].
  destruct (status =? 429)%Z; reflexivity.
Qed.

(** X14. Whatever the server answers, [get_tickers] only asks again and
    waits: for some [k] within the nesting allowed, the first [k] responses
    were 429, it has slept [k] times 60 seconds and sent the same request
    [k + 1] times ([k] when the nesting ran out); and data it returns is the
    JSON body of the response after those, whose status is outside 400..599
    and whose body has a length. *)
Theorem get_tickers_only_waits_and_asks_again srv depth limit n0 :
  exists k,
    k <= depth
    /\ (forall i, i < k -> rate_limited (srv (List.length (sent n0) + i)) = true)
    /\ slept (snd (get_tickers srv depth limit n0)) = slept n0 ++ repeat 60%Z k
    /\ sent (snd (get_tickers srv depth limit n0))
       = sent n0 ++ repeat (tickers_request limit) (Nat.min (S k) depth)
    /\ forall data,
         fst (get_tickers srv depth limit n0) = Ok data ->
         k < depth
         /\ exists status,
              srv (List.length (sent n0) + k) = Response status (Some data)
              /\ (status < 400 \/ 600 <= status)%Z
              /\ exists n, py_len data = Ok n.
Proof.
  revert n0. induction depth as [|d IH]; intros n0.
  - exists 0. unfold get_tickers, raise. simpl. rewrite !app_nil_r.
    split; [lia|]. split; [intros i Hi; lia|]. split; [reflexivity|].
    split; [reflexivity|]. discriminate.
  - rewrite get_tickers_step.
    destruct (srv (List.length (sent n0))) as [e|status body] eqn:Hsrv.
    + exists 0. simpl. rewrite app_nil_r.
      split; [lia|]. split; [intros i Hi; lia|]. split; [reflexivity|].
      split; [reflexivity|]. discriminate.
    + destruct (status =? 429)%Z eqn:H429.
      * destruct (IH {| sent := sent n0 ++ [tickers_request limit];
                        slept := slept n0 ++ [60%Z] |})
          as (k & Hk & Hi & Hsl & Hse & Hok).
        simpl in Hi, Hsl, Hse, Hok. rewrite length_app in Hi, Hok. simpl in Hi, Hok.
        exists (S k). split; [lia|]. split; [|split; [|split]].
        -- intros i Hlt. destruct i as [|i].
           ++ rewrite Nat.add_0_r, Hsrv. exact H429.
           ++ replace (List.length (sent n0) + S i)
                with (List.length (sent n0) + 1 + i) by lia.
              apply Hi. lia.
        -- rewrite Hsl, <- app_assoc. reflexivity.
        -- rewrite Hse, <- app_assoc. reflexivity.
        -- intros data Hd. destruct (Hok data Hd) as (Hlt & st & Hs & Hr).
           split; [lia|]. exists st. split; [|exact Hr].
           replace (List.length (sent n0) + S k)
             with (List.length (sent n0) + 1 + k) by lia.
           exact Hs.
      * exists 0. simpl. rewrite app_nil_r.
        split; [lia|]. split; [intros i Hi; lia|]. split; [reflexivity|].
        split; [reflexivity|].
        intros data Hd. split; [lia|]. exists status.
        apply read_response_ok in Hd. destruct Hd as (-> & Hs & Hl).
        rewrite Nat.add_0_r. split; [exact Hsrv|]. split; assumption.
Qed.

(** X15. [get_coins_markets] returns data exactly when the status of the
    response is outside 400..599 and its body is JSON that has a length (a
    list, a dict or a string); the data is that body.  Every other outcome
    raises. *)
Theorem get_coins_markets_returns_sized_json srv limit n0 data :
  fst (get_coins_markets srv limit n0) = Ok data
  <-> exists status,
        srv (List.length (sent n0)) = Response status (Some data)
        /\ (status < 400 \/ 600 <= status)%Z
        /\ exists n, py_len data = Ok n.
Proof.
  unfold get_coins_markets, bind, requests_get, raise, lift.
  destruct (srv (List.length (sent n0))) as [e|status body]; simpl.
  - split; [discriminate|]. intros (st & Hs & _). discriminate.
  - rewrite read_response_ok. split.
    + intros (-> & Hs & Hl). exists status. split; [reflexivity|]. split; assumption.
    + intros (st & [= <- ->] & Hs & Hl). split; [reflexivity|]. split; assumption.
Qed.

(** ** The theorems at concrete inputs *)

#[local] Existing Instance strict_lib.

Lemma run_aborts_at_first_failure_witness :
  let w0 := snd (start_run gecko_down (label_of None) new_world) in
  let wd := snd (ingest_each gecko_down [Coinpaprika] 0 w0) in
  let wf := snd (ingest_source gecko_down Coingecko wd) in
  let w' := snd (run gecko_down None new_world) in
  start_run gecko_down (label_of None) new_world = (Ok tt, w0)
  /\ plan None = [Coinpaprika] ++ Coingecko :: [Csv]
  /\ ingest_each gecko_down [Coinpaprika] 0 w0 = (1%Z, None, wd)
  /\ ingest_source gecko_down Coingecko wd = (Raise api_error, wf)
  /\ commit_fault gecko_down AtEndRun (commits wf) = None
  /\ run gecko_down None new_world = (Ok false, w')
  /\ attempts w' = [Coinpaprika; Coingecko]
  /\ (exists more,
         cleaned_data (stored (db w')) = cleaned_data (stored (db wd)) ++ more)
  /\ (exists rows more,
         Z.of_nat (List.length rows) = 1%Z
         /\ cleaned_data (stored (db wd)) = cleaned_data (view (db new_world)) ++ rows
         /\ cleaned_data (stored (db w'))
            = cleaned_data (view (db new_world)) ++ rows ++ more)
  /\ etl_runs (stored (db w'))
     = [finished "coinpaprika,coingecko,csv" 0 3 1 false (Some "API Error")].
Proof.
  intros w0 wd wf w'.
  assert (H2 : start_run gecko_down (label_of None) new_world = (Ok tt, w0))
    by (vm_compute; reflexivity).
  assert (H3 : plan None = [Coinpaprika] ++ Coingecko :: [Csv]) by reflexivity.
  assert (H4 : ingest_each gecko_down [Coinpaprika] 0 w0 = (1%Z, None, wd))
    by (vm_compute; reflexivity).
  assert (H5 : ingest_source gecko_down Coingecko wd = (Raise api_error, wf))
    by (vm_compute; reflexivity).
  assert (H6 : commit_fault gecko_down AtEndRun (commits wf) = None)
    by reflexivity.
  split; [exact H2|]. split; [exact H3|]. split; [exact H4|].
  split; [exact H5|]. split; [exact H6|].
  destruct (run_aborts_at_first_failure gecko_down None new_world w0
              [Coinpaprika] Coingecko [Csv] 1%Z wd api_error wf H2 H3 H4 H5)
    as (A & _ & C & _ & G & R & _).
  destruct (R H6) as (E & T).
  split; [exact E|]. split; [exact A|].
  split; [exact (C [Coinpaprika] [] 1%Z wd eq_refl H4)|].
  split; [exact G | exact T].
Defined.


Lemma transform_coinpaprika_raises_on_quotes_witness :
  ~ quoted null_quotes
  /\ Forall quoted [bitcoin_ticker]
  /\ Forall (fun x => id_prints x = true) [bitcoin_ticker]
  /\ transform_coinpaprika ([bitcoin_ticker] ++ null_quotes :: [bitcoin_ticker]) 0
     = (Raise attribute_error, 1).
Proof.
  assert (H1 : ~ quoted null_quotes) by (intros F; exact F).
  assert (H2 : Forall quoted [bitcoin_ticker])
    by (constructor; [exact I | constructor]).
  assert (H3 : Forall (fun x => id_prints x = true) [bitcoin_ticker])
    by (constructor; [reflexivity | constructor]).
  split; [exact H1|]. split; [exact H2|]. split; [exact H3|].
  destruct (proj2 (transform_coinpaprika_raises_on_quotes
                     [bitcoin_ticker] null_quotes [bitcoin_ticker] 0 H1) H2 H3)
    as (t' & E).
  rewrite E. vm_compute in E. injection E as <-. reflexivity.
Defined.

Lemma cleaned_records_are_valid_witness :
  transform_csv [bitcoin_row; bad_cap_row] 0
  = (Ok ([{| crypto_id := "bitcoin"; crypto_name := "Bitcoin";
             price_usd := f42000_50; market_cap_usd := Some f8e11;
             volume_24h_usd := None; change_24h_percent := None;
             source := "csv"; timestamp := 0 |}], 1), 1)
  /\ PyFloat.ltb PyFloat.zero f42000_50 = true
  /\ cleaned_valid new_world
  /\ cleaned_valid (snd (run gecko_down None new_world)).
Proof.
  assert (E : transform_csv [bitcoin_row; bad_cap_row] 0
              = (Ok ([{| crypto_id := "bitcoin"; crypto_name := "Bitcoin";
                         price_usd := f42000_50; market_cap_usd := Some f8e11;
                         volume_24h_usd := None; change_24h_percent := None;
                         source := "csv"; timestamp := 0 |}], 1), 1))
    by (vm_compute; reflexivity).
  assert (V : cleaned_valid new_world) by (split; constructor).
  destruct (@cleaned_records_are_valid strict_lib) as (T & _ & R).
  split; [exact E|]. split; [|split; [exact V|]].
  - pose proof (T Csv _ _ _ _ _ E) as K.
    apply Forall_inv in K. exact (proj1 K).
  - exact (R gecko_down None new_world V).
Defined.

Lemma update_checkpoint_upserts_witness :
  (forall n, commit_fault idle AtCheckpoint n = None)
  /\ List.length (rows_for "x" (view (db new_world))) <= 1
  /\ exists w' c,
      update_checkpoints idle "x" ([100%Z] ++ [200%Z]) new_world = (Ok tt, w')
      /\ rows_for "x" (stored (db w')) = [c]
      /\ checkpoint_source c = "x"
      /\ last_processed_id c = 200%Z.
Proof.
  assert (H1 : forall n, commit_fault idle AtCheckpoint n = None)
    by (intros n; reflexivity).
  assert (H2 : List.length (rows_for "x" (view (db new_world))) <= 1)
    by (simpl; lia).
  split; [exact H1|]. split; [exact H2|].
  exact (update_checkpoint_upserts idle "x" [100%Z] 200%Z new_world H1 H2).
Defined.

Lemma get_checkpoint_reads_cursor_witness :
  let w := snd (update_checkpoint idle "x" 100 new_world) in
  let c := {| checkpoint_source := "x"; last_processed_id := 100;
              last_processed_timestamp := Some 0; updated_at := None |} in
  In c (etl_checkpoints (view (db w)))
  /\ checkpoint_source c = "x"
  /\ (forall c', In c' (etl_checkpoints (view (db w))) ->
                 checkpoint_source c' = "x" -> c' = c)
  /\ get_checkpoint "x" w = (Ok 100%Z, w)
  /\ (forall c', In c' (etl_checkpoints (view (db w))) ->
                 checkpoint_source c' <> "y")
  /\ get_checkpoint "y" w = (Ok 0%Z, w).
Proof.
  intros w c.
  assert (H1 : In c (etl_checkpoints (view (db w)))) by (left; reflexivity).
  assert (H2 : checkpoint_source c = "x") by reflexivity.
  assert (H3 : forall c', In c' (etl_checkpoints (view (db w))) ->
                          checkpoint_source c' = "x" -> c' = c).
  { intros c' [<- | []] _. reflexivity. }
  assert (H4 : forall c', In c' (etl_checkpoints (view (db w))) ->
                          checkpoint_source c' <> "y").
  { intros c' [<- | []]. discriminate. }
  split; [exact H1|]. split; [exact H2|]. split; [exact H3|].
  split; [|split; [exact H4|]].
  - exact (proj1 (get_checkpoint_reads_cursor "x" w) c H1 H2 H3).
  - exact (proj1 (proj2 (get_checkpoint_reads_cursor "y" w)) H4).
Defined.

Lemma ingest_sets_cursor_to_count_witness :
  let w1 := snd (ingest_source shrinking_file Csv new_world) in
  ingest_source shrinking_file Csv new_world = (Ok 2%Z, w1)
  /\ get_checkpoint "csv" w1 = (Ok 2%Z, w1).
Proof.
  intros w1.
  assert (E : ingest_source shrinking_file Csv new_world = (Ok 2%Z, w1))
    by (vm_compute; reflexivity).
  split; [exact E|].
  exact (proj1 (ingest_sets_cursor_to_count shrinking_file Csv new_world 2%Z w1 E)).
Defined.

Lemma run_attempts_known_sources_witness :
  tracker_commits idle
  /\ (forall s, ~ In (name_of s) (requested (Some ["binance"; "kraken"])))
  /\ exists w',
      run idle (Some ["binance"; "kraken"]) new_world = (Ok true, w')
      /\ attempts w' = []
      /\ stored (db w')
         = set_runs (fun _ => [finished "binance,kraken" 0 1 0 true None]) no_tables.
Proof.
  assert (H1 : tracker_commits idle) by (intros n; split; reflexivity).
  assert (H2 : forall s, ~ In (name_of s) (requested (Some ["binance"; "kraken"]))).
  { intros s [E | [E | []]]; destruct s; discriminate. }
  split; [exact H1|]. split; [exact H2|].
  exact (proj2 (proj2 (proj2
           (run_attempts_known_sources idle (Some ["binance"; "kraken"]) new_world)))
           H1 H2).
Defined.

Lemma run_returns_boolean_witness :
  tracker_commits gecko_down
  /\ exists b w' w0 total err w1,
      run gecko_down None new_world = (Ok b, w')
      /\ start_run gecko_down (label_of None) new_world = (Ok tt, w0)
      /\ ingest_each gecko_down (plan None) 0 w0 = (total, err, w1)
      /\ b = (match err with None => true | Some _ => false end)
      /\ etl_runs (stored (db w'))
         = etl_runs (view (db new_world))
           ++ [finished (label_of None) (clock new_world) (clock w1) total b
                        (option_map msg err)].
Proof.
  assert (H1 : tracker_commits gecko_down) by (intros n; split; reflexivity).
  split; [exact H1|].
  exact (run_returns_boolean gecko_down None new_world H1).
Defined.

Lemma rate_limit_retries_until_answered_witness :
  (forall i, i < 2 -> rate_limited (limited_twice (List.length (sent quiet) + i)) = true)
  /\ rate_limited (limited_twice (List.length (sent quiet) + 2)) = false
  /\ 2 < 5
  /\ get_tickers limited_twice 5 10 quiet
     = (Ok (VList []),
        {| sent := [tickers_request 10; tickers_request 10; tickers_request 10];
           slept := [60%Z; 60%Z] |})
  /\ (400 <= 429 < 600)%Z
  /\ outcome_result (Response 429 None)
     = Raise {| cls := RequestException; msg := "HTTPError" |}.
Proof.
  assert (H1 : forall i, i < 2 ->
                 rate_limited (limited_twice (List.length (sent quiet) + i)) = true).
  { intros i Hi. destruct i as [|[|i]]; [reflexivity | reflexivity | lia]. }
  assert (H2 : rate_limited (limited_twice (List.length (sent quiet) + 2)) = false)
    by reflexivity.
  assert (H3 : 2 < 5) by lia.
  assert (H4 : (400 <= 429 < 600)%Z) by lia.
  split; [exact H1|]. split; [exact H2|]. split; [exact H3|].
  split; [|split; [exact H4|]].
  - exact (proj1 rate_limit_retries_until_answered limited_twice 10%Z 2 5 quiet H1 H2 H3).
  - exact (proj2 (proj2 (proj2 (proj2 rate_limit_retries_until_answered))) 429%Z None H4).
Defined.



Lemma records_carry_their_source_witness :
  let w1 := snd (ingest_source shrinking_file Csv new_world) in
  ingest_source shrinking_file Csv new_world = (Ok 2%Z, w1)
  /\ exists rows,
      cleaned_data (stored (db w1)) = cleaned_data (view (db new_world)) ++ rows
      /\ Z.of_nat (List.length rows) = 2%Z
      /\ Forall (fun r => data_source r = name_of Csv) rows.
Proof.
  intros w1.
  assert (E : ingest_source shrinking_file Csv new_world = (Ok 2%Z, w1))
    by (vm_compute; reflexivity).
  split; [exact E|].
  exact (proj2 (records_carry_their_source Csv) shrinking_file new_world 2%Z w1 E).
Defined.


Lemma unprintable_id_stops_the_batch_witness :
  lookup numbered_item "id" = Some (VInt ten_to_4300)
  /\ 0 < int_max_str_digits
  /\ int_max_str_digits < String.length (PyStr.of_Z (Z.abs ten_to_4300))
  /\ (exists e t',
         transform_of Csv ([bitcoin_row] ++ numbered_item :: [bitcoin_row]) 0
         = (Raise e, t'))
  /\ exists t',
       transform_of Coingecko (numbered_item :: [bitcoin_row]) 0
       = (Raise int_str_error, t').
Proof.
  assert (H1 : lookup numbered_item "id" = Some (VInt ten_to_4300)) by reflexivity.
  assert (H2 : 0 < int_max_str_digits) by (apply Nat.lt_0_succ).
  assert (H3 : int_max_str_digits < String.length (PyStr.of_Z (Z.abs ten_to_4300))).
  { assert (P : (0 <= ten_to_4300)%Z) by (apply Z.pow_nonneg; discriminate).
    rewrite (Z.abs_eq _ P). apply of_Z_length.
    change (Z.of_nat int_max_str_digits) with 4300%Z. apply Z.le_refl. }
  split; [exact H1|]. split; [exact H2|]. split; [exact H3|]. split.
  - exact (proj1 (unprintable_id_stops_the_batch Csv [bitcoin_row] numbered_item
                    [bitcoin_row] 0 ten_to_4300 H1 H2 H3)).
  - exact (proj2 (unprintable_id_stops_the_batch Coingecko [] numbered_item
                    [bitcoin_row] 0 ten_to_4300 H1 H2 H3) eq_refl).
Defined.

Lemma csv_identifiers_are_normalised_witness :
  let c := bitcoin_record 0 in
  transform_csv [text_row " BitCoin " " Bitcoin " "42,000.50"; bitcoin_row] 0
  = (Ok ([{| crypto_id := "bitcoin"; crypto_name := "Bitcoin";
             price_usd := f42000_50; market_cap_usd := None;
             volume_24h_usd := None; change_24h_percent := None;
             source := "csv"; timestamp := 0 |}; bitcoin_record 1], 0), 2)
  /\ PyStr.lower (crypto_id c) = crypto_id c
  /\ PyStr.strip (crypto_id c) = crypto_id c
  /\ PyStr.strip (crypto_name c) = crypto_name c.
Proof.
  intros c.
  assert (E : transform_csv [text_row " BitCoin " " Bitcoin " "42,000.50"; bitcoin_row] 0
              = (Ok ([{| crypto_id := "bitcoin"; crypto_name := "Bitcoin";
                         price_usd := f42000_50; market_cap_usd := None;
                         volume_24h_usd := None; change_24h_percent := None;
                         source := "csv"; timestamp := 0 |}; bitcoin_record 1], 0), 2))
    by (vm_compute; reflexivity).
  split; [exact E|].
  pose proof (csv_identifiers_are_normalised _ _ _ _ _ E) as K.
  apply Forall_inv_tail, Forall_inv in K. exact K.
Defined.

Lemma validated_record_validates_again_witness :
  let c := {| crypto_id := "BTC"; crypto_name := "Bitcoin";
              price_usd := f42000_50; market_cap_usd := Some f8e11;
              volume_24h_usd := None; change_24h_percent := None;
              source := "csv"; timestamp := 7 |} in
  new_CryptoData (VStr " BTC ") (VStr " Bitcoin ") (VFloat f42000_50)
                 (VFloat f8e11) VNone VNone "csv" 7 = Some c
  /\ new_CryptoData (VStr "BTC") (VStr "Bitcoin") (VFloat f42000_50)
                    (VFloat f8e11) VNone VNone "csv" 7 = Some c.
Proof.
  intros c.
  assert (E : new_CryptoData (VStr " BTC ") (VStr " Bitcoin ") (VFloat f42000_50)
                             (VFloat f8e11) VNone VNone "csv" 7 = Some c)
    by (vm_compute; reflexivity).
  split; [exact E|].
  exact (validated_record_validates_again _ _ _ _ _ _ _ _ c E).
Defined.

Lemma checkpoint_write_then_read_witness :
  let w1 := snd (update_checkpoint idle "csv" 5 new_world) in
  update_checkpoint idle "csv" 5 new_world = (Ok tt, w1)
  /\ get_checkpoint "csv" w1 = (Ok 5%Z, w1)
  /\ fst (get_checkpoint "coingecko" w1) = fst (get_checkpoint "coingecko" new_world).
Proof.
  intros w1.
  assert (E : update_checkpoint idle "csv" 5 new_world = (Ok tt, w1))
    by (vm_compute; reflexivity).
  assert (N : "coingecko" <> "csv") by discriminate.
  split; [exact E|].
  destruct (proj1 (checkpoint_write_then_read idle "csv" 5%Z new_world) w1 E) as [R O].
  split; [exact R|]. exact (proj2 (O "coingecko" N)).
Defined.

Lemma end_run_closes_started_run_witness :
  commit_fault idle AtStartRun (commits new_world) = None
  /\ commit_fault idle AtEndRun (S (commits new_world)) = None
  /\ exists w1 w2,
      start_run idle "csv" new_world = (Ok tt, w1)
      /\ end_run idle 3 true None w1 = (Ok tt, w2)
      /\ run_id w2 = Some 1
      /\ stored (db w2)
         = set_runs (fun _ => [] ++ [finished "csv" 0 1 3 true None]) no_tables.
Proof.
  assert (H1 : commit_fault idle AtStartRun (commits new_world) = None) by reflexivity.
  assert (H2 : commit_fault idle AtEndRun (S (commits new_world)) = None) by reflexivity.
  split; [exact H1|]. split; [exact H2|].
  exact (proj1 (end_run_closes_started_run idle "csv" 3%Z true None new_world) H1 H2).
Defined.

Lemma failed_ingestion_keeps_the_checkpoints_witness :
  let w := snd (ingest_source gecko_down Coinpaprika new_world) in
  let w' := snd (ingest_source gecko_down Coingecko w) in
  synced w
  /\ ingest_source gecko_down Coingecko w = (Raise api_error, w')
  /\ etl_checkpoints (stored (db w')) = etl_checkpoints (stored (db w))
  /\ get_checkpoint "coinpaprika" w' = (Ok 1%Z, w')
  /\ synced w'.
Proof.
  intros w w'.
  assert (H1 : synced w) by reflexivity.
  assert (H2 : ingest_source gecko_down Coingecko w = (Raise api_error, w'))
    by (vm_compute; reflexivity).
  split; [exact H1|]. split; [exact H2|].
  destruct (failed_ingestion_keeps_the_checkpoints gecko_down Coingecko w api_error w'
              H1 H2) as (A & _ & B & _).
  split; [exact A|]. split; [vm_compute; reflexivity | exact B].
Defined.

Lemma raw_rows_outlive_a_failure_witness :
  let w' := snd (ingest_source checkpoint_down Csv new_world) in
  extract checkpoint_down Csv (limit_of Csv) (List.length (attempts new_world))
  = Ok [bitcoin_row]
  /\ commit_fault checkpoint_down AtRawStore (commits new_world) = None
  /\ ingest_source checkpoint_down Csv new_world
     = (Raise {| cls := OtherError; msg := "connection lost" |}, w')
  /\ raw_items Csv (stored (db w')) = raw_items Csv (view (db new_world)) ++ [bitcoin_row]
  /\ raw_items Coingecko (stored (db w')) = raw_items Coingecko (view (db new_world)).
Proof.
  intros w'.
  assert (H1 : extract checkpoint_down Csv (limit_of Csv)
                 (List.length (attempts new_world)) = Ok [bitcoin_row]) by reflexivity.
  assert (H2 : commit_fault checkpoint_down AtRawStore (commits new_world) = None)
    by reflexivity.
  assert (H3 : ingest_source checkpoint_down Csv new_world
               = (Raise {| cls := OtherError; msg := "connection lost" |}, w'))
    by (vm_compute; reflexivity).
  assert (N : Coingecko <> Csv) by discriminate.
  split; [exact H1|]. split; [exact H2|]. split; [exact H3|].
  destruct (raw_rows_outlive_a_failure checkpoint_down Csv new_world [bitcoin_row]
              _ w' H1 H2 H3) as [A B].
  split; [exact A | exact (B Coingecko N)].
Defined.

Lemma checkpoint_failure_keeps_the_load_witness :
  extract checkpoint_down Csv (limit_of Csv) (List.length (attempts new_world))
  = Ok [bitcoin_row]
  /\ transform_of Csv [bitcoin_row] (clock new_world) = (Ok ([bitcoin_record 0], 0), 1)
  /\ commit_fault checkpoint_down AtRawStore (commits new_world) = None
  /\ commit_fault checkpoint_down AtLoad (S (commits new_world)) = None
  /\ commit_fault checkpoint_down AtCheckpoint (S (S (commits new_world)))
     = Some {| cls := OtherError; msg := "connection lost" |}
  /\ exists w',
      ingest_source checkpoint_down Csv new_world
      = (Raise {| cls := OtherError; msg := "connection lost" |}, w')
      /\ cleaned_data (stored (db w'))
         = cleaned_data (view (db new_world)) ++ map cleaned_of [bitcoin_record 0]
      /\ etl_checkpoints (stored (db w')) = etl_checkpoints (view (db new_world)).
Proof.
  assert (H1 : extract checkpoint_down Csv (limit_of Csv)
                 (List.length (attempts new_world)) = Ok [bitcoin_row]) by reflexivity.
  assert (H2 : transform_of Csv [bitcoin_row] (clock new_world)
               = (Ok ([bitcoin_record 0], 0), 1)) by (vm_compute; reflexivity).
  assert (H3 : commit_fault checkpoint_down AtRawStore (commits new_world) = None)
    by reflexivity.
  assert (H4 : commit_fault checkpoint_down AtLoad (S (commits new_world)) = None)
    by reflexivity.
  assert (H5 : commit_fault checkpoint_down AtCheckpoint (S (S (commits new_world)))
               = Some {| cls := OtherError; msg := "connection lost" |}) by reflexivity.
  split; [exact H1|]. split; [exact H2|]. split; [exact H3|]. split; [exact H4|].
  split; [exact H5|].
  exact (checkpoint_failure_keeps_the_load checkpoint_down Csv new_world [bitcoin_row]
           [bitcoin_record 0] 0 1 _ H1 H2 H3 H4 H5).
Defined.

Lemma ingestion_succeeds_exactly_when_witness :
  (exists w', ingest_source shrinking_file Csv new_world = (Ok 2%Z, w'))
  /\ exists raw out errs t,
      extract shrinking_file Csv (limit_of Csv) (List.length (attempts new_world)) = Ok raw
      /\ transform_of Csv raw (clock new_world) = (Ok (out, errs), t)
      /\ commit_fault shrinking_file AtRawStore (commits new_world) = None
      /\ commit_fault shrinking_file AtLoad (S (commits new_world)) = None
      /\ commit_fault shrinking_file AtCheckpoint (S (S (commits new_world))) = None
      /\ 2%Z = Z.of_nat (List.length out)
      /\ List.length out + errs = List.length raw.
Proof.
  assert (H1 : exists w', ingest_source shrinking_file Csv new_world = (Ok 2%Z, w'))
    by (eexists; vm_compute; reflexivity).
  split; [exact H1|].
  exact (proj1 (ingestion_succeeds_exactly_when shrinking_file Csv new_world 2%Z) H1).
Defined.

Lemma successful_run_counts_its_rows_witness :
  let w' := snd (run shrinking_file None new_world) in
  run shrinking_file None new_world = (Ok true, w')
  /\ exists rows t',
      cleaned_data (stored (db w')) = cleaned_data (view (db new_world)) ++ rows
      /\ etl_runs (stored (db w'))
         = etl_runs (view (db new_world))
           ++ [finished (label_of None) (clock new_world) t'
                        (Z.of_nat (List.length rows)) true None].
Proof.
  intros w'.
  assert (E : run shrinking_file None new_world = (Ok true, w'))
    by (vm_compute; reflexivity).
  split; [exact E|].
  exact (successful_run_counts_its_rows shrinking_file None new_world w' E).
Defined.

(** ** Where the code departs from the letter of the specification *)

(** Against C5 as stated: after two 429 responses in a row [get_tickers] has
    slept twice and sent three requests; and [get_coins_markets] raises at
    the first 429, with no sleep and no second request. *)
Lemma rate_limit_retry_is_not_single :
  ~ (forall (srv : server) (depth : nat) (limit : Z) r n,
        rate_limited (srv 0) = true ->
        get_tickers srv (S (S depth)) limit quiet = (r, n) ->
        slept n = [60%Z] /\ List.length (sent n) = 2)
  /\ ~ (forall (srv : server) (limit : Z) r n,
           rate_limited (srv 0) = true ->
           get_coins_markets srv limit quiet = (r, n) ->
           slept n = [60%Z] /\ List.length (sent n) = 2).
Proof.
  split; intros claim.
  - destruct (claim limited_twice 3 10%Z _ _ eq_refl eq_refl) as [Hs _].
    discriminate Hs.
  - destruct (claim limited_twice 10%Z _ _ eq_refl eq_refl) as [Hs _].
    discriminate Hs.
Qed.


(** Against C7 as stated: when the commit of [start_run] fails, [run]
    raises. *)
Lemma run_raises_when_start_run_fails :
  ~ (forall (env : Env) sources w, exists b w', run env sources w = (Ok b, w')).
Proof.
  intros claim. destruct (claim store_down None new_world) as (b & w' & E).
  vm_compute in E. discriminate E.
Qed.

(** Against C1 as stated: when the commit of the [end_run] that records the
    failure fails too, [run] raises, and the row of the run is left open, with
    no end time, no message and nothing that marks the failure. *)
Lemma run_can_leave_the_record_open :
  ~ (forall (env : Env) sources w w0 total e w1,
        start_run env (label_of sources) w = (Ok tt, w0) ->
        ingest_each env (plan sources) 0 w0 = (total, Some e, w1) ->
        exists b w', run env sources w = (Ok b, w'))
  /\ ~ (forall (env : Env) sources w w0 total e w1,
           start_run env (label_of sources) w = (Ok tt, w0) ->
           ingest_each env (plan sources) 0 w0 = (total, Some e, w1) ->
           exists r, In r (etl_runs (stored (db (snd (run env sources w)))))
                     /\ ended_at r <> None /\ error_message r <> None).
Proof.
  set (w0 := snd (start_run gecko_and_tracker_down (label_of None) new_world)).
  set (w1 := snd (ingest_each gecko_and_tracker_down (plan None) 0 w0)).
  assert (Es : start_run gecko_and_tracker_down (label_of None) new_world = (Ok tt, w0))
    by (vm_compute; reflexivity).
  assert (Ei : ingest_each gecko_and_tracker_down (plan None) 0 w0
               = (1%Z, Some api_error, w1)) by (vm_compute; reflexivity).
  split; intros claim.
  - destruct (claim gecko_and_tracker_down None new_world w0 1%Z api_error w1 Es Ei)
      as (b & w' & E).
    vm_compute in E. discriminate E.
  - destruct (claim gecko_and_tracker_down None new_world w0 1%Z api_error w1 Es Ei)
      as (r & Hin & Hend & _).
    vm_compute in Hin. destruct Hin as [<- | []]. apply Hend. reflexivity.
Qed.

(** Against C10 as stated: with no known name in the list, [run] still
    raises when the commit of [start_run] fails. *)
Lemma run_on_unknown_sources_can_raise :
  ~ (forall (env : Env) sources w,
        (forall s, ~ In (name_of s) (requested sources)) ->
        exists w', run env sources w = (Ok true, w')).
Proof.
  intros claim.
  destruct (claim store_down (Some ["binance"; "kraken"]) new_world) as (w' & E).
  - intros s [E | [E | []]]; destruct s; discriminate.
  - vm_compute in E. discriminate E.
Qed.

(** Against C9 as stated: a second ingestion that loads fewer records than
    the first lowers the cursor. *)
Lemma cursor_can_decrease :
  ~ (forall (env : Env) w n w',
        ingest_from_csv env w = (Ok n, w') ->
        forall a b,
          get_checkpoint "csv" w = (Ok a, w) ->
          get_checkpoint "csv" w' = (Ok b, w') ->
          (a <= b)%Z).
Proof.
  intros claim.
  set (w1 := snd (ingest_from_csv shrinking_file new_world)).
  set (w2 := snd (ingest_from_csv shrinking_file w1)).
  assert (E : ingest_from_csv shrinking_file w1 = (Ok 1%Z, w2))
    by (vm_compute; reflexivity).
  assert (A : get_checkpoint "csv" w1 = (Ok 2%Z, w1)) by (vm_compute; reflexivity).
  assert (B : get_checkpoint "csv" w2 = (Ok 1%Z, w2)) by (vm_compute; reflexivity).
  pose proof (claim shrinking_file w1 1%Z w2 E 2%Z 1%Z A B). lia.
Qed.

(** The row of the specification's scenario, which has no name, is left out. *)
Example nameless_row_is_dropped :
  transform_csv [nameless_row] 0 = (Ok ([], 1), 1).
Proof. vm_compute. reflexivity. Qed.
